(** * kafta: the [config set-context] and [cluster get-configs] commands

    A shallow embedding of [pkg/cmd/cli/config/create_context.go] and of the
    broker [get-configs] command, with the properties the specification
    states about them.

    Go strings are byte strings and are modelled by [string]; slices by
    [list]; the [map[string]*Context] of the configuration by a [gmap].
    Everything the commands do to the outside (terminal, TCP probes, the
    Kafka client, prompts) goes through one state monad that threads the
    outside world and records a trace of events. *)

From Stdlib Require Import String Ascii List ZArith Bool Lia DecimalString.
From Stdlib Require DecimalZ.
From stdpp Require Import base option gmap strings.

Import ListNotations.
Open Scope string_scope.
Open Scope list_scope.

(** ** Errors *)

(** Go's [error] values.  [errors.New] and [fmt.Errorf] build the first two;
    [cmdutil.HelpError] wraps a message with the command's help, and
    [cmdutil.HelpErrorf] a format with the values it is applied to (the
    text either produces is that package's and Go's [fmt]); the last stands
    for whatever an outside library (sarama, the prompt library) reports. *)
Inductive error : Type :=
| errorString (msg : string)
| errCouldNotConnect (servers : list string)
| errHelp (msg : string)
| errHelpf (format : string) (args : list string)
| errExternal (msg : string).

(** ** [strings.Split] with a one-byte separator

    [strings.Split(s, sep)] cuts [s] at every occurrence of [sep]; the
    result has one more element than there are occurrences, so it is never
    empty.  Both call sites use a one-byte separator. *)
Fixpoint Split (s : string) (sep : ascii) : list string :=
  match s with
  | EmptyString => [EmptyString]
  | String c rest =>
      if Ascii.eqb c sep then EmptyString :: Split rest sep
      else match Split rest sep with
           | [] => [String c EmptyString]
           | seg :: segs => String c seg :: segs
           end
  end.

Fixpoint contains_byte (s : string) (b : ascii) : bool :=
  match s with
  | EmptyString => false
  | String c rest => Ascii.eqb c b || contains_byte rest b
  end.

(** ** [cliflag.StringFlag] *)

Module cliflag.

(** Modelled from the spec: [StringFlag] of [internal/pkg/flag], a package
    outside the sources verified here.  The specification describes it as an
    optional-with-provenance wrapper: a value together with the fact that
    it was set, so that provided-but-empty differs from not-provided. *)
Record StringFlag : Type := mkStringFlag {
  provided : bool;
  value : string
}.

Definition zero : StringFlag := mkStringFlag false "".
Definition Provided (f : StringFlag) : bool := provided f.
Definition Value (f : StringFlag) : string := value f.
Definition String (f : StringFlag) : string := value f.
(** [Set] never fails; it stores the value and marks the flag provided. *)
Definition Set_ (v : string) (f : StringFlag) : StringFlag := mkStringFlag true v.

End cliflag.

(** ** [configuration.Context] and the store *)

Module configuration.

(** Modelled from the spec: the [sasl] sub-record of a context. *)
Record SASLConfig : Type := mkSASL {
  Algorithm : string;
  Username : string;
  Password : string
}.

(** Modelled from the spec: [configuration.Context], the stored profile,
    declared in [internal/pkg/configuration], a package outside the sources
    verified here.  The fields are the ones [modifyContext] and
    [promptNeeded] touch; the record is a value, copied by
    [modifiedContext := context]. *)
Record Context : Type := mkContext {
  SchemaRegistry : string;
  Ksql : string;
  BootstrapServers : list string;
  KafkaVersion : string;
  UseSASL : bool;
  SASL : SASLConfig;
  TLS : bool
}.

(** Modelled from the spec: the configuration store, a current context
    name and the contexts by name. *)
Record KaftaData : Type := mkKaftaData {
  CurrentContext : string;
  Contexts : gmap string Context
}.

Definition with_Ksql (v : string) (c : Context) : Context :=
  mkContext (SchemaRegistry c) v (BootstrapServers c) (KafkaVersion c)
            (UseSASL c) (SASL c) (TLS c).
Definition with_SchemaRegistry (v : string) (c : Context) : Context :=
  mkContext v (Ksql c) (BootstrapServers c) (KafkaVersion c)
            (UseSASL c) (SASL c) (TLS c).
Definition with_BootstrapServers (v : list string) (c : Context) : Context :=
  mkContext (SchemaRegistry c) (Ksql c) v (KafkaVersion c)
            (UseSASL c) (SASL c) (TLS c).
Definition with_KafkaVersion (v : string) (c : Context) : Context :=
  mkContext (SchemaRegistry c) (Ksql c) (BootstrapServers c) v
            (UseSASL c) (SASL c) (TLS c).
Definition with_UseSASL (v : bool) (c : Context) : Context :=
  mkContext (SchemaRegistry c) (Ksql c) (BootstrapServers c) (KafkaVersion c)
            v (SASL c) (TLS c).
Definition with_SASL (v : SASLConfig) (c : Context) : Context :=
  mkContext (SchemaRegistry c) (Ksql c) (BootstrapServers c) (KafkaVersion c)
            (UseSASL c) v (TLS c).
Definition with_TLS (v : bool) (c : Context) : Context :=
  mkContext (SchemaRegistry c) (Ksql c) (BootstrapServers c) (KafkaVersion c)
            (UseSASL c) (SASL c) v.

Definition with_Algorithm (v : string) (s : SASLConfig) : SASLConfig :=
  mkSASL v (Username s) (Password s).
Definition with_Username (v : string) (s : SASLConfig) : SASLConfig :=
  mkSASL (Algorithm s) v (Password s).
Definition with_Password (v : string) (s : SASLConfig) : SASLConfig :=
  mkSASL (Algorithm s) (Username s) v.

Definition with_Contexts (m : gmap string Context) (d : KaftaData) : KaftaData :=
  mkKaftaData (CurrentContext d) m.

End configuration.

Import configuration.

(** ** Results of a computation that may leave the process

    [cmdutil.CheckErr] is called all over the commands: on a non-nil error it
    prints it and ends the process.  [Exit] is that outcome. *)
Inductive res (A : Type) : Type :=
| Ret (a : A)
| Exit (e : error).
Arguments Ret {A} a.
Arguments Exit {A} e.

Definition res_bind {A B} (r : res A) (f : A -> res B) : res B :=
  match r with
  | Ret a => f a
  | Exit e => Exit e
  end.

(** Modelled from the spec: [cmdutil.CheckErr] of [pkg/cmd/util], a package
    outside the sources verified here: a failure is printed and the process
    exits non-zero. *)
Definition CheckErr_res (err : option error) : res unit :=
  match err with
  | None => Ret tt
  | Some e => Exit e
  end.

(** ** The options of [set-context] *)

Record createContextOptions : Type := mkOptions {
  name : string;
  currContext : bool;
  schemaRegistry : cliflag.StringFlag;
  ksql : cliflag.StringFlag;
  bootstrapServers : cliflag.StringFlag;
  version : cliflag.StringFlag;
  user : cliflag.StringFlag;
  password : cliflag.StringFlag;
  useSASL : cliflag.StringFlag;
  algorithm : cliflag.StringFlag;
  useTLS : bool;
  parsedVersion : string;
  quiet : bool
}.

Definition with_name (v : string) (o : createContextOptions) :=
  mkOptions v (currContext o) (schemaRegistry o) (ksql o) (bootstrapServers o)
            (version o) (user o) (password o) (useSASL o) (algorithm o)
            (useTLS o) (parsedVersion o) (quiet o).
Definition with_currContext (v : bool) (o : createContextOptions) :=
  mkOptions (name o) v (schemaRegistry o) (ksql o) (bootstrapServers o)
            (version o) (user o) (password o) (useSASL o) (algorithm o)
            (useTLS o) (parsedVersion o) (quiet o).
Definition with_schemaRegistry (v : cliflag.StringFlag) (o : createContextOptions) :=
  mkOptions (name o) (currContext o) v (ksql o) (bootstrapServers o)
            (version o) (user o) (password o) (useSASL o) (algorithm o)
            (useTLS o) (parsedVersion o) (quiet o).
Definition with_ksql (v : cliflag.StringFlag) (o : createContextOptions) :=
  mkOptions (name o) (currContext o) (schemaRegistry o) v (bootstrapServers o)
            (version o) (user o) (password o) (useSASL o) (algorithm o)
            (useTLS o) (parsedVersion o) (quiet o).
Definition with_bootstrapServers (v : cliflag.StringFlag) (o : createContextOptions) :=
  mkOptions (name o) (currContext o) (schemaRegistry o) (ksql o) v
            (version o) (user o) (password o) (useSASL o) (algorithm o)
            (useTLS o) (parsedVersion o) (quiet o).
Definition with_version (v : cliflag.StringFlag) (o : createContextOptions) :=
  mkOptions (name o) (currContext o) (schemaRegistry o) (ksql o) (bootstrapServers o)
            v (user o) (password o) (useSASL o) (algorithm o)
            (useTLS o) (parsedVersion o) (quiet o).
Definition with_user (v : cliflag.StringFlag) (o : createContextOptions) :=
  mkOptions (name o) (currContext o) (schemaRegistry o) (ksql o) (bootstrapServers o)
            (version o) v (password o) (useSASL o) (algorithm o)
            (useTLS o) (parsedVersion o) (quiet o).
Definition with_password (v : cliflag.StringFlag) (o : createContextOptions) :=
  mkOptions (name o) (currContext o) (schemaRegistry o) (ksql o) (bootstrapServers o)
            (version o) (user o) v (useSASL o) (algorithm o)
            (useTLS o) (parsedVersion o) (quiet o).
Definition with_useSASL (v : cliflag.StringFlag) (o : createContextOptions) :=
  mkOptions (name o) (currContext o) (schemaRegistry o) (ksql o) (bootstrapServers o)
            (version o) (user o) (password o) v (algorithm o)
            (useTLS o) (parsedVersion o) (quiet o).
Definition with_algorithm (v : cliflag.StringFlag) (o : createContextOptions) :=
  mkOptions (name o) (currContext o) (schemaRegistry o) (ksql o) (bootstrapServers o)
            (version o) (user o) (password o) (useSASL o) v
            (useTLS o) (parsedVersion o) (quiet o).
Definition with_useTLS (v : bool) (o : createContextOptions) :=
  mkOptions (name o) (currContext o) (schemaRegistry o) (ksql o) (bootstrapServers o)
            (version o) (user o) (password o) (useSASL o) (algorithm o)
            v (parsedVersion o) (quiet o).
Definition with_parsedVersion (v : string) (o : createContextOptions) :=
  mkOptions (name o) (currContext o) (schemaRegistry o) (ksql o) (bootstrapServers o)
            (version o) (user o) (password o) (useSASL o) (algorithm o)
            (useTLS o) v (quiet o).

(** ** sarama's version parser

    [sarama.ParseKafkaVersion] and [KafkaVersion.String] belong to an outside
    library; the merge only needs that they are functions. *)
Record sarama : Type := mkSarama {
  KafkaVersion_t : Type;
  ParseKafkaVersion : string -> KafkaVersion_t + error;
  KafkaVersion_String : KafkaVersion_t -> string
}.

Section Merge.

Variable lib : sarama.

(** [modifyContext] (create_context.go, 119-159). *)
Definition modifyContext (o : createContextOptions) (context : Context)
  : res Context :=
  let modifiedContext := context in
  let modifiedContext :=
    if cliflag.Provided (ksql o)
    then with_Ksql (cliflag.Value (ksql o)) modifiedContext
    else modifiedContext in
  let modifiedContext :=
    if cliflag.Provided (schemaRegistry o)
    then with_SchemaRegistry (cliflag.Value (schemaRegistry o)) modifiedContext
    else modifiedContext in
  let modifiedContext :=
    if cliflag.Provided (bootstrapServers o)
    then with_BootstrapServers
           (Split (cliflag.Value (bootstrapServers o)) ",") modifiedContext
    else modifiedContext in
  res_bind
    (if (0 <? String.length (parsedVersion o))%nat
     then match ParseKafkaVersion lib (parsedVersion o) with
          | inl version =>
              Ret (with_KafkaVersion (KafkaVersion_String lib version)
                                     modifiedContext)
          | inr err => Exit err
          end
     else Ret modifiedContext)
    (fun modifiedContext =>
       let modifiedContext :=
         if cliflag.Provided (useSASL o)
         then with_UseSASL true modifiedContext
         else modifiedContext in
       let modifiedContext :=
         if cliflag.Provided (algorithm o)
         then with_SASL (with_Algorithm (cliflag.Value (algorithm o))
                                        (SASL modifiedContext)) modifiedContext
         else modifiedContext in
       let modifiedContext :=
         if cliflag.Provided (user o)
         then with_SASL (with_Username (cliflag.Value (user o))
                                       (SASL modifiedContext)) modifiedContext
         else modifiedContext in
       let modifiedContext :=
         if cliflag.Provided (password o)
         then with_SASL (with_Password (cliflag.Value (password o))
                                       (SASL modifiedContext)) modifiedContext
         else modifiedContext in
       let modifiedContext := with_TLS (useTLS o) modifiedContext in
       Ret modifiedContext).

(** The pending version of the merge, when there is one to parse. *)
Definition version_step (o : createContextOptions) : res (option string) :=
  if (0 <? String.length (parsedVersion o))%nat
  then match ParseKafkaVersion lib (parsedVersion o) with
       | inl v => Ret (Some (KafkaVersion_String lib v))
       | inr err => Exit err
       end
  else Ret None.

(** The merge written field by field. *)
Definition merged (o : createContextOptions) (v : option string)
  (c : Context) : Context :=
  mkContext
    (if cliflag.Provided (schemaRegistry o)
     then cliflag.Value (schemaRegistry o) else SchemaRegistry c)
    (if cliflag.Provided (ksql o) then cliflag.Value (ksql o) else Ksql c)
    (if cliflag.Provided (bootstrapServers o)
     then Split (cliflag.Value (bootstrapServers o)) "," else BootstrapServers c)
    (match v with Some s => s | None => KafkaVersion c end)
    (cliflag.Provided (useSASL o) || UseSASL c)
    (mkSASL
       (if cliflag.Provided (algorithm o)
        then cliflag.Value (algorithm o) else Algorithm (SASL c))
       (if cliflag.Provided (user o)
        then cliflag.Value (user o) else Username (SASL c))
       (if cliflag.Provided (password o)
        then cliflag.Value (password o) else Password (SASL c)))
    (useTLS o).

End Merge.

(** ** The outside world *)

(** Modelled from the spec: a [BrokerSummary] of the broker-query layer, an
    id (an [int32]) and the controller mark. *)
Record Broker : Type := mkBroker {
  ID : Z;
  IsController : bool
}.

(** Modelled from the spec: one entry of a broker's effective configuration. *)
Record ConfigEntry : Type := mkConfigEntry {
  Name : string;
  ConfigValue : string;
  Default : bool
}.

(** What a command does that can be observed from outside, in the order in
    which it happens.  [EvReportModified name] is
    [fmt.Printf("Context %q modified.\n", name)] and [EvReportCreated name]
    the same with [created]: the event holds the name the verb [%q] is
    applied to, the quoting and escaping of the printed text being Go's. *)
Inductive event : Type :=
| EvPrintf (text : string)
| EvReportModified (name : string)
| EvReportCreated (name : string)
| EvPrintContext (c : Context)
| EvDial (address : string)
| EvMakeConnectionContext (c : Context)
| EvCloseConnection
| EvPrompt (label : string)
| EvMakeConnection
| EvGetBrokers
| EvDescribeBrokerConfig (brokerId : string)
| EvTable (rows : list ConfigEntry).

(** The collaborators the commands call.  Each takes the state of the
    outside world [W] and returns its answer with the next state, so that two
    calls may answer differently.  [DialTimeout] answers [true] when
    [net.DialTimeout] returns a nil error; [MakeConnectionContext] answers
    [Some err] for a non-nil error.  The calls of the [kafka] package that
    return no error ([MakeConnection], [GetBrokers], [DescribeBrokerConfig])
    end the process themselves when they fail: their answer says so. *)
Record collaborators (W : Type) : Type := mkCollaborators {
  lib_sarama : sarama;
  MakeContext : Context;
  DialTimeout : string -> W -> bool * W;
  MakeConnectionContext : KaftaData -> Context -> W -> option error * W;
  GetText : string -> bool -> W -> (string + error) * W;
  GetConfirmation : string -> bool -> W -> (bool + error) * W;
  GetPassword : string -> bool -> W -> (string + error) * W;
  MakeConnection : KaftaData -> W -> option error * W;
  GetBrokers : W -> (list Broker + error) * W;
  DescribeBrokerConfig : string -> W -> (list ConfigEntry + error) * W
}.
Arguments lib_sarama {W} _.
Arguments MakeContext {W} _.
Arguments DialTimeout {W} _ _ _.
Arguments MakeConnectionContext {W} _ _ _ _.
Arguments GetText {W} _ _ _ _.
Arguments GetConfirmation {W} _ _ _ _.
Arguments GetPassword {W} _ _ _ _.
Arguments MakeConnection {W} _ _ _.
Arguments GetBrokers {W} _ _.
Arguments DescribeBrokerConfig {W} _ _ _.

(** The state a command runs in: the outside world, the events so far (oldest
    first) and the configuration [o.config.KaftaData] points to. *)
Record state (W : Type) : Type := mkState {
  world : W;
  trace : list event;
  kafta : KaftaData
}.
Arguments mkState {W} _ _ _.
Arguments world {W} _.
Arguments trace {W} _.
Arguments kafta {W} _.

Definition M (W A : Type) : Type := state W -> res A * state W.

Definition ret {W A} (a : A) : M W A := fun st => (Ret a, st).

Definition bind {W A B} (m : M W A) (f : A -> M W B) : M W B :=
  fun st =>
    match m st with
    | (Ret a, st') => f a st'
    | (Exit e, st') => (Exit e, st')
    end.

Declare Scope cmd_scope.
Delimit Scope cmd_scope with cmd.
Notation "x <- m ;; k" := (bind m (fun x => k))
  (at level 100, m at next level, right associativity) : cmd_scope.
Notation "m ;;; k" := (bind m (fun _ => k))
  (at level 100, right associativity) : cmd_scope.
Open Scope cmd_scope.

Definition emit {W} (e : event) : M W unit :=
  fun st => (Ret tt, mkState (world st) (trace st ++ [e]) (kafta st)).

Definition ask {W A} (f : W -> A * W) : M W A :=
  fun st => let (a, w) := f (world st) in
            (Ret a, mkState w (trace st) (kafta st)).

Definition get_kafta {W} : M W KaftaData :=
  fun st => (Ret (kafta st), st).

Definition put_kafta {W} (d : KaftaData) : M W unit :=
  fun st => (Ret tt, mkState (world st) (trace st) d).

Definition lift_res {W A} (r : res A) : M W A :=
  fun st => (r, st).

Definition CheckErr {W} (err : option error) : M W unit :=
  lift_res (CheckErr_res err).

(** A call whose failure ends the process: a prompt of the [ui] package
    followed by [cmdutil.CheckErr(err)], or a call of the [kafka] package
    that checks its own error. *)
Definition ask_or_exit {W A} (f : W -> (A + error) * W) : M W A :=
  r <- ask f ;;
  match r with
  | inl a => ret a
  | inr err => lift_res (Exit err)
  end.

Definition prompt {W A} (label : string) (f : W -> (A + error) * W) : M W A :=
  emit (EvPrompt label) ;;;
  ask_or_exit f.

Definition newline : string := String (ascii_of_nat 10) EmptyString.

Section SetContext.

Context {W : Type}.
Variable E : collaborators W.

(** [testHost] (create_context.go, 206-222).  Both branches on [conn] return
    [true]; closing the probe connection is not observed. *)
Definition testHost (address : string) : M W bool :=
  if (length (Split address ":") <=? 1)%nat then
    emit (EvPrintf ("Port is nedeed on " ++ address ++ "!" ++ newline)) ;;;
    ret false
  else
    emit (EvDial address) ;;;
    ok <- ask (DialTimeout E address) ;;
    if negb ok then ret false else ret true.

(** [validate] (create_context.go, 177-204).  [&&] evaluates [testHost] only
    when the flag is provided. *)
Definition validate (o : createContextOptions) : M W (option error) :=
  if (String.length (name o) =? 0)%nat && negb (currContext o) then
    ret (Some (errorString "you must specify a non-empty context name or --current"))
  else if (0 <? String.length (name o))%nat && currContext o then
    ret (Some (errorString "you cannot specify both a context name and --current"))
  else
    ksqlBad <- (if cliflag.Provided (ksql o)
                then ok <- testHost (cliflag.String (ksql o)) ;; ret (negb ok)
                else ret false) ;;
    if ksqlBad then ret (Some (errorString "failed to connect on ksql"))
    else
      srBad <- (if cliflag.Provided (schemaRegistry o)
                then ok <- testHost (cliflag.String (schemaRegistry o)) ;; ret (negb ok)
                else ret false) ;;
      if srBad then ret (Some (errorString "failed to connect on schema-registry"))
      else
        if cliflag.Provided (useSASL o) && quiet o then
          if negb (cliflag.Provided (user o)) then
            ret (Some (errorString "user flag is required if SASL is provided"))
          else if negb (cliflag.Provided (password o)) then
            ret (Some (errorString "user flag is required if SASL is provided"))
          else ret None
        else ret None.

(** [checkConnection] (create_context.go, 224-234). *)
Definition checkConnection (o : createContextOptions) (context : Context)
  : M W (option error) :=
  if cliflag.Provided (bootstrapServers o) then
    cfg <- get_kafta ;;
    emit (EvMakeConnectionContext context) ;;;
    err <- ask (MakeConnectionContext E cfg context) ;;
    match err with
    | Some e => ret (Some e)
    | None => emit EvCloseConnection ;;; ret None
    end
  else ret None.

(** [promptNeeded] (create_context.go, 236-301).  The receiver is a
    pointer, so the flags it sets stay set for the rest of [run]: the
    options after the prompts are returned with the error. *)
Definition promptNeeded (o : createContextOptions) (context : Context)
  : M W (createContextOptions * option error) :=
  if quiet o then ret (o, None)
  else
    o <- (if negb (cliflag.Provided (bootstrapServers o))
             && (length (BootstrapServers context) =? 0)%nat
          then servers <- prompt "Bootstrap servers" (GetText E "Bootstrap servers" true) ;;
               ret (with_bootstrapServers (cliflag.Set_ servers (bootstrapServers o)) o)
          else ret o) ;;
    o <- (if negb (cliflag.Provided (version o))
             && (String.length (KafkaVersion context) =? 0)%nat
          then v <- prompt "Kafka version" (GetText E "Kafka version" true) ;;
               ret (with_version (cliflag.Set_ v (version o)) o)
          else ret o) ;;
    o <- (if negb (cliflag.Provided (useSASL o)) then
            sasl <- prompt "Use SASL" (GetConfirmation E "Use SASL" false) ;;
            if (sasl : bool) then
              let o := with_useSASL (cliflag.Set_ "true" (useSASL o)) o in
              o <- (if negb (cliflag.Provided (algorithm o))
                       && (String.length (Algorithm (SASL context)) =? 0)%nat
                    then a <- prompt "SASL Algorithm" (GetText E "SASL Algorithm" true) ;;
                         ret (with_algorithm (cliflag.Set_ a (algorithm o)) o)
                    else ret o) ;;
              o <- (if negb (cliflag.Provided (user o))
                       && (String.length (Username (SASL context)) =? 0)%nat
                    then u <- prompt "User" (GetText E "User" true) ;;
                         ret (with_user (cliflag.Set_ u (user o)) o)
                    else ret o) ;;
              o <- (if negb (cliflag.Provided (password o))
                       && (String.length (Password (SASL context)) =? 0)%nat
                    then p <- prompt "Password" (GetPassword E "Password" true) ;;
                         ret (with_password (cliflag.Set_ p (password o)) o)
                    else ret o) ;;
              ret o
            else ret o
          else ret o) ;;
    ret (o, None).

(** [run] (create_context.go, 84-117).  The result is Go's triple; the
    error is [None] for nil. *)
Definition run (o : createContextOptions)
  : M W (string * bool * option error) :=
  err <- validate o ;;
  match err with
  | Some e => ret ("", false, Some e)
  | None =>
      cfg <- get_kafta ;;
      match (if currContext o then
               if (String.length (CurrentContext cfg) =? 0)%nat
               then inr (errorString "no current context is set")
               else inl (CurrentContext cfg)
             else inl (name o)) with
      | inr e => ret ("", false, Some e)
      | inl name =>
          let '(startingInstance, exists_) :=
            match Contexts cfg !! name with
            | Some c => (c, true)
            | None => (MakeContext E, false)
            end in
          p <- promptNeeded o startingInstance ;;
          CheckErr (snd p) ;;;
          let o := fst p in
          context <- lift_res (modifyContext (lib_sarama E) o startingInstance) ;;
          emit (EvPrintContext context) ;;;
          err <- checkConnection o context ;;
          match err with
          | Some e =>
              CheckErr (Some e) ;;;
              ret ("", false, Some (errCouldNotConnect (BootstrapServers context)))
          | None =>
              cfg <- get_kafta ;;
              put_kafta (with_Contexts (<[name := context]> (Contexts cfg)) cfg) ;;;
              ret (name, exists_, None)
          end
      end
  end.

(** [complete] (create_context.go, 161-175); [args] are the positional
    arguments [cmd.Flags().Args()]. *)
Definition complete (o : createContextOptions) (args : list string)
  : createContextOptions * option error :=
  if (1 <? length args)%nat
  then (o, Some (errHelpf "Unexpected args: %v" args))
  else
    let o := match args with
             | [a] => with_name a o
             | _ => o
             end in
    let o := if cliflag.Provided (version o)
             then with_parsedVersion (cliflag.Value (version o)) o
             else o in
    (o, None).

(** The [Run] closure of [NewCmdConfigSetContext] (create_context.go,
    58-67), on options already filled by the flag parser. *)
Definition set_context_Run (o : createContextOptions) (args : list string)
  : M W unit :=
  let (o, err) := complete o args in
  CheckErr err ;;;
  r <- run o ;;
  let '(name, exists_, err) := r in
  CheckErr err ;;;
  if (exists_ : bool)
  then emit (EvReportModified name)
  else emit (EvReportCreated name).

End SetContext.

(** ** The command line of [set-context]

    [NewCmdConfigSetContext] (create_context.go, 49-82) registers the flags on
    a fresh options value: eight [StringFlag]s through [Var], whose [Set] the
    flag parser calls for each occurrence, and two booleans through
    [BoolVar], [--current] with default [false] and [--tls] with default
    [true].  No flag is bound to [quiet]. *)
Inductive flag : Type :=
| flag_current (b : bool)
| flag_schema_registry (v : string)
| flag_ksql (v : string)
| flag_server (v : string)
| flag_version (v : string)
| flag_sasl (v : string)
| flag_algorithm (v : string)
| flag_username (v : string)
| flag_password (v : string)
| flag_tls (b : bool).

Definition registered : createContextOptions :=
  mkOptions "" false cliflag.zero cliflag.zero cliflag.zero cliflag.zero
            cliflag.zero cliflag.zero cliflag.zero cliflag.zero true "" false.

Definition set_flag (o : createContextOptions) (f : flag) : createContextOptions :=
  match f with
  | flag_current b => with_currContext b o
  | flag_schema_registry v => with_schemaRegistry (cliflag.Set_ v (schemaRegistry o)) o
  | flag_ksql v => with_ksql (cliflag.Set_ v (ksql o)) o
  | flag_server v => with_bootstrapServers (cliflag.Set_ v (bootstrapServers o)) o
  | flag_version v => with_version (cliflag.Set_ v (version o)) o
  | flag_sasl v => with_useSASL (cliflag.Set_ v (useSASL o)) o
  | flag_algorithm v => with_algorithm (cliflag.Set_ v (algorithm o)) o
  | flag_username v => with_user (cliflag.Set_ v (user o)) o
  | flag_password v => with_password (cliflag.Set_ v (password o)) o
  | flag_tls b => with_useTLS b o
  end.

Definition parse_flags (flags : list flag) : createContextOptions :=
  fold_left set_flag flags registered.

Definition is_flag_tls (f : flag) : bool :=
  match f with flag_tls _ => true | _ => false end.

(** The value of [--tls] after parsing: the last occurrence, [true] when the
    flag is not passed. *)
Definition tls_flag_value (flags : list flag) : bool :=
  fold_left (fun acc f => match f with flag_tls b => b | _ => acc end) flags true.

(** One invocation [kafta config set-context flags args]. *)
Definition set_context {W} (E : collaborators W) (flags : list flag)
  (args : list string) : M W unit :=
  set_context_Run E (parse_flags flags) args.

(** ** [cluster get-configs] *)

(** [strconv.FormatInt(i, 10)]. *)
Definition FormatInt (i : Z) : string := NilZero.string_of_int (Z.to_int i).

Record clusterConfig : Type := mkClusterConfig {
  brokerId : string
}.

(** The [for ... range brokers] loop of [defaultValue]: the first controller
    sets [o.brokerId] and breaks. *)
Fixpoint controller_loop (brokers : list Broker) (o : clusterConfig) : clusterConfig :=
  match brokers with
  | [] => o
  | broker :: rest =>
      if IsController broker
      then mkClusterConfig (FormatInt (ID broker))
      else controller_loop rest o
  end.

(** The specification's words: the first broker of the listed sequence whose
    [isController] flag is true. *)
Definition first_controller (brokers : list Broker) : option Broker :=
  List.find IsController brokers.

Section GetConfigs.

Context {W : Type}.
Variable E : collaborators W.

(** [defaultValue] (get-configs, 35-59).  [defer conn.Close()] runs when
    the function returns. *)
Definition defaultValue (o : clusterConfig) (args : list string)
  : M W (clusterConfig * option error) :=
  match args with
  | [] =>
      cfg <- get_kafta ;;
      emit EvMakeConnection ;;;
      ask_or_exit (fun w => match MakeConnection E cfg w with
                            | (None, w') => (inl tt, w')
                            | (Some e, w') => (inr e, w')
                            end) ;;;
      emit EvGetBrokers ;;;
      brokers <- ask_or_exit (GetBrokers E) ;;
      let o := controller_loop brokers o in
      emit EvCloseConnection ;;;
      if String.eqb (brokerId o) ""
      then ret (o, Some (errHelp "Impossible find BrokerId coordinator"))
      else ret (o, None)
  | arg0 :: _ => ret (mkClusterConfig arg0, None)
  end.

(** [run] of [clusterConfig] (get-configs, 61-75): the table is written to
    standard output when the writer is flushed. *)
Definition run_get_configs (o : clusterConfig) : M W unit :=
  cfg <- get_kafta ;;
  emit EvMakeConnection ;;;
  ask_or_exit (fun w => match MakeConnection E cfg w with
                        | (None, w') => (inl tt, w')
                        | (Some e, w') => (inr e, w')
                        end) ;;;
  emit (EvDescribeBrokerConfig (brokerId o)) ;;;
  configs <- ask_or_exit (DescribeBrokerConfig E (brokerId o)) ;;
  emit (EvTable configs) ;;;
  emit EvCloseConnection.

(** The [Run] closure of [NewCmdClusterGetConfig] (get-configs, 21-33), on
    the fresh options [&clusterConfig{config: config}]. *)
Definition get_configs (args : list string) : M W unit :=
  p <- defaultValue (mkClusterConfig "") args ;;
  CheckErr (snd p) ;;;
  run_get_configs (fst p).

End GetConfigs.

(** * Vocabulary of the statements *)

(** ** Sample values *)

(** A version library that accepts the dotted versions it is given and turns
    away everything else; enough to run the merge on concrete inputs. *)
Definition sarama_sample : sarama :=
  mkSarama string
           (fun s => if String.eqb s "2.8.0" || String.eqb s "3.0.0"
                     then inl s else inr (errExternal "invalid version"))
           (fun v => v).

Definition ctx_zero : Context :=
  mkContext "" "" [] "" false (mkSASL "" "" "") false.

(** A stored profile written earlier with [--tls=false]. *)
Definition ctx_plain : Context :=
  mkContext "" "" ["b-1.kafka.example.com:9092"] "2.8.0" false
            (mkSASL "" "" "") false.

(** A stored profile with SASL in use. *)
Definition ctx_sasl : Context :=
  mkContext "" "" ["b-1.kafka.example.com:9092"] "2.8.0" true
            (mkSASL "SHA512" "alice" "secret") true.

(** No tri-state override is provided. *)
Definition no_override (o : createContextOptions) : bool :=
  negb (cliflag.Provided (schemaRegistry o))
  && negb (cliflag.Provided (ksql o))
  && negb (cliflag.Provided (bootstrapServers o))
  && negb (cliflag.Provided (version o))
  && negb (cliflag.Provided (user o))
  && negb (cliflag.Provided (password o))
  && negb (cliflag.Provided (useSASL o))
  && negb (cliflag.Provided (algorithm o)).

(** What [complete] guarantees about [parsedVersion] on freshly registered
    options, and what the prompts keep: without a provided [--version] there
    is no version to parse. *)
Definition version_completed (o : createContextOptions) : Prop :=
  cliflag.Provided (version o) = false -> parsedVersion o = "".

(** Some SASL-related override is provided. *)
Definition sasl_related (o : createContextOptions) : bool :=
  cliflag.Provided (useSASL o) || cliflag.Provided (algorithm o)
  || cliflag.Provided (user o) || cliflag.Provided (password o).

(** ** Runs and their postconditions *)

(** [wp m Q st]: running [m] from [st] ends in a result and a state that
    satisfy [Q].  Commands are total functions, so this is a statement about
    the one run there is. *)
Definition wp {W A} (m : M W A) (Q : res A -> state W -> Prop) (st : state W)
  : Prop :=
  Q (fst (m st)) (snd (m st)).

(** The run added the events [new] to the trace and left the configuration
    alone. *)
Definition adds {W} (st st' : state W) (new : list event) : Prop :=
  trace st' = trace st ++ new /\ kafta st' = kafta st.

(** ** Validation *)

(** The address has no [:port]: cutting it at [":"] gives at most one piece. *)
Definition lacks_port (address : string) : bool :=
  (length (Split address ":") <=? 1)%nat.

(** What [testHost] prints for such an address. *)
Definition port_report (address : string) : event :=
  EvPrintf ("Port is nedeed on " ++ address ++ "!" ++ newline).

Definition is_dial (ev : event) : bool :=
  match ev with EvDial _ => true | _ => false end.

(** The events validation may add: a report on an address without port, or
    a TCP connect to an address that has one. *)
Definition probe_event (ev : event) : Prop :=
  match ev with
  | EvDial a => lacks_port a = false
  | EvPrintf _ => True
  | _ => False
  end.

Definition err_name_required : error :=
  errorString "you must specify a non-empty context name or --current".

Definition err_name_and_current : error :=
  errorString "you cannot specify both a context name and --current".

Definition err_sasl_credentials : error :=
  errorString "user flag is required if SASL is provided".

(** The two ways to miss "exactly one of name and [--current]". *)
Definition name_neither (o : createContextOptions) : bool :=
  (String.length (name o) =? 0)%nat && negb (currContext o).

Definition name_both (o : createContextOptions) : bool :=
  (0 <? String.length (name o))%nat && currContext o.

(** The quiet-mode SASL gate is closed. *)
Definition sasl_gate_closed (o : createContextOptions) : bool :=
  cliflag.Provided (useSASL o) && quiet o
  && negb (cliflag.Provided (user o) && cliflag.Provided (password o)).

(** What is known of a run of [validate]: it returns (it never leaves the
    process), adds only probe events, keeps the configuration, and decides
    as the gates say. *)
Definition validate_post {W} (o : createContextOptions) (st : state W)
  (r : res (option error)) (st' : state W) : Prop :=
  exists err new,
    r = Ret err /\ adds st st' new /\ Forall probe_event new
    /\ (name_neither o = true -> err = Some err_name_required /\ new = [])
    /\ (name_both o = true -> err = Some err_name_and_current /\ new = [])
    /\ (name_neither o = false -> name_both o = false ->
        err <> Some err_name_required /\ err <> Some err_name_and_current)
    /\ (cliflag.Provided (ksql o) = true ->
        lacks_port (cliflag.String (ksql o)) = true ->
        err <> None /\ Forall (fun ev => is_dial ev = false) new)
    /\ (cliflag.Provided (schemaRegistry o) = true ->
        lacks_port (cliflag.String (schemaRegistry o)) = true ->
        err <> None
        /\ (cliflag.Provided (ksql o) = false ->
            Forall (fun ev => is_dial ev = false) new))
    /\ (sasl_gate_closed o = true -> err <> None)
    /\ (name_neither o = false -> name_both o = false ->
        cliflag.Provided (ksql o) = false ->
        cliflag.Provided (schemaRegistry o) = false ->
        new = []
        /\ err = if sasl_gate_closed o then Some err_sasl_credentials else None).

(** ** Prompts *)

Definition is_prompt (ev : event) : bool :=
  match ev with EvPrompt _ => true | _ => false end.

(** A flag that was provided is not asked for again. *)
Definition kept (f : createContextOptions -> cliflag.StringFlag)
  (o o' : createContextOptions) : Prop :=
  cliflag.Provided (f o) = true -> f o' = f o.

(** [o'] is [o] after the prompts: the prompts only set flags that were not
    provided, and touch nothing else. *)
Definition prompted_from (o o' : createContextOptions) : Prop :=
  name o' = name o /\ currContext o' = currContext o
  /\ schemaRegistry o' = schemaRegistry o /\ ksql o' = ksql o
  /\ useTLS o' = useTLS o /\ parsedVersion o' = parsedVersion o
  /\ quiet o' = quiet o
  /\ kept bootstrapServers o o' /\ kept version o o' /\ kept user o o'
  /\ kept password o o' /\ kept useSASL o o' /\ kept algorithm o o'.

Definition promptNeeded_post {W} (o : createContextOptions) (st : state W)
  (r : res (createContextOptions * option error)) (st' : state W) : Prop :=
  exists new,
    adds st st' new /\ Forall (fun ev => is_prompt ev = true) new
    /\ match r with
       | Ret (o', err) =>
           err = None /\ prompted_from o o'
           /\ (cliflag.Provided (bootstrapServers o) = false ->
               cliflag.Provided (bootstrapServers o') = true ->
               In (EvPrompt "Bootstrap servers") new)
           /\ (quiet o = true -> o' = o /\ st' = st)
       | Exit _ => quiet o = false
       end.

(** ** The run of the command *)

Definition is_connect (ev : event) : bool :=
  match ev with EvMakeConnectionContext _ => true | _ => false end.

(** The name [run] works on: the current context under [--current], the
    given name otherwise. *)
Definition target_name (o : createContextOptions) (d : KaftaData) : string :=
  if currContext o then CurrentContext d else name o.

(** The profile the merge starts from. *)
Definition starting_instance {W} (E : collaborators W) (d : KaftaData)
  (n : string) : Context :=
  match Contexts d !! n with
  | Some c => c
  | None => MakeContext E
  end.

(** [run] did not succeed: the process ended, or an error was returned. *)
Definition failed (r : res (string * bool * option error)) : Prop :=
  match r with
  | Ret (_, _, None) => False
  | _ => True
  end.

(** What is known of a run of [run]. *)
Definition run_post {W} (E : collaborators W) (o : createContextOptions)
  (st : state W) (r : res (string * bool * option error)) (st' : state W)
  : Prop :=
  exists new,
    trace st' = trace st ++ new
    /\ (forall a, In (EvDial a) new -> lacks_port a = false)
    /\ (cliflag.Provided (bootstrapServers o) = false ->
        ~ In (EvPrompt "Bootstrap servers") new ->
        Forall (fun ev => is_connect ev = false) new)
    /\ match r with
       | Ret (n, ex, None) =>
           exists o' c,
             n = target_name o (kafta st)
             /\ ex = match Contexts (kafta st) !! n with
                     | Some _ => true
                     | None => false
                     end
             /\ prompted_from o o'
             /\ modifyContext (lib_sarama E) o' (starting_instance E (kafta st) n)
                = Ret c
             /\ kafta st'
                = with_Contexts (<[n := c]> (Contexts (kafta st))) (kafta st)
             /\ (cliflag.Provided (bootstrapServers o') = true ->
                 In (EvMakeConnectionContext c) new
                 /\ exists w, fst (MakeConnectionContext E (kafta st) c w) = None)
       | _ => kafta st' = kafta st
       end.

(** The events a run added: the trace after, without the trace before. *)
Definition since {W} (st st' : state W) : list event :=
  skipn (length (trace st)) (trace st').

(** ** Sample worlds and stores *)

(** An outside world that always answers the same: TCP probes succeed when
    [probe], the Kafka cluster can be reached when [cluster]; the user
    answers no to "Use SASL" and types nothing. *)
Definition sample_world (probe cluster : bool) : collaborators unit :=
  mkCollaborators unit sarama_sample ctx_zero
    (fun _ w => (probe, w))
    (fun _ _ w =>
       (if cluster then None
        else Some (errExternal "kafka: client has run out of available brokers"), w))
    (fun _ _ w => (inl "", w))
    (fun _ _ w => (inl false, w))
    (fun _ _ w => (inl "", w))
    (fun _ w =>
       (if cluster then None
        else Some (errExternal "kafka: client has run out of available brokers"), w))
    (fun w => (inl [mkBroker 1 false; mkBroker 2 true; mkBroker 3 true], w))
    (fun _ w => (inl [mkConfigEntry "log.dirs" "/var/lib/kafka" false], w)).

(** A store with one profile, [dev], which is the current one. *)
Definition store_dev : KaftaData :=
  mkKaftaData "dev" {[ "dev" := ctx_plain ]}.

Definition start (d : KaftaData) : state unit := mkState tt [] d.

(** Every TCP probe is answered. *)
Definition probes_answer {W} (E : collaborators W) : Prop :=
  forall a w, fst (DialTimeout E a w) = true.

(** The Kafka cluster of every profile can be reached. *)
Definition cluster_reachable {W} (E : collaborators W) : Prop :=
  forall cfg c w, fst (MakeConnectionContext E cfg c w) = None.

(** Apart from the SASL gate, nothing stands in the way of [run]: exactly
    one of name and [--current], a current context to resolve
    [--current], addresses with ports that answer, a version that
    parses. *)
Definition otherwise_valid {W} (E : collaborators W)
  (o : createContextOptions) (d : KaftaData) : Prop :=
  name_neither o = false /\ name_both o = false
  /\ (currContext o = true -> CurrentContext d <> "")
  /\ (cliflag.Provided (ksql o) = true ->
      lacks_port (cliflag.String (ksql o)) = false)
  /\ (cliflag.Provided (schemaRegistry o) = true ->
      lacks_port (cliflag.String (schemaRegistry o)) = false)
  /\ probes_answer E
  /\ exists v, version_step (lib_sarama E) o = Ret v.

(** Options of a scripted invocation: [quiet] is a field of the options that
    no flag of the command sets. *)
Definition quiet_options (n : string) (flags : list flag) : createContextOptions :=
  let o := fst (complete (parse_flags flags) [n]) in
  mkOptions (name o) (currContext o) (schemaRegistry o) (ksql o)
            (bootstrapServers o) (version o) (user o) (password o)
            (useSASL o) (algorithm o) (useTLS o) (parsedVersion o) true.

(** ** Broker listing *)

Definition is_get_brokers (ev : event) : bool :=
  match ev with EvGetBrokers => true | _ => false end.

Definition err_no_controller : error :=
  errHelp "Impossible find BrokerId coordinator".

(** ** Further vocabulary *)

(** The number of occurrences of a byte. *)
Fixpoint count_byte (s : string) (b : ascii) : nat :=
  match s with
  | EmptyString => 0
  | String c rest => (if Ascii.eqb c b then 1 else 0) + count_byte rest b
  end.

(** The pieces put together again, the separator between them: what
    [strings.Join] gives. *)
Fixpoint Join (pieces : list string) (sep : ascii) : string :=
  match pieces with
  | [] => EmptyString
  | [piece] => piece
  | piece :: rest => piece ++ String sep (Join rest sep)
  end.

(** Two override sets in a row, as one: each flag is the later one when that
    is provided and the earlier one otherwise; [--tls] is the later value;
    the version to parse is the later one unless it is empty. *)
Definition later_flag (f1 f2 : cliflag.StringFlag) : cliflag.StringFlag :=
  if cliflag.Provided f2 then f2 else f1.

Definition overlay (o1 o2 : createContextOptions) : createContextOptions :=
  mkOptions (name o2) (currContext o2)
            (later_flag (schemaRegistry o1) (schemaRegistry o2))
            (later_flag (ksql o1) (ksql o2))
            (later_flag (bootstrapServers o1) (bootstrapServers o2))
            (later_flag (version o1) (version o2))
            (later_flag (user o1) (user o2))
            (later_flag (password o1) (password o2))
            (later_flag (useSASL o1) (useSASL o2))
            (later_flag (algorithm o1) (algorithm o2))
            (useTLS o2)
            (if (0 <? String.length (parsedVersion o2))%nat
             then parsedVersion o2 else parsedVersion o1)
            (quiet o2).

(** The labels of the prompts among some events, in order. *)
Definition prompt_labels (evs : list event) : list string :=
  flat_map (fun ev => match ev with EvPrompt l => [l] | _ => [] end) evs.

(** [l1] can be read in [l2] from left to right, skipping entries. *)
Fixpoint subseq (l1 l2 : list string) : bool :=
  match l1, l2 with
  | [], _ => true
  | _ :: _, [] => false
  | x :: r1, y :: r2 => if String.eqb x y then subseq r1 r2 else subseq l1 r2
  end.

(** The prompts of [promptNeeded], in the order of the source. *)
Definition prompt_order : list string :=
  ["Bootstrap servers"; "Kafka version"; "Use SASL"; "SASL Algorithm";
   "User"; "Password"].

(** How the trace of [run] ends, after the events of validation and of the
    prompts: with nothing, with the printed profile, or with the printed
    profile and the connection to its cluster. *)
Inductive run_tail : Type :=
| tail_none
| tail_printed (c : Context)
| tail_connected (c : Context)
| tail_refused (c : Context).

Definition tail_events (t : run_tail) : list event :=
  match t with
  | tail_none => []
  | tail_printed c => [EvPrintContext c]
  | tail_connected c =>
      [EvPrintContext c; EvMakeConnectionContext c; EvCloseConnection]
  | tail_refused c => [EvPrintContext c; EvMakeConnectionContext c]
  end.

(** A user who types a Kafka version and a server at the prompts and
    declines SASL, in front of a cluster in reach. *)
Definition typing_world : collaborators unit :=
  mkCollaborators unit sarama_sample ctx_zero
    (fun _ w => (true, w))
    (fun _ _ w => (None, w))
    (fun label _ w =>
       (inl (if String.eqb label "Kafka version" then "3.0.0" else "b-2:9092"), w))
    (fun _ _ w => (inl false, w))
    (fun _ _ w => (inl "", w))
    (fun _ w => (None, w))
    (fun w => (inl [mkBroker 1 false; mkBroker 2 true], w))
    (fun _ w => (inl [mkConfigEntry "log.dirs" "/var/lib/kafka" false], w)).

(** The prompt labelled [label] is among the events. *)
Definition asked (label : string) (evs : list event) : bool :=
  existsb (String.eqb label) (prompt_labels evs).

(** Which prompts a run of [promptNeeded] shows: never one in quiet mode,
    each of the others exactly when its flag is not provided and the profile
    holds nothing for it, the three SASL fields only after "Use SASL" was
    asked and confirmed (which leaves [--sasl] provided), and all in the
    order of [prompt_order]. *)
Definition promptNeeded_prompts {W} (o : createContextOptions)
  (context : Context) (st : state W)
  (r : res (createContextOptions * option error)) (st' : state W) : Prop :=
  exists new,
    trace st' = trace st ++ new
    /\ subseq (prompt_labels new) prompt_order = true
    /\ match r with
       | Ret (o', _) =>
           asked "Bootstrap servers" new
           = negb (quiet o)
             && (negb (cliflag.Provided (bootstrapServers o))
                 && (length (BootstrapServers context) =? 0)%nat)
           /\ asked "Kafka version" new
              = negb (quiet o)
                && (negb (cliflag.Provided (version o))
                    && (String.length (KafkaVersion context) =? 0)%nat)
           /\ asked "Use SASL" new
              = negb (quiet o) && negb (cliflag.Provided (useSASL o))
           /\ asked "SASL Algorithm" new
              = negb (quiet o)
                && (negb (cliflag.Provided (useSASL o))
                    && (cliflag.Provided (useSASL o')
                        && (negb (cliflag.Provided (algorithm o))
                            && (String.length (Algorithm (SASL context)) =? 0)%nat)))
           /\ asked "User" new
              = negb (quiet o)
                && (negb (cliflag.Provided (useSASL o))
                    && (cliflag.Provided (useSASL o')
                        && (negb (cliflag.Provided (user o))
                            && (String.length (Username (SASL context)) =? 0)%nat)))
           /\ asked "Password" new
              = negb (quiet o)
                && (negb (cliflag.Provided (useSASL o))
                    && (cliflag.Provided (useSASL o')
                        && (negb (cliflag.Provided (password o))
                            && (String.length (Password (SASL context)) =? 0)%nat)))
           /\ cliflag.Provided (bootstrapServers o')
              = cliflag.Provided (bootstrapServers o)
                || asked "Bootstrap servers" new
       | Exit _ => quiet o = false
       end.

Definition err_no_current : error := errorString "no current context is set".

Definition is_print_context (ev : event) : bool :=
  match ev with EvPrintContext _ => true | _ => false end.

(** What a run of [run] does, in order: the probes of validation, then the
    prompts, then the printed profile and the connection; and how the way it
    ends shows in its result. *)
Definition run_shape {W} (E : collaborators W) (o : createContextOptions)
  (st : state W) (r : res (string * bool * option error)) (st' : state W)
  : Prop :=
  exists probes prompts t o',
    trace st' = trace st ++ probes ++ prompts ++ tail_events t
    /\ probes = since st (snd (validate E o st))
    /\ Forall probe_event probes
    /\ Forall (fun ev => is_prompt ev = true) prompts
    /\ subseq (prompt_labels prompts) prompt_order = true
    /\ prompted_from o o'
    /\ match r with
       | Ret (n, ex, None) =>
           fst (validate E o st) = Ret None
           /\ cliflag.Provided (bootstrapServers o')
              = cliflag.Provided (bootstrapServers o)
                || asked "Bootstrap servers" prompts
           /\ exists c,
               Contexts (kafta st') !! n = Some c
               /\ t = if cliflag.Provided (bootstrapServers o')
                      then tail_connected c else tail_printed c
       | Ret (n, ex, Some e) =>
           n = "" /\ ex = false /\ prompts = [] /\ t = tail_none
           /\ (fst (validate E o st) = Ret (Some e)
               \/ (fst (validate E o st) = Ret None
                   /\ currContext o = true
                   /\ CurrentContext (kafta st) = ""
                   /\ e = err_no_current))
       | Exit e =>
           fst (validate E o st) = Ret None
           /\ ((t = tail_none
                /\ (quiet o = false \/ version_step (lib_sarama E) o = Exit e))
               \/ (exists c,
                      t = tail_refused c
                      /\ cliflag.Provided (bootstrapServers o') = true
                      /\ modifyContext (lib_sarama E) o'
                           (starting_instance E (kafta st)
                              (target_name o (kafta st))) = Ret c))
       end.

(** ** The table of [get-configs] *)

Definition is_table (ev : event) : bool :=
  match ev with EvTable _ => true | _ => false end.

(** The same user in front of a cluster out of reach. *)
Definition typing_offline : collaborators unit :=
  mkCollaborators unit sarama_sample ctx_zero
    (fun _ w => (true, w))
    (fun _ _ w =>
       (Some (errExternal "kafka: client has run out of available brokers"), w))
    (fun label _ w =>
       (inl (if String.eqb label "Kafka version" then "3.0.0" else "b-2:9092"), w))
    (fun _ _ w => (inl false, w))
    (fun _ _ w => (inl "", w))
    (fun _ w =>
       (Some (errExternal "kafka: client has run out of available brokers"), w))
    (fun w => (inl [mkBroker 1 false; mkBroker 2 true], w))
    (fun _ w => (inl [mkConfigEntry "log.dirs" "/var/lib/kafka" false], w)).

(** * Properties of the merge *)

Section MergeFacts.

Variable lib : sarama.

Lemma modifyContext_merged o c :
  modifyContext lib o c
  = res_bind (version_step lib o) (fun v => Ret (merged o v c)).
Proof.
  unfold modifyContext, version_step, merged.
  destruct o as [n cu [p1 v1] [p2 v2] [p3 v3] [p4 v4] [p5 v5] [p6 v6] [p7 v7] [p8 v8] tls pv q].
  destruct c as [sr k bs kv us [a u pw] t]. cbn.
  destruct (String.length pv); cbn.
  - destruct p1, p2, p3, p5, p6, p7, p8; reflexivity.
  - destruct (ParseKafkaVersion lib pv); cbn; [|reflexivity].
    destruct p1, p2, p3, p5, p6, p7, p8; reflexivity.
Qed.

Lemma modifyContext_Ret o c c' :
  modifyContext lib o c = Ret c' ->
  exists v, version_step lib o = Ret v /\ c' = merged o v c.
Proof.
  rewrite modifyContext_merged. destruct (version_step lib o) as [v|e]; cbn.
  - intros [= <-]. eauto.
  - discriminate.
Qed.

Lemma modifyContext_Exit o c e :
  modifyContext lib o c = Exit e <->
  (0 < String.length (parsedVersion o))%nat
  /\ ParseKafkaVersion lib (parsedVersion o) = inr e.
Proof.
  rewrite modifyContext_merged. unfold version_step.
  destruct (Nat.ltb_spec 0 (String.length (parsedVersion o))) as [Hlt|Hge]; cbn.
  - destruct (ParseKafkaVersion lib (parsedVersion o)); cbn; split.
    + discriminate.
    + intros [_ [=]].
    + intros [= ->]. auto.
    + intros [_ [= ->]]. reflexivity.
  - split; [discriminate | intros [Hlt _]; lia].
Qed.

Lemma version_step_again o v c :
  version_step lib o = Ret v ->
  merged o v (merged o v c) = merged o v c.
Proof.
  intros _. unfold merged; cbn.
  destruct (cliflag.Provided (schemaRegistry o)), (cliflag.Provided (ksql o)),
    (cliflag.Provided (bootstrapServers o)), (cliflag.Provided (useSASL o)),
    (cliflag.Provided (algorithm o)), (cliflag.Provided (user o)),
    (cliflag.Provided (password o)), v; cbn; try reflexivity;
    rewrite ?orb_diag; reflexivity.
Qed.

Lemma merged_UseSASL o v c :
  UseSASL (merged o v c) = cliflag.Provided (useSASL o) || UseSASL c.
Proof. reflexivity. Qed.

Lemma no_override_merged o c :
  no_override o = true -> merged o None c = with_TLS (useTLS o) c.
Proof.
  unfold no_override, merged, with_TLS. intros H.
  repeat (apply andb_prop in H; destruct H as [H ?]).
  repeat match goal with
         | Hn : negb ?b = true |- _ => apply negb_true_iff in Hn; rewrite Hn
         end.
  destruct c as [sr k bs kv us [a u pw] t]; reflexivity.
Qed.

End MergeFacts.

(** ** The merge, claim by claim *)

(** C5. Merging the same override set twice gives what merging it once
    gives: [merge(merge(base, ov), ov) = merge(base, ov)], also when the
    version does not parse (both sides then end the process with the same
    error). *)
Theorem modifyContext_idempotent (lib : sarama) (o : createContextOptions)
  (base : Context) :
  res_bind (modifyContext lib o base) (modifyContext lib o)
  = modifyContext lib o base.
Proof.
  rewrite modifyContext_merged.
  destruct (version_step lib o) as [v|e] eqn:Hv; cbn; [|reflexivity].
  rewrite modifyContext_merged, Hv; cbn.
  f_equal. now apply version_step_again with (lib := lib).
Qed.

(** Every command line leaves options that [complete] has made consistent,
    and the prompts keep them so. *)
Lemma parse_flags_parsedVersion (flags : list flag) (o : createContextOptions) :
  parsedVersion (fold_left set_flag flags o) = parsedVersion o.
Proof.
  revert o. induction flags as [|f rest IH]; intros o; [reflexivity|].
  cbn [fold_left]. rewrite IH. destruct f; reflexivity.
Qed.

Lemma complete_version_completed (flags : list flag) (args : list string) :
  version_completed (fst (complete (parse_flags flags) args)).
Proof.
  unfold version_completed, complete, parse_flags.
  pose proof (parse_flags_parsedVersion flags registered) as Hpv.
  set (o := fold_left set_flag flags registered) in *.
  destruct (1 <? length args)%nat; [intros _; exact Hpv|].
  destruct args as [|a [|b rest]]; cbn;
    destruct (cliflag.Provided (version o)) eqn:Hv; cbn;
    intros H; try congruence; exact Hpv.
Qed.

Lemma prompted_version_completed (o o' : createContextOptions) :
  prompted_from o o' -> version_completed o -> version_completed o'.
Proof.
  intros (_ & _ & _ & _ & _ & Hpv & _ & _ & Hver & _) Hc Hnot.
  rewrite Hpv. apply Hc.
  destruct (cliflag.Provided (version o)) eqn:Hv; [|reflexivity].
  unfold kept in Hver. rewrite (Hver Hv), Hv in Hnot. discriminate.
Qed.

(** C2, as stated, fails: with no override provided and the [--tls] flag at
    its default, a stored profile whose [TLS] is [false] does not come back
    equal from the merge. *)
Lemma merge_empty_overrides_changes_base :
  no_override registered = true
  /\ modifyContext sarama_sample registered ctx_plain = Ret (with_TLS true ctx_plain)
  /\ modifyContext sarama_sample registered ctx_plain <> Ret ctx_plain.
Proof. repeat split; discriminate. Qed.

(** C2, amended. On options as [complete] leaves them, every tri-state field
    whose [Provided()] is false keeps the base's value; with no override
    provided the merge returns the base with [TLS] replaced by the value of
    the [--tls] flag, which equals the base exactly when the base's [TLS]
    already has that value. *)
Theorem modifyContext_keeps_unprovided (lib : sarama)
  (o : createContextOptions) (base : Context) :
  version_completed o ->
  match modifyContext lib o base with
  | Ret c =>
      (cliflag.Provided (schemaRegistry o) = false ->
       SchemaRegistry c = SchemaRegistry base)
      /\ (cliflag.Provided (ksql o) = false -> Ksql c = Ksql base)
      /\ (cliflag.Provided (bootstrapServers o) = false ->
          BootstrapServers c = BootstrapServers base)
      /\ (cliflag.Provided (version o) = false ->
          KafkaVersion c = KafkaVersion base)
      /\ (cliflag.Provided (useSASL o) = false -> UseSASL c = UseSASL base)
      /\ (cliflag.Provided (algorithm o) = false ->
          Algorithm (SASL c) = Algorithm (SASL base))
      /\ (cliflag.Provided (user o) = false ->
          Username (SASL c) = Username (SASL base))
      /\ (cliflag.Provided (password o) = false ->
          Password (SASL c) = Password (SASL base))
  | Exit _ => cliflag.Provided (version o) = true
  end
  /\ (no_override o = true ->
      modifyContext lib o base = Ret (with_TLS (useTLS o) base)
      /\ (with_TLS (useTLS o) base = base <-> TLS base = useTLS o)).
Proof.
  intros Hcompl. split.
  - rewrite modifyContext_merged. unfold version_step.
    destruct (cliflag.Provided (version o)) eqn:Hver.
    + destruct (0 <? String.length (parsedVersion o))%nat; cbn;
        [destruct (ParseKafkaVersion lib (parsedVersion o)); cbn|];
        try reflexivity;
        (repeat split; try discriminate; intros ->; reflexivity).
    + rewrite (Hcompl Hver); cbn.
      repeat split; try reflexivity; intros ->; reflexivity.
  - intros Hno. split.
    + rewrite modifyContext_merged. unfold version_step.
      assert (Hver : cliflag.Provided (version o) = false).
      { unfold no_override in Hno.
        repeat (apply andb_prop in Hno; destruct Hno as [Hno ?]).
        now apply negb_true_iff. }
      rewrite (Hcompl Hver); cbn. f_equal. now apply no_override_merged.
    + destruct base as [sr k bs kv us sa t]; unfold with_TLS; cbn. split.
      * intros [= ->]. reflexivity.
      * intros ->. reflexivity.
Qed.

Lemma modifyContext_keeps_unprovided_witness :
  version_completed registered
  /\ modifyContext sarama_sample registered ctx_sasl = Ret ctx_sasl.
Proof.
  assert (H : version_completed registered) by (intros _; reflexivity).
  split; [exact H|].
  destruct (modifyContext_keeps_unprovided sarama_sample registered ctx_sasl H)
    as [_ Hno].
  exact (proj1 (Hno eq_refl)).
Defined.

(** C3, as stated, fails: a provided [--username] is a SASL-related override,
    and merging it into a profile without SASL leaves [UseSASL] false. *)
Lemma username_override_leaves_sasl_off :
  sasl_related (with_user (cliflag.Set_ "alice" (user registered)) registered) = true
  /\ exists c,
      modifyContext sarama_sample
        (with_user (cliflag.Set_ "alice" (user registered)) registered) ctx_zero
      = Ret c
      /\ Username (SASL c) = "alice" /\ UseSASL c = false.
Proof. split; [reflexivity|]. eexists. repeat split. Qed.

(** C3, amended. A provided [--sasl] override makes the merged context's
    [UseSASL] true; without it [UseSASL] keeps the base's value, whichever of
    algorithm, username and password are provided; and no merge turns
    [UseSASL] from true to false.  The merge returns unless the version to
    parse is turned away. *)
Theorem modifyContext_UseSASL_latch (lib : sarama) (o : createContextOptions)
  (base : Context) :
  match modifyContext lib o base with
  | Ret c =>
      (cliflag.Provided (useSASL o) = true -> UseSASL c = true)
      /\ (cliflag.Provided (useSASL o) = false -> UseSASL c = UseSASL base)
      /\ (UseSASL base = true -> UseSASL c = true)
  | Exit e =>
      (0 < String.length (parsedVersion o))%nat
      /\ ParseKafkaVersion lib (parsedVersion o) = inr e
  end.
Proof.
  destruct (modifyContext lib o base) as [c|e] eqn:Hm.
  - apply modifyContext_Ret in Hm as (v & _ & ->).
    rewrite merged_UseSASL. repeat split.
    + intros ->. reflexivity.
    + intros ->. reflexivity.
    + intros ->. apply orb_true_r.
  - now apply modifyContext_Exit in Hm.
Qed.

(** [--sasl=true] on a profile without SASL turns it on. *)
Lemma modifyContext_UseSASL_latch_witness :
  exists c,
    modifyContext sarama_sample
      (with_useSASL (cliflag.Set_ "true" (useSASL registered)) registered) ctx_plain
    = Ret c
    /\ UseSASL c = true.
Proof.
  pose proof (modifyContext_UseSASL_latch sarama_sample
                (with_useSASL (cliflag.Set_ "true" (useSASL registered)) registered)
                ctx_plain) as H.
  cbv beta iota in H.
  destruct (modifyContext sarama_sample
              (with_useSASL (cliflag.Set_ "true" (useSASL registered)) registered)
              ctx_plain) as [c|e] eqn:Hm.
  - exists c. split; [reflexivity|]. exact (proj1 H eq_refl).
  - discriminate Hm.
Defined.

(** * Reasoning about commands *)

Section WpRules.

Context {W : Type}.
Implicit Types st : state W.

Lemma wp_ret {A} (a : A) (Q : res A -> state W -> Prop) st :
  Q (Ret a) st -> wp (ret a) Q st.
Proof. exact (fun H => H). Qed.

Lemma wp_bind {A B} (m : M W A) (f : A -> M W B) Q st :
  wp m (fun r st' => match r with
                     | Ret a => wp (f a) Q st'
                     | Exit e => Q (Exit e) st'
                     end) st ->
  wp (bind m f) Q st.
Proof.
  unfold wp, bind. destruct (m st) as [[a|e] st']; cbn; exact (fun H => H).
Qed.

Lemma wp_mono {A} (m : M W A) (Q Q' : res A -> state W -> Prop) st :
  wp m Q st -> (forall r st', Q r st' -> Q' r st') -> wp m Q' st.
Proof. unfold wp. intros H HQ. now apply HQ. Qed.

Lemma wp_emit (e : event) (Q : res unit -> state W -> Prop) st :
  Q (Ret tt) (mkState (world st) (trace st ++ [e]) (kafta st)) ->
  wp (emit e) Q st.
Proof. exact (fun H => H). Qed.

Lemma wp_ask {A} (f : W -> A * W) (Q : res A -> state W -> Prop) st :
  (forall a w, f (world st) = (a, w) ->
               Q (Ret a) (mkState w (trace st) (kafta st))) ->
  wp (ask f) Q st.
Proof.
  unfold wp, ask. intros H. destruct (f (world st)) as [a w] eqn:Hf.
  now apply H.
Qed.

Lemma wp_get_kafta (Q : res KaftaData -> state W -> Prop) st :
  Q (Ret (kafta st)) st -> wp get_kafta Q st.
Proof. exact (fun H => H). Qed.

Lemma wp_put_kafta d (Q : res unit -> state W -> Prop) st :
  Q (Ret tt) (mkState (world st) (trace st) d) -> wp (put_kafta d) Q st.
Proof. exact (fun H => H). Qed.

Lemma wp_lift_res {A} (r : res A) (Q : res A -> state W -> Prop) st :
  Q r st -> wp (lift_res r) Q st.
Proof. exact (fun H => H). Qed.

Lemma wp_CheckErr err (Q : res unit -> state W -> Prop) st :
  match err with
  | None => Q (Ret tt) st
  | Some e => Q (Exit e) st
  end ->
  wp (CheckErr err) Q st.
Proof. destruct err; exact (fun H => H). Qed.

Lemma wp_ask_or_exit {A} (f : W -> (A + error) * W)
  (Q : res A -> state W -> Prop) st :
  (forall a w, f (world st) = (inl a, w) ->
               Q (Ret a) (mkState w (trace st) (kafta st))) ->
  (forall e w, f (world st) = (inr e, w) ->
               Q (Exit e) (mkState w (trace st) (kafta st))) ->
  wp (ask_or_exit f) Q st.
Proof.
  intros Hok Herr. unfold ask_or_exit. apply wp_bind, wp_ask.
  intros [a|e] w Hf; [apply wp_ret | apply wp_lift_res]; auto.
Qed.

Lemma wp_prompt {A} label (f : W -> (A + error) * W)
  (Q : res A -> state W -> Prop) st :
  (forall a w, f (world st) = (inl a, w) ->
               Q (Ret a) (mkState w (trace st ++ [EvPrompt label]) (kafta st))) ->
  (forall e w, f (world st) = (inr e, w) ->
               Q (Exit e) (mkState w (trace st ++ [EvPrompt label]) (kafta st))) ->
  wp (prompt label f) Q st.
Proof.
  intros Hok Herr. unfold prompt. apply wp_bind, wp_emit.
  apply wp_ask_or_exit; cbn; auto.
Qed.

(** Reading a [wp] fact back as a fact about the run. *)
Lemma wp_run {A} (m : M W A) Q st r st' :
  wp m Q st -> m st = (r, st') -> Q r st'.
Proof. unfold wp. intros H Hm. now rewrite Hm in H. Qed.

End WpRules.

Ltac wp_step :=
  first
    [ apply wp_ret
    | apply wp_emit
    | apply wp_get_kafta
    | apply wp_put_kafta
    | apply wp_lift_res
    | apply wp_CheckErr
    | apply wp_bind ];
  cbn [world trace kafta fst snd].

Lemma adds_refl {W} (st : state W) : adds st st [].
Proof. split; [now rewrite app_nil_r | reflexivity]. Qed.

Lemma adds_trans {W} (st1 st2 st3 : state W) n1 n2 :
  adds st1 st2 n1 -> adds st2 st3 n2 -> adds st1 st3 (n1 ++ n2).
Proof.
  intros [H1 K1] [H2 K2]. split.
  - now rewrite H2, H1, app_assoc.
  - now rewrite K2.
Qed.

(** ** Validation and the reachability check *)

Section ValidateFacts.

Context {W : Type}.
Variable E : collaborators W.
Implicit Types st : state W.

Lemma wp_testHost address (Q : res bool -> state W -> Prop) st :
  (lacks_port address = true ->
   Q (Ret false)
     (mkState (world st) (trace st ++ [port_report address]) (kafta st))) ->
  (lacks_port address = false ->
   forall ok w, DialTimeout E address (world st) = (ok, w) ->
                Q (Ret ok) (mkState w (trace st ++ [EvDial address]) (kafta st))) ->
  wp (testHost E address) Q st.
Proof.
  intros Hno Hyes. unfold testHost. fold (lacks_port address).
  destruct (lacks_port address).
  - apply wp_bind, wp_emit, wp_ret. now apply Hno.
  - apply wp_bind, wp_emit, wp_bind, wp_ask. cbn. intros ok w Hd.
    destruct ok; apply wp_ret; now apply Hyes.
Qed.

Lemma validate_spec o st : wp (validate E o) (validate_post o st) st.
Proof.
  unfold validate, validate_post, sasl_gate_closed.
  fold (name_neither o) (name_both o).
  destruct (name_neither o) eqn:Hn.
  { apply wp_ret. exists (Some err_name_required), [].
    unfold name_neither, name_both in *.
    destruct (String.length (name o)), (currContext o); try discriminate.
    repeat split; try (symmetry; apply app_nil_r); auto; try discriminate. }
  destruct (name_both o) eqn:Hb.
  { apply wp_ret. exists (Some err_name_and_current), [].
    repeat split; try (symmetry; apply app_nil_r); auto; try discriminate. }
  destruct (cliflag.Provided (ksql o)) eqn:Hk;
    destruct (cliflag.Provided (schemaRegistry o)) eqn:Hs;
    destruct (cliflag.Provided (useSASL o)), (quiet o),
      (cliflag.Provided (user o)), (cliflag.Provided (password o));
    cbn [andb negb];
    repeat first
      [ wp_step
      | apply wp_testHost; [intros ? | intros ? [|] ? ?]; cbn [negb] ];
    rewrite <- ?app_assoc; cbn [app];
    (eexists _, _; split; [reflexivity|]; split;
     [ split;
       [ cbn [trace]; first [reflexivity | symmetry; apply app_nil_r]
       | reflexivity ]
     | ]);
    repeat split; intros;
      repeat match goal with
             | |- Forall _ _ => constructor
             end;
      cbn; try congruence; try discriminate; auto.
Qed.

End ValidateFacts.

(** ** Interactive completion *)

Section PromptFacts.

Context {W : Type}.
Variable E : collaborators W.
Implicit Types st : state W.

Lemma promptNeeded_quiet o c st :
  quiet o = true -> promptNeeded E o c st = (Ret (o, None), st).
Proof.
  intros Hq. unfold promptNeeded.
  destruct (quiet o); [reflexivity | discriminate].
Qed.

Lemma promptNeeded_spec o c st :
  wp (promptNeeded E o c) (promptNeeded_post o st) st.
Proof.
  unfold promptNeeded, promptNeeded_post.
  destruct (quiet o) eqn:Hq.
  { apply wp_ret. exists []. destruct o; cbn in *.
    unfold kept.
    repeat split; try (symmetry; apply app_nil_r); auto; intros; congruence. }
  destruct o as [n cu sr k [p3 v3] [p4 v4] [p5 v5] [p6 v6] [p7 v7] [p8 v8] tls pv q].
  unfold prompted_from, kept; cbn in *.
  repeat first
    [ apply wp_prompt; [intros ? ? ? | intros ? ? ?]
    | wp_step
    | match goal with
      | |- wp (if ?b then _ else _) _ _ => destruct b eqn:?
      | |- wp (match ?b with Ret _ => _ | Exit _ => _ end) _ _ => destruct b eqn:?
      end ];
    cbn in *; rewrite <- ?app_assoc; cbn [app];
    (eexists; split;
     [ split;
       [ cbn [trace]; first [reflexivity | symmetry; apply app_nil_r]
       | reflexivity ]
     | ]);
    repeat split; intros;
      repeat match goal with
             | |- Forall _ _ => constructor
             end;
      repeat match goal with
             | H : negb ?p && _ = true |- _ =>
                 apply andb_prop in H; destruct H as [H _];
                 apply negb_true_iff in H
             | H : negb ?p = true |- _ => apply negb_true_iff in H
             end;
      cbn in *; subst; try congruence; try discriminate; auto;
      try (left; reflexivity).
Qed.

End PromptFacts.

(** ** The whole command *)

Section RunFacts.

Context {W : Type}.
Variable E : collaborators W.
Implicit Types st : state W.

Lemma wp_checkConnection o c (Q : res (option error) -> state W -> Prop) st :
  (cliflag.Provided (bootstrapServers o) = false -> Q (Ret None) st) ->
  (cliflag.Provided (bootstrapServers o) = true ->
   forall w, MakeConnectionContext E (kafta st) c (world st) = (None, w) ->
             Q (Ret None)
               (mkState w (trace st ++ [EvMakeConnectionContext c; EvCloseConnection])
                        (kafta st))) ->
  (cliflag.Provided (bootstrapServers o) = true ->
   forall e w, MakeConnectionContext E (kafta st) c (world st) = (Some e, w) ->
               Q (Ret (Some e))
                 (mkState w (trace st ++ [EvMakeConnectionContext c]) (kafta st))) ->
  wp (checkConnection E o c) Q st.
Proof.
  intros Hskip Hok Herr. unfold checkConnection.
  destruct (cliflag.Provided (bootstrapServers o)).
  - apply wp_bind, wp_get_kafta, wp_bind, wp_emit, wp_bind, wp_ask. cbn.
    intros [e|] w Hc.
    + apply wp_ret. now apply Herr.
    + apply wp_bind, wp_emit, wp_ret. cbn. rewrite <- app_assoc. now apply Hok.
  - apply wp_ret. now apply Hskip.
Qed.

Lemma probe_event_not_connect new :
  Forall probe_event new -> Forall (fun ev => is_connect ev = false) new.
Proof.
  apply List.Forall_impl. intros [] H; cbn in *; try reflexivity; contradiction.
Qed.

Lemma prompt_not_connect new :
  Forall (fun ev => is_prompt ev = true) new ->
  Forall (fun ev => is_connect ev = false) new.
Proof.
  apply List.Forall_impl. intros [] H; cbn in *; try reflexivity; discriminate.
Qed.

Lemma probe_event_dial new a :
  Forall probe_event new -> In (EvDial a) new -> lacks_port a = false.
Proof.
  intros HF Hin. rewrite List.Forall_forall in HF. exact (HF _ Hin).
Qed.

Lemma prompt_not_dial new a :
  Forall (fun ev => is_prompt ev = true) new -> ~ In (EvDial a) new.
Proof.
  intros HF Hin. rewrite List.Forall_forall in HF. specialize (HF _ Hin).
  discriminate.
Qed.

Lemma resolve_name o (cfg : KaftaData) :
  (if currContext o then
     if (String.length (CurrentContext cfg) =? 0)%nat
     then inr (errorString "no current context is set")
     else inl (CurrentContext cfg)
   else inl (name o))
  = if currContext o && (String.length (CurrentContext cfg) =? 0)%nat
    then inr (errorString "no current context is set")
    else @inl string error (target_name o cfg).
Proof.
  unfold target_name.
  destruct (currContext o), (String.length (CurrentContext cfg) =? 0)%nat;
    reflexivity.
Qed.

Lemma load_or_create (cfg : KaftaData) n :
  match Contexts cfg !! n with
  | Some c => (c, true)
  | None => (MakeContext E, false)
  end
  = (starting_instance E cfg n,
     match Contexts cfg !! n with Some _ => true | None => false end).
Proof. unfold starting_instance. destruct (Contexts cfg !! n); reflexivity. Qed.

Lemma in_app3 (ev : event) l1 l2 l3 :
  In ev (l1 ++ l2 ++ l3) -> In ev l1 \/ In ev l2 \/ In ev l3.
Proof. rewrite !in_app_iff. tauto. Qed.

Lemma run_spec o st : wp (run E o) (run_post E o st) st.
Proof.
  unfold run. apply wp_bind. eapply wp_mono; [apply validate_spec|].
  intros r st1 (err & new1 & -> & [Ht1 Hk1] & Hprobe & _).
  destruct err as [e|].
  { apply wp_ret. exists new1. repeat split; auto.
    - intros a. now apply probe_event_dial.
    - intros _ _. now apply probe_event_not_connect. }
  apply wp_bind, wp_get_kafta. rewrite resolve_name.
  destruct (currContext o && _) eqn:Hres.
  { apply wp_ret. exists new1. repeat split; auto.
    - intros a. now apply probe_event_dial.
    - intros _ _. now apply probe_event_not_connect. }
  rewrite load_or_create. cbn iota. rewrite Hk1.
  set (n := target_name o (kafta st)).
  set (base := starting_instance E (kafta st) n).
  apply wp_bind. eapply wp_mono; [apply promptNeeded_spec|].
  intros r2 st2 (new2 & [Ht2 Hk2] & Hprompt & Hr).
  assert (Hdial12 : forall a rest,
             (forall a', ~ In (EvDial a') rest) ->
             In (EvDial a) (new1 ++ new2 ++ rest) -> lacks_port a = false).
  { intros a rest Hrest Hin. apply in_app3 in Hin as [Hin|[Hin|Hin]].
    - now apply (probe_event_dial new1).
    - now apply prompt_not_dial in Hin.
    - now apply Hrest in Hin. }
  destruct r2 as [[o' err']|e2].
  2:{ exists (new1 ++ new2). repeat split.
      - now rewrite Ht2, Ht1, app_assoc.
      - intros a Hin. apply (Hdial12 a []); [tauto | now rewrite app_nil_r].
      - intros _ _. apply Forall_app. split;
          [now apply probe_event_not_connect | now apply prompt_not_connect].
      - now rewrite Hk2. }
  destruct Hr as (-> & Hfrom & Hbs & _).
  apply wp_bind, wp_CheckErr. cbn [fst snd].
  apply wp_bind, wp_lift_res.
  destruct (modifyContext (lib_sarama E) o' base) as [c|e] eqn:Hm.
  2:{ exists (new1 ++ new2). repeat split.
      - now rewrite Ht2, Ht1, app_assoc.
      - intros a Hin. apply (Hdial12 a []); [tauto | now rewrite app_nil_r].
      - intros _ _. apply Forall_app. split;
          [now apply probe_event_not_connect | now apply prompt_not_connect].
      - now rewrite Hk2. }
  apply wp_bind, wp_emit, wp_bind, wp_checkConnection; cbn [world trace kafta].
  - (* no check *)
    intros Hnot. apply wp_bind, wp_get_kafta, wp_bind, wp_put_kafta, wp_ret.
    cbn [world trace kafta].
    exists (new1 ++ new2 ++ [EvPrintContext c]). repeat split.
    + now rewrite Ht2, Ht1, <- !app_assoc.
    + intros a. apply Hdial12. intros a' [Hin|[]]. discriminate.
    + intros _ _. rewrite !Forall_app. repeat split.
      * now apply probe_event_not_connect.
      * now apply prompt_not_connect.
      * repeat constructor.
    + exists o', c. cbn [kafta]. rewrite Hk2, Hk1.
      split; [reflexivity|]. split; [reflexivity|]. split; [exact Hfrom|].
      split; [exact Hm|]. split; [reflexivity|].
      intros Hp. rewrite Hnot in Hp. discriminate.
  - (* the connection is made *)
    intros Hprov w Hconn. rewrite Hk2, Hk1 in Hconn.
    apply wp_bind, wp_get_kafta, wp_bind, wp_put_kafta, wp_ret.
    cbn [world trace kafta].
    exists (new1 ++ new2
            ++ [EvPrintContext c; EvMakeConnectionContext c; EvCloseConnection]).
    repeat split.
    + rewrite Ht2, Ht1, <- !app_assoc. reflexivity.
    + intros a. apply Hdial12. intros a' [Hin|[Hin|[Hin|[]]]]; discriminate.
    + intros Hno Hnp. exfalso. apply Hnp.
      apply in_app_iff. right. apply in_app_iff. left. now apply Hbs.
    + exists o', c. cbn [kafta]. rewrite Hk2, Hk1.
      split; [reflexivity|]. split; [reflexivity|]. split; [exact Hfrom|].
      split; [exact Hm|]. split; [reflexivity|].
      intros _. split.
      * rewrite !in_app_iff. right. right. right. left. reflexivity.
      * exists (world st2). now rewrite Hconn.
  - (* the connection fails *)
    intros Hprov e w Hconn. apply wp_bind, wp_CheckErr. cbn [world trace kafta].
    exists (new1 ++ new2 ++ [EvPrintContext c; EvMakeConnectionContext c]).
    repeat split.
    + rewrite Ht2, Ht1, <- !app_assoc. reflexivity.
    + intros a. apply Hdial12. intros a' [Hin|[Hin|[]]]; discriminate.
    + intros Hno Hnp. exfalso. apply Hnp.
      apply in_app_iff. right. apply in_app_iff. left. now apply Hbs.
    + now rewrite Hk2.
Qed.

End RunFacts.

Lemma since_app {W} (st st' : state W) new :
  trace st' = trace st ++ new -> since st st' = new.
Proof.
  unfold since. intros ->. induction (trace st) as [|e t IH]; [reflexivity|].
  exact IH.
Qed.

Lemma length_zero_empty (s : string) :
  (String.length s =? 0)%nat = true <-> s = "".
Proof.
  destruct s; cbn; split; try reflexivity; discriminate.
Qed.

Section CommandFacts.

Context {W : Type}.
Variable E : collaborators W.
Implicit Types st : state W.

(** A run of [run], read off [run_spec]. *)
Lemma run_facts o st : run_post E o st (fst (run E o st)) (snd (run E o st)).
Proof. exact (run_spec E o st). Qed.

Lemma validate_facts o st :
  validate_post o st (fst (validate E o st)) (snd (validate E o st)).
Proof. exact (validate_spec E o st). Qed.

(** When validation returns an error, [run] returns it at once. *)
Lemma run_validate_error o st e :
  fst (validate E o st) = Ret (Some e) ->
  run E o st = (Ret ("", false, Some e), snd (validate E o st)).
Proof.
  intros Hv. unfold run, bind at 1.
  destruct (validate E o st) as [r st1]; cbn in *. now subst r.
Qed.

Lemma failed_keeps_store o st :
  failed (fst (run E o st)) -> kafta (snd (run E o st)) = kafta st.
Proof.
  intros Hf. destruct (run_facts o st) as (new & _ & _ & _ & Hr).
  destruct (fst (run E o st)) as [[[n ex] [e|]]|e]; cbn in Hf; tauto.
Qed.

(** A provided flag stays provided through the prompts. *)
Lemma prompted_from_bootstrap o o' :
  prompted_from o o' ->
  cliflag.Provided (bootstrapServers o) = true ->
  cliflag.Provided (bootstrapServers o') = true.
Proof.
  intros (_ & _ & _ & _ & _ & _ & _ & Hbs & _) Hp.
  now rewrite (Hbs Hp).
Qed.

Lemma testHost_lacks_port address st :
  lacks_port address = true ->
  testHost E address st
  = (Ret false,
     mkState (world st) (trace st ++ [port_report address]) (kafta st)).
Proof.
  intros Hl. unfold testHost. fold (lacks_port address). now rewrite Hl.
Qed.

Lemma testHost_dials address st :
  lacks_port address = false ->
  testHost E address st
  = (Ret (fst (DialTimeout E address (world st))),
     mkState (snd (DialTimeout E address (world st)))
             (trace st ++ [EvDial address]) (kafta st)).
Proof.
  intros Hl. unfold testHost. fold (lacks_port address). rewrite Hl.
  unfold bind, emit, ask, ret; cbn.
  destruct (DialTimeout E address (world st)) as [[|] w]; reflexivity.
Qed.

End CommandFacts.

(** ** From [run] to the command *)

Lemma complete_bootstrapServers (o : createContextOptions) (args : list string) :
  bootstrapServers (fst (complete o args)) = bootstrapServers o.
Proof.
  unfold complete. destruct (1 <? length args)%nat; [reflexivity|].
  destruct args as [|a [|b rest]]; cbn;
    destruct (cliflag.Provided (version o)); reflexivity.
Qed.

(** The [Run] closure ends the process on every error: the one of
    [complete], and the one [run] returns or already ended with.  After a
    successful [run] it only prints. *)
Lemma set_context_Run_outcome {W} (E : collaborators W) o args (st : state W) :
  match snd (complete o args) with
  | Some e => set_context_Run E o args st = (Exit e, st)
  | None =>
      let o1 := fst (complete o args) in
      (failed (fst (run E o1 st)) ->
       exists e, set_context_Run E o args st = (Exit e, snd (run E o1 st)))
      /\ (forall n ex, fst (run E o1 st) = Ret (n, ex, None) ->
          fst (set_context_Run E o args st) = Ret tt
          /\ kafta (snd (set_context_Run E o args st)) = kafta (snd (run E o1 st)))
  end.
Proof.
  unfold set_context_Run.
  destruct (complete o args) as [o1 [e|]]; cbn [fst snd]; [reflexivity|].
  unfold bind, CheckErr, lift_res, CheckErr_res, emit. cbn.
  destruct (run E o1 st) as [[[[n ex] [e|]]|e] st1]; cbn.
  - split; [eauto | discriminate].
  - split; [contradiction|]. intros n0 ex0 _.
    destruct ex; cbn; auto.
  - split; [eauto | discriminate].
Qed.

(** * The claims about the command *)

(** A profile edited without [--server], the cluster out of reach. *)
Example edit_without_server_persists_offline :
  let r := run (sample_world true false)
               (fst (complete (parse_flags [flag_algorithm "SHA512"]) ["dev"]))
               (start store_dev) in
  fst r = Ret ("dev", true, None)
  /\ Contexts (kafta (snd r)) !! "dev"
     = Some (with_SASL (mkSASL "SHA512" "" "") (with_TLS true ctx_plain))
  /\ trace (snd r)
     = [EvPrompt "Use SASL";
        EvPrintContext (with_SASL (mkSASL "SHA512" "" "") (with_TLS true ctx_plain))].
Proof. vm_compute. repeat split. Qed.

(** C6. Exactly one of an explicit name and [--current]: with both, and with
    neither, [validate] returns its usage error before doing anything else,
    and [run] returns it with the store untouched; with exactly one of the
    two, [validate] returns, and what it returns is neither of these errors
    (nil when nothing else is there to check). *)
Theorem validate_name_xor_current {W} (E : collaborators W)
  (o : createContextOptions) (st : state W) :
  (name o <> "" -> currContext o = true ->
   validate E o st = (Ret (Some err_name_and_current), st)
   /\ run E o st = (Ret ("", false, Some err_name_and_current), st))
  /\ (name o = "" -> currContext o = false ->
      validate E o st = (Ret (Some err_name_required), st)
      /\ run E o st = (Ret ("", false, Some err_name_required), st))
  /\ ((name o <> "" /\ currContext o = false)
      \/ (name o = "" /\ currContext o = true) ->
      (exists err, fst (validate E o st) = Ret err
                   /\ err <> Some err_name_required
                   /\ err <> Some err_name_and_current)
      /\ (cliflag.Provided (ksql o) = false ->
          cliflag.Provided (schemaRegistry o) = false ->
          cliflag.Provided (useSASL o) = false ->
          validate E o st = (Ret None, st))).
Proof.
  assert (Hrun : forall e, validate E o st = (Ret (Some e), st) ->
                           run E o st = (Ret ("", false, Some e), st)).
  { intros e Hv. rewrite (run_validate_error E o st e); now rewrite Hv. }
  split; [|split].
  - intros Hn Hc.
    assert (Hv : validate E o st = (Ret (Some err_name_and_current), st)).
    { unfold validate. destruct (name o); [contradiction|]. now rewrite Hc. }
    split; [exact Hv | now apply Hrun].
  - intros Hn Hc.
    assert (Hv : validate E o st = (Ret (Some err_name_required), st)).
    { unfold validate. now rewrite Hn, Hc. }
    split; [exact Hv | now apply Hrun].
  - intros H. split.
    + destruct (validate_facts E o st)
        as (err & new & Hr & _ & _ & _ & _ & Hone & _).
      exists err. split; [exact Hr|].
      apply Hone; unfold name_neither, name_both;
        destruct H as [[Hn Hc]|[Hn Hc]]; rewrite Hc; try rewrite Hn;
        cbn; auto using andb_false_r.
      destruct (name o); [contradiction|]. reflexivity.
    + intros Hk Hs Hsa. unfold validate.
      rewrite Hk, Hs, Hsa.
      destruct H as [[Hn Hc]|[Hn Hc]]; rewrite Hc; [|rewrite Hn; reflexivity].
      destruct (name o); [contradiction|]. reflexivity.
Qed.

(** [set-context myctx --current] and [set-context] are turned away,
    [set-context myctx] passes. *)
Lemma validate_name_xor_current_witness :
  validate (sample_world true true)
           (fst (complete (parse_flags [flag_current true]) ["myctx"]))
           (start store_dev)
  = (Ret (Some err_name_and_current), start store_dev)
  /\ validate (sample_world true true)
              (fst (complete (parse_flags []) []))
              (start store_dev)
     = (Ret (Some err_name_required), start store_dev)
  /\ validate (sample_world true true)
              (fst (complete (parse_flags []) ["myctx"]))
              (start store_dev)
     = (Ret None, start store_dev).
Proof.
  split; [|split].
  - apply (validate_name_xor_current (sample_world true true)
             (fst (complete (parse_flags [flag_current true]) ["myctx"]))
             (start store_dev)); [discriminate | reflexivity].
  - apply (validate_name_xor_current (sample_world true true)
             (fst (complete (parse_flags []) []))
             (start store_dev)); reflexivity.
  - apply (validate_name_xor_current (sample_world true true)
             (fst (complete (parse_flags []) ["myctx"]))
             (start store_dev)); [left; split; [discriminate|reflexivity] | | |];
      reflexivity.
Defined.

(** ** Addresses without a port *)

Lemma Split_length_pos (s : string) (sep : ascii) :
  (1 <= length (Split s sep))%nat.
Proof.
  induction s as [|c rest IH]; cbn; [lia|].
  destruct (Ascii.eqb c sep); cbn; [lia|].
  destruct (Split rest sep); cbn in *; lia.
Qed.

(** One piece at most means that the separator does not occur. *)
Lemma Split_single (s : string) (sep : ascii) :
  (length (Split s sep) <= 1)%nat <-> contains_byte s sep = false.
Proof.
  induction s as [|c rest IH]; cbn; [split; auto|].
  pose proof (Split_length_pos rest sep) as Hpos.
  destruct (Ascii.eqb c sep); cbn.
  - split; [lia | discriminate].
  - destruct (Split rest sep) as [|seg segs]; cbn in *; [lia|]. exact IH.
Qed.

Lemma lacks_port_spec (address : string) :
  lacks_port address = true <-> contains_byte address ":" = false.
Proof.
  unfold lacks_port. rewrite Nat.leb_le. apply Split_single.
Qed.

(** With a [--ksql] address that has its port and a [--schema-registry]
    address that has none, ksql is dialled first: the registry is turned
    away after that connect when it succeeded, and is not looked at when it
    failed. *)
Lemma validate_ksql_then_registry {W} (E : collaborators W) o (st : state W) :
  name_neither o = false -> name_both o = false ->
  cliflag.Provided (ksql o) = true ->
  lacks_port (cliflag.String (ksql o)) = false ->
  cliflag.Provided (schemaRegistry o) = true ->
  lacks_port (cliflag.String (schemaRegistry o)) = true ->
  validate E o st
  = if fst (DialTimeout E (cliflag.String (ksql o)) (world st))
    then (Ret (Some (errorString "failed to connect on schema-registry")),
          mkState (snd (DialTimeout E (cliflag.String (ksql o)) (world st)))
            (trace st ++ [EvDial (cliflag.String (ksql o));
                          port_report (cliflag.String (schemaRegistry o))])
            (kafta st))
    else (Ret (Some (errorString "failed to connect on ksql")),
          mkState (snd (DialTimeout E (cliflag.String (ksql o)) (world st)))
            (trace st ++ [EvDial (cliflag.String (ksql o))])
            (kafta st)).
Proof.
  intros Hn Hb Hk Hkp Hs Hsp. unfold validate.
  fold (name_neither o) (name_both o). rewrite Hn, Hb, Hk, Hs.
  unfold bind at 1. unfold bind at 1. rewrite (testHost_dials E _ st Hkp).
  unfold ret at 1.
  destruct (DialTimeout E (cliflag.String (ksql o)) (world st)) as [[|] w]; cbn;
    [|reflexivity].
  unfold bind at 1. unfold bind at 1. rewrite testHost_lacks_port by exact Hsp.
  cbn. now rewrite <- app_assoc.
Qed.

(** C8, amended.  An address without [:port] is turned away without the
    network being touched for it.  [testHost] on such an address prints its
    report and returns [false], and that is all it does; a provided [--ksql]
    or [--schema-registry] of that shape makes [validate] return an error,
    which [run] returns with the store as it was; and a run of [validate]
    never opens a TCP connection to an address without port.  The rejection
    comes before any TCP connection when the address is that of [--ksql], or
    that of [--schema-registry] with no [--ksql]; with a [--ksql] address
    that has its port, [validate] (the name being in order) dials ksql
    first, and turns the [--schema-registry] address away only once ksql has
    answered. *)
Theorem address_without_port_rejected {W} (E : collaborators W) :
  (forall address (st : state W),
      lacks_port address = true ->
      testHost E address st
      = (Ret false,
         mkState (world st) (trace st ++ [port_report address]) (kafta st)))
  /\ (forall o (st : state W),
         (cliflag.Provided (ksql o) = true
          /\ lacks_port (cliflag.String (ksql o)) = true)
         \/ (cliflag.Provided (schemaRegistry o) = true
             /\ lacks_port (cliflag.String (schemaRegistry o)) = true) ->
         exists e,
           fst (validate E o st) = Ret (Some e)
           /\ fst (run E o st) = Ret ("", false, Some e)
           /\ kafta (snd (run E o st)) = kafta st)
  /\ (forall o (st : state W) a,
         In (EvDial a) (since st (snd (validate E o st))) ->
         lacks_port a = false)
  /\ (forall o (st : state W),
         cliflag.Provided (ksql o) = true ->
         lacks_port (cliflag.String (ksql o)) = true ->
         Forall (fun ev => is_dial ev = false) (since st (snd (validate E o st))))
  /\ (forall o (st : state W),
         cliflag.Provided (schemaRegistry o) = true ->
         lacks_port (cliflag.String (schemaRegistry o)) = true ->
         cliflag.Provided (ksql o) = false ->
         Forall (fun ev => is_dial ev = false) (since st (snd (validate E o st))))
  /\ (forall o (st : state W),
         name_neither o = false -> name_both o = false ->
         cliflag.Provided (ksql o) = true ->
         lacks_port (cliflag.String (ksql o)) = false ->
         cliflag.Provided (schemaRegistry o) = true ->
         lacks_port (cliflag.String (schemaRegistry o)) = true ->
         validate E o st
         = if fst (DialTimeout E (cliflag.String (ksql o)) (world st))
           then (Ret (Some (errorString "failed to connect on schema-registry")),
                 mkState (snd (DialTimeout E (cliflag.String (ksql o)) (world st)))
                   (trace st ++ [EvDial (cliflag.String (ksql o));
                                 port_report (cliflag.String (schemaRegistry o))])
                   (kafta st))
           else (Ret (Some (errorString "failed to connect on ksql")),
                 mkState (snd (DialTimeout E (cliflag.String (ksql o)) (world st)))
                   (trace st ++ [EvDial (cliflag.String (ksql o))])
                   (kafta st))).
Proof.
  split; [exact (testHost_lacks_port E)|].
  split; [|split; [|split; [|split]]]; intros o st.
  - intros Hbad.
    destruct (validate_facts E o st)
      as (err & new & Hr & [_ Hkeep] & _ & _ & _ & _ & Hk & Hs & _).
    assert (Herr : err <> None).
    { destruct Hbad as [[Hp Hl]|[Hp Hl]]; [now apply Hk | now apply Hs]. }
    destruct err as [e|]; [|contradiction]. exists e.
    split; [exact Hr|]. rewrite (run_validate_error E o st e Hr). cbn.
    split; [reflexivity | exact Hkeep].
  - intros a.
    destruct (validate_facts E o st) as (err & new & _ & [Ht _] & Hprobe & _).
    rewrite (since_app _ _ _ Ht). now apply probe_event_dial.
  - intros Hp Hl.
    destruct (validate_facts E o st)
      as (err & new & _ & [Ht _] & _ & _ & _ & _ & Hk & _).
    rewrite (since_app _ _ _ Ht). now apply Hk.
  - intros Hp Hl Hnk.
    destruct (validate_facts E o st)
      as (err & new & _ & [Ht _] & _ & _ & _ & _ & _ & Hs & _).
    rewrite (since_app _ _ _ Ht). now apply Hs.
  - intros Hn Hb Hk Hkp Hs Hsp. now apply validate_ksql_then_registry.
Qed.

(** [set-context dev --schema-registry=noport]: validation fails, nothing is
    dialled, the store is as it was. *)
Lemma address_without_port_rejected_witness :
  lacks_port "noport" = true
  /\ testHost (sample_world true true) "noport" (start store_dev)
     = (Ret false, mkState tt [port_report "noport"] store_dev)
  /\ exists e,
      fst (validate (sample_world true true)
             (fst (complete (parse_flags [flag_schema_registry "noport"]) ["dev"]))
             (start store_dev)) = Ret (Some e)
      /\ fst (run (sample_world true true)
                (fst (complete (parse_flags [flag_schema_registry "noport"]) ["dev"]))
                (start store_dev)) = Ret ("", false, Some e)
      /\ kafta (snd (run (sample_world true true)
                (fst (complete (parse_flags [flag_schema_registry "noport"]) ["dev"]))
                (start store_dev))) = store_dev.
Proof.
  destruct (address_without_port_rejected (sample_world true true))
    as (Htest & Hval & _).
  split; [reflexivity|]. split.
  - apply (Htest "noport" (start store_dev)). reflexivity.
  - apply (Hval (fst (complete (parse_flags [flag_schema_registry "noport"]) ["dev"]))
             (start store_dev)).
    right. split; reflexivity.
Defined.

(** C8, as stated, fails: with [--ksql=ksql:8088] and
    [--schema-registry=noport], a TCP connect (to ksql) comes before the
    registry address is turned away. *)
Lemma ksql_dialled_before_registry_rejected :
  lacks_port "noport" = true
  /\ validate (sample_world true true)
       (fst (complete (parse_flags [flag_ksql "ksql:8088";
                                    flag_schema_registry "noport"]) ["dev"]))
       (start store_dev)
     = (Ret (Some (errorString "failed to connect on schema-registry")),
        mkState tt [EvDial "ksql:8088"; port_report "noport"] store_dev).
Proof. split; reflexivity. Qed.

(** ** Runs that go through *)

Section Progress.

Context {W : Type}.
Variable E : collaborators W.
Implicit Types st : state W.

Lemma validate_passes o st :
  name_neither o = false -> name_both o = false ->
  (cliflag.Provided (ksql o) = true ->
   lacks_port (cliflag.String (ksql o)) = false) ->
  (cliflag.Provided (schemaRegistry o) = true ->
   lacks_port (cliflag.String (schemaRegistry o)) = false) ->
  probes_answer E ->
  sasl_gate_closed o = false ->
  wp (validate E o) (fun r st' => r = Ret None /\ kafta st' = kafta st) st.
Proof.
  intros Hn Hb Hk Hs Hdial Hgate. unfold validate.
  fold (name_neither o) (name_both o). rewrite Hn, Hb.
  assert (Hprobe : forall a st0 (Q : res bool -> state W -> Prop),
             lacks_port a = false ->
             (forall st1, kafta st1 = kafta st0 -> Q (Ret true) st1) ->
             wp (testHost E a) Q st0).
  { intros a st0 Q Hl HQ. apply wp_testHost; [congruence|].
    intros _ ok w Hd. pose proof (Hdial a (world st0)) as Hok.
    rewrite Hd in Hok. cbn in Hok. subst ok. now apply HQ. }
  assert (Hend : forall st1, kafta st1 = kafta st ->
             wp (if cliflag.Provided (useSASL o) && quiet o
                 then if negb (cliflag.Provided (user o))
                      then ret (Some err_sasl_credentials)
                      else if negb (cliflag.Provided (password o))
                           then ret (Some err_sasl_credentials)
                           else ret None
                 else ret None)
                (fun r st' => r = Ret None /\ kafta st' = kafta st) st1).
  { intros st1 Hk1. unfold sasl_gate_closed in Hgate.
    destruct (cliflag.Provided (useSASL o) && quiet o); cbn in Hgate;
      [|now apply wp_ret].
    destruct (cliflag.Provided (user o)), (cliflag.Provided (password o));
      try discriminate. now apply wp_ret. }
  assert (Hsr : forall st1, kafta st1 = kafta st ->
             wp (srBad <- (if cliflag.Provided (schemaRegistry o)
                           then ok <- testHost E (cliflag.String (schemaRegistry o)) ;;
                                ret (negb ok)
                           else ret false) ;;
                 if srBad
                 then ret (Some (errorString "failed to connect on schema-registry"))
                 else
                   if cliflag.Provided (useSASL o) && quiet o
                   then if negb (cliflag.Provided (user o))
                        then ret (Some err_sasl_credentials)
                        else if negb (cliflag.Provided (password o))
                             then ret (Some err_sasl_credentials)
                             else ret None
                   else ret None)
                (fun r st' => r = Ret None /\ kafta st' = kafta st) st1).
  { intros st1 Hk1. apply wp_bind.
    destruct (cliflag.Provided (schemaRegistry o)).
    - apply wp_bind, Hprobe; [now apply Hs|]. intros st2 Hk2.
      apply wp_ret. apply Hend. congruence.
    - apply wp_ret. now apply Hend. }
  apply wp_bind. destruct (cliflag.Provided (ksql o)).
  - apply wp_bind, Hprobe; [now apply Hk|]. intros st1 Hk1.
    apply wp_ret. now apply Hsr.
  - apply wp_ret. now apply Hsr.
Qed.

(** In quiet mode, with the gate open, a reachable cluster and nothing else
    in the way, [run] succeeds. *)
Lemma run_quiet_succeeds o st :
  quiet o = true -> sasl_gate_closed o = false ->
  otherwise_valid E o (kafta st) -> cluster_reachable E ->
  wp (run E o)
     (fun r _ => r = Ret (target_name o (kafta st),
                          match Contexts (kafta st) !! target_name o (kafta st) with
                          | Some _ => true
                          | None => false
                          end, None)) st.
Proof.
  intros Hq Hgate (Hn & Hb & Hcur & Hk & Hs & Hdial & v & Hv) Hup.
  unfold run. apply wp_bind.
  eapply wp_mono; [now apply validate_passes|].
  intros r st1 [-> Hk1]. apply wp_bind, wp_get_kafta.
  rewrite resolve_name, Hk1.
  assert (Hres : currContext o
                 && (String.length (CurrentContext (kafta st)) =? 0)%nat = false).
  { destruct (currContext o); [|reflexivity]. cbn.
    destruct (String.length (CurrentContext (kafta st)) =? 0)%nat eqn:Hl;
      [|reflexivity].
    apply length_zero_empty in Hl. now apply Hcur in Hl. }
  rewrite Hres, load_or_create. cbn iota.
  apply wp_bind. unfold wp at 1. rewrite promptNeeded_quiet by exact Hq. cbn [fst snd].
  apply wp_bind, wp_CheckErr, wp_bind, wp_lift_res.
  rewrite modifyContext_merged, Hv. cbn [res_bind].
  apply wp_bind, wp_emit, wp_bind, wp_checkConnection; cbn [world trace kafta].
  - intros _. apply wp_bind, wp_get_kafta, wp_bind, wp_put_kafta, wp_ret.
    reflexivity.
  - intros _ w _. apply wp_bind, wp_get_kafta, wp_bind, wp_put_kafta, wp_ret.
    reflexivity.
  - intros _ e w Hc. exfalso.
    pose proof (Hup (kafta st1) (merged o v (starting_instance E (kafta st)
                                               (target_name o (kafta st))))
                    (world st1)) as Hnone.
    rewrite Hc in Hnone. discriminate.
Qed.

End Progress.

(** C7. The quiet-mode SASL gate.  With [quiet] set and [--sasl] provided:
    if [--username] or [--password] is not provided, [validate] returns an
    error, [run] returns it and the store is as it was; if both are provided,
    the cluster can be reached and nothing else stands in the way of the
    invocation, [run] succeeds and the profile it stored under the target
    name has [UseSASL = true]. *)
Theorem quiet_sasl_gate {W} (E : collaborators W) (o : createContextOptions)
  (st : state W) :
  quiet o = true ->
  cliflag.Provided (useSASL o) = true ->
  (cliflag.Provided (user o) = false \/ cliflag.Provided (password o) = false ->
   exists e,
     fst (validate E o st) = Ret (Some e)
     /\ fst (run E o st) = Ret ("", false, Some e)
     /\ kafta (snd (run E o st)) = kafta st)
  /\ (cliflag.Provided (user o) = true ->
      cliflag.Provided (password o) = true ->
      otherwise_valid E o (kafta st) ->
      cluster_reachable E ->
      exists ex c,
        fst (run E o st) = Ret (target_name o (kafta st), ex, None)
        /\ Contexts (kafta (snd (run E o st))) !! target_name o (kafta st) = Some c
        /\ UseSASL c = true).
Proof.
  intros Hq Hsasl. split.
  - intros Hmiss.
    destruct (validate_facts E o st)
      as (err & new & Hr & [_ Hkeep] & _ & _ & _ & _ & _ & _ & Hgate & _).
    assert (Herr : err <> None).
    { apply Hgate. unfold sasl_gate_closed. rewrite Hq, Hsasl.
      destruct Hmiss as [-> | ->]; cbn; [reflexivity|].
      now rewrite andb_false_r. }
    destruct err as [e|]; [|contradiction]. exists e.
    split; [exact Hr|]. rewrite (run_validate_error E o st e Hr). cbn.
    split; [reflexivity | exact Hkeep].
  - intros Hu Hp Hvalid Hup.
    assert (Hgate : sasl_gate_closed o = false).
    { unfold sasl_gate_closed. now rewrite Hu, Hp, andb_false_r. }
    pose proof (run_quiet_succeeds E o st Hq Hgate Hvalid Hup) as Hrun.
    unfold wp in Hrun.
    pose proof (run_facts E o st) as (new & _ & _ & _ & Hpost).
    rewrite Hrun in Hpost.
    destruct Hpost as (o' & c & _ & _ & Hfrom & Hm & Hk & _).
    eexists _, c. split; [exact Hrun|]. split.
    + rewrite Hk. cbn. apply lookup_insert_eq.
    + apply modifyContext_Ret in Hm as (v & _ & ->).
      rewrite merged_UseSASL.
      destruct Hfrom as (_ & _ & _ & _ & _ & _ & _ & _ & _ & _ & _ & Hkept & _).
      rewrite (Hkept Hsasl), Hsasl. reflexivity.
Qed.

(** [set-context dev --sasl=true] in quiet mode is turned away;
    with [--username] and [--password] and a cluster in reach it stores the
    profile with SASL in use. *)
Lemma quiet_sasl_gate_witness :
  (exists e,
      fst (validate (sample_world true true)
             (quiet_options "dev" [flag_sasl "true"]) (start store_dev))
      = Ret (Some e)
      /\ fst (run (sample_world true true)
                (quiet_options "dev" [flag_sasl "true"]) (start store_dev))
         = Ret ("", false, Some e)
      /\ kafta (snd (run (sample_world true true)
                (quiet_options "dev" [flag_sasl "true"]) (start store_dev)))
         = store_dev)
  /\ (exists ex c,
         fst (run (sample_world true true)
                (quiet_options "dev"
                   [flag_sasl "true"; flag_username "alice"; flag_password "secret";
                    flag_server "b-1.kafka.example.com:9092"])
                (start store_dev))
         = Ret ("dev", ex, None)
         /\ Contexts (kafta (snd (run (sample_world true true)
                (quiet_options "dev"
                   [flag_sasl "true"; flag_username "alice"; flag_password "secret";
                    flag_server "b-1.kafka.example.com:9092"])
                (start store_dev)))) !! "dev" = Some c
         /\ UseSASL c = true).
Proof.
  split.
  - apply (quiet_sasl_gate (sample_world true true)
             (quiet_options "dev" [flag_sasl "true"]) (start store_dev));
      [reflexivity | reflexivity | left; reflexivity].
  - apply (quiet_sasl_gate (sample_world true true)
             (quiet_options "dev"
                [flag_sasl "true"; flag_username "alice"; flag_password "secret";
                 flag_server "b-1.kafka.example.com:9092"])
             (start store_dev)); try reflexivity.
    + repeat split; try discriminate.
      eexists. reflexivity.
    + intros cfg c w. reflexivity.
Defined.

(** ** [get-configs] *)

Lemma FormatInt_nonempty (i : Z) : String.eqb (FormatInt i) "" = false.
Proof.
  unfold FormatInt. destruct (Z.to_int i) as [d|d]; cbn; [|reflexivity].
  destruct d; reflexivity.
Qed.

(** The loop finds what the specification describes. *)
Lemma controller_loop_first (brokers : list Broker) (o : clusterConfig) :
  controller_loop brokers o
  = match first_controller brokers with
    | Some b => mkClusterConfig (FormatInt (ID b))
    | None => o
    end.
Proof.
  unfold first_controller.
  induction brokers as [|b rest IH]; cbn; [reflexivity|].
  destruct (IsController b); [reflexivity | exact IH].
Qed.

Section GetConfigsFacts.

Context {W : Type}.
Variable E : collaborators W.
Implicit Types st : state W.

Lemma defaultValue_listing st w1 w2 brokers :
  MakeConnection E (kafta st) (world st) = (None, w1) ->
  GetBrokers E w1 = (inl brokers, w2) ->
  defaultValue E (mkClusterConfig "") [] st
  = (Ret (match first_controller brokers with
          | Some b => (mkClusterConfig (FormatInt (ID b)), None)
          | None => (mkClusterConfig "", Some err_no_controller)
          end),
     mkState w2 (trace st ++ [EvMakeConnection; EvGetBrokers; EvCloseConnection])
             (kafta st)).
Proof.
  intros Hc Hb. unfold defaultValue, bind, get_kafta, emit, ask_or_exit, bind, ask,
    ret, lift_res; cbn.
  rewrite Hc; cbn. rewrite Hb; cbn.
  rewrite controller_loop_first.
  destruct (first_controller brokers) as [b|]; cbn.
  - rewrite FormatInt_nonempty. now rewrite <- !app_assoc.
  - now rewrite <- !app_assoc.
Qed.

Lemma run_get_configs_no_listing o st :
  wp (run_get_configs E o)
     (fun _ st' => exists new, trace st' = trace st ++ new
                               /\ Forall (fun ev => is_get_brokers ev = false) new)
     st.
Proof.
  unfold run_get_configs.
  apply wp_bind, wp_get_kafta, wp_bind, wp_emit, wp_bind, wp_ask_or_exit;
    cbn [world trace kafta].
  - intros [] w Hc. apply wp_bind, wp_emit, wp_bind, wp_ask_or_exit;
      cbn [world trace kafta].
    + intros configs w' Hd. apply wp_bind, wp_emit, wp_emit. cbn [world trace kafta].
      exists [EvMakeConnection; EvDescribeBrokerConfig (brokerId o);
              EvTable configs; EvCloseConnection].
      split; [now rewrite <- !app_assoc | repeat constructor].
    + intros e w' Hd.
      exists [EvMakeConnection; EvDescribeBrokerConfig (brokerId o)].
      split; [now rewrite <- !app_assoc | repeat constructor].
  - intros e w Hc. exists [EvMakeConnection].
    split; [reflexivity | repeat constructor].
Qed.

End GetConfigsFacts.

(** C9. The target broker of [get-configs].  Without an argument, once the
    broker list is there, the command works on the id of the first listed
    broker whose [IsController] is true, and without such a broker it ends
    with an error after the listing, no table rendered; with an argument the
    command works on that argument as it is, and the brokers are not
    listed. *)
Theorem get_configs_target_broker {W} (E : collaborators W) (st : state W) :
  (forall w1 w2 brokers,
      MakeConnection E (kafta st) (world st) = (None, w1) ->
      GetBrokers E w1 = (inl brokers, w2) ->
      let listed :=
        mkState w2 (trace st ++ [EvMakeConnection; EvGetBrokers; EvCloseConnection])
                (kafta st) in
      match first_controller brokers with
      | Some b =>
          defaultValue E (mkClusterConfig "") [] st
          = (Ret (mkClusterConfig (FormatInt (ID b)), None), listed)
          /\ get_configs E [] st
             = run_get_configs E (mkClusterConfig (FormatInt (ID b))) listed
      | None =>
          (exists o, defaultValue E (mkClusterConfig "") [] st
                     = (Ret (o, Some err_no_controller), listed))
          /\ get_configs E [] st = (Exit err_no_controller, listed)
      end)
  /\ (forall arg rest,
         defaultValue E (mkClusterConfig "") (arg :: rest) st
         = (Ret (mkClusterConfig arg, None), st)
         /\ get_configs E (arg :: rest) st
            = run_get_configs E (mkClusterConfig arg) st
         /\ Forall (fun ev => is_get_brokers ev = false)
                   (since st (snd (get_configs E (arg :: rest) st)))).
Proof.
  split.
  - intros w1 w2 brokers Hc Hb listed.
    pose proof (defaultValue_listing E st w1 w2 brokers Hc Hb) as Hd.
    fold listed in Hd.
    destruct (first_controller brokers) as [b|].
    + split; [exact Hd|]. unfold get_configs, bind at 1. now rewrite Hd.
    + split; [eauto|]. unfold get_configs, bind at 1. now rewrite Hd.
  - intros arg rest.
    assert (Hg : get_configs E (arg :: rest) st
                 = run_get_configs E (mkClusterConfig arg) st) by reflexivity.
    split; [reflexivity|]. split; [exact Hg|].
    rewrite Hg.
    destruct (run_get_configs_no_listing E (mkClusterConfig arg) st)
      as (new & Ht & Hnew).
    now rewrite (since_app _ _ _ Ht).
Qed.

(** Brokers 1, 2, 3 with 2 and 3 marked controller: [get-configs] describes
    broker 2; [get-configs 7] describes broker 7 without listing. *)
Lemma get_configs_target_broker_witness :
  get_configs (sample_world true true) [] (start store_dev)
  = run_get_configs (sample_world true true) (mkClusterConfig "2")
      (mkState tt [EvMakeConnection; EvGetBrokers; EvCloseConnection] store_dev)
  /\ get_configs (sample_world true true) ["7"] (start store_dev)
     = run_get_configs (sample_world true true) (mkClusterConfig "7")
         (start store_dev).
Proof.
  destruct (get_configs_target_broker (sample_world true true) (start store_dev))
    as [Hlist Harg].
  split.
  - exact (proj2 (Hlist tt tt [mkBroker 1 false; mkBroker 2 true; mkBroker 3 true]
                        eq_refl eq_refl)).
  - exact (proj1 (proj2 (Harg "7" []))).
Defined.

Example get_configs_without_controller :
  let E := mkCollaborators unit sarama_sample ctx_zero
             (fun _ w => (true, w)) (fun _ _ w => (None, w))
             (fun _ _ w => (inl "", w)) (fun _ _ w => (inl false, w))
             (fun _ _ w => (inl "", w)) (fun _ w => (None, w))
             (fun w => (inl [mkBroker 1 false; mkBroker 2 false], w))
             (fun _ w => (inl [], w)) in
  get_configs E [] (start store_dev)
  = (Exit err_no_controller,
     mkState tt [EvMakeConnection; EvGetBrokers; EvCloseConnection] store_dev).
Proof. reflexivity. Qed.

(** ** Flags that are not tri-state, and flags whose value is not read *)

Lemma fold_set_flag_useTLS (flags : list flag) (o : createContextOptions) :
  useTLS (fold_left set_flag flags o)
  = fold_left (fun acc f => match f with flag_tls b => b | _ => acc end)
              flags (useTLS o).
Proof.
  revert o. induction flags as [|f rest IH]; intros o; [reflexivity|].
  cbn [fold_left]. rewrite IH. destruct f; reflexivity.
Qed.

Lemma complete_useTLS (o : createContextOptions) (args : list string) :
  useTLS (fst (complete o args)) = useTLS o.
Proof.
  unfold complete. destruct (1 <? length args)%nat; [reflexivity|].
  destruct args as [|a [|b rest]]; cbn;
    destruct (cliflag.Provided (version o)); reflexivity.
Qed.

Lemma tls_default_kept (flags : list flag) (b : bool) :
  forallb (fun f => negb (is_flag_tls f)) flags = true ->
  fold_left (fun acc f => match f with flag_tls b => b | _ => acc end) flags b = b.
Proof.
  revert b. induction flags as [|f rest IH]; intros b H; [reflexivity|].
  cbn in H. apply andb_prop in H as [Hf Hrest].
  cbn [fold_left]. destruct f; try discriminate; now apply IH.
Qed.

Lemma fold_set_flag_sasl_kept (flags : list flag) (o : createContextOptions) :
  cliflag.Provided (useSASL o) = true ->
  cliflag.Provided (useSASL (fold_left set_flag flags o)) = true.
Proof.
  revert o. induction flags as [|f rest IH]; intros o H; [exact H|].
  cbn [fold_left]. apply IH. destruct f; cbn; auto.
Qed.

Lemma fold_set_flag_sasl (flags : list flag) (v : string) (o : createContextOptions) :
  In (flag_sasl v) flags ->
  cliflag.Provided (useSASL (fold_left set_flag flags o)) = true.
Proof.
  revert o. induction flags as [|f rest IH]; intros o Hin; [contradiction|].
  cbn [fold_left]. destruct Hin as [->|Hin]; [|now apply IH].
  now apply fold_set_flag_sasl_kept.
Qed.

(** What a successful [run] stored under its target name. *)
Lemma run_stored {W} (E : collaborators W) o (st : state W) n ex :
  fst (run E o st) = Ret (n, ex, None) ->
  exists o' c,
    prompted_from o o'
    /\ modifyContext (lib_sarama E) o' (starting_instance E (kafta st) n) = Ret c
    /\ kafta (snd (run E o st))
       = with_Contexts (<[n := c]> (Contexts (kafta st))) (kafta st).
Proof.
  intros Hrun. pose proof (run_facts E o st) as (new & _ & _ & _ & Hpost).
  rewrite Hrun in Hpost. destruct Hpost as (o' & c & _ & _ & Hfrom & Hm & Hk & _).
  eauto.
Qed.

(** C4. [useTLS] is taken from the [--tls] flag, always.  The merge returns
    a context whose [TLS] is the options' [useTLS] (it returns unless the
    version to parse is turned away), whatever the base holds; the options'
    [useTLS] is the value of the flag after parsing, which is [true] when the
    flag was not passed; and what a successful [run] stores has that value as
    its [TLS]. *)
Theorem merged_TLS_is_flag :
  (forall lib o base,
      match modifyContext lib o base with
      | Ret c => TLS c = useTLS o
      | Exit e =>
          (0 < String.length (parsedVersion o))%nat
          /\ ParseKafkaVersion lib (parsedVersion o) = inr e
      end)
  /\ (forall flags args,
         useTLS (fst (complete (parse_flags flags) args)) = tls_flag_value flags)
  /\ (forall flags,
         forallb (fun f => negb (is_flag_tls f)) flags = true ->
         tls_flag_value flags = true)
  /\ (forall W (E : collaborators W) o (st : state W) n ex,
         fst (run E o st) = Ret (n, ex, None) ->
         exists c, Contexts (kafta (snd (run E o st))) !! n = Some c
                   /\ TLS c = useTLS o).
Proof.
  split; [|split; [|split]].
  - intros lib o base. destruct (modifyContext lib o base) as [c|e] eqn:Hm.
    + apply modifyContext_Ret in Hm as (v & _ & ->). reflexivity.
    + now apply modifyContext_Exit in Hm.
  - intros flags args. rewrite complete_useTLS. apply fold_set_flag_useTLS.
  - intros flags. apply tls_default_kept.
  - intros W E o st n ex Hrun.
    destruct (run_stored E o st n ex Hrun) as (o' & c & Hfrom & Hm & Hk).
    exists c. rewrite Hk. cbn. split; [apply lookup_insert_eq|].
    apply modifyContext_Ret in Hm as (v & _ & ->). cbn.
    now destruct Hfrom as (_ & _ & _ & _ & -> & _).
Qed.

(** A profile stored with [--tls=false] comes back with [TLS = true] from an
    invocation that does not mention [--tls]. *)
Lemma merged_TLS_is_flag_witness :
  exists c,
    Contexts (kafta (snd (run (sample_world true true)
                           (fst (complete (parse_flags [flag_ksql "ksql:8088"]) ["dev"]))
                           (start store_dev)))) !! "dev" = Some c
    /\ TLS c = true /\ TLS ctx_plain = false.
Proof.
  destruct merged_TLS_is_flag as (_ & _ & _ & Hrun).
  destruct (Hrun unit (sample_world true true)
              (fst (complete (parse_flags [flag_ksql "ksql:8088"]) ["dev"]))
              (start store_dev) "dev" true eq_refl) as (c & Hc & Htls).
  exists c. split; [exact Hc|]. split; [exact Htls | reflexivity].
Defined.

(** C10. Only the provided-ness of [--sasl] is read.  With the flag provided,
    whatever its value, the merge returns a context with [UseSASL = true],
    and the same context for any two values; an occurrence of [--sasl] on
    the command line, with any value, makes the flag provided; and no run of
    the command turns a stored [UseSASL = true] into [false]. *)
Theorem sasl_flag_value_ignored :
  (forall lib o base v,
      match modifyContext lib (with_useSASL (cliflag.Set_ v (useSASL o)) o) base with
      | Ret c => UseSASL c = true
      | Exit e =>
          (0 < String.length (parsedVersion o))%nat
          /\ ParseKafkaVersion lib (parsedVersion o) = inr e
      end)
  /\ (forall lib o base v1 v2,
         modifyContext lib (with_useSASL (cliflag.Set_ v1 (useSASL o)) o) base
         = modifyContext lib (with_useSASL (cliflag.Set_ v2 (useSASL o)) o) base)
  /\ (forall flags v,
         In (flag_sasl v) flags ->
         cliflag.Provided (useSASL (parse_flags flags)) = true)
  /\ (forall W (E : collaborators W) o (st : state W) n c,
         Contexts (kafta st) !! n = Some c ->
         UseSASL c = true ->
         exists c', Contexts (kafta (snd (run E o st))) !! n = Some c'
                    /\ UseSASL c' = true).
Proof.
  split; [|split; [|split]].
  - intros lib o base v.
    destruct (modifyContext lib _ base) as [c|e] eqn:Hm.
    + apply modifyContext_Ret in Hm as (w & _ & ->). reflexivity.
    + now apply modifyContext_Exit in Hm.
  - intros lib o base v1 v2. rewrite !modifyContext_merged. reflexivity.
  - intros flags v Hin. now apply fold_set_flag_sasl with (v := v).
  - intros W E o st n c Hlook Hsasl.
    destruct (fst (run E o st)) as [[[n0 ex] [e|]]|e] eqn:Hrun.
    + exists c. rewrite failed_keeps_store; [auto | now rewrite Hrun].
    + destruct (run_stored E o st n0 ex Hrun) as (o' & c0 & _ & Hm & Hk).
      rewrite Hk. cbn. destruct (decide (n0 = n)) as [->|Hne].
      * exists c0. split; [apply lookup_insert_eq|].
        apply modifyContext_Ret in Hm as (v & _ & ->).
        unfold starting_instance. rewrite Hlook, merged_UseSASL, Hsasl.
        apply orb_true_r.
      * exists c. rewrite lookup_insert_ne by exact Hne. auto.
    + exists c. rewrite failed_keeps_store; [auto | now rewrite Hrun].
Qed.

(** [set-context dev --sasl=false] on a profile without SASL stores it with
    [UseSASL = true]; on a profile with SASL it stays on. *)
Lemma sasl_flag_value_ignored_witness :
  modifyContext sarama_sample
    (with_useSASL (cliflag.Set_ "false" (useSASL registered)) registered) ctx_plain
  = Ret (with_UseSASL true (with_TLS true ctx_plain))
  /\ exists c',
      Contexts (kafta (snd (run (sample_world true true)
                             (fst (complete (parse_flags [flag_sasl "false"]) ["prod"]))
                             (start (mkKaftaData "prod" {[ "prod" := ctx_sasl ]})))))
      !! "prod" = Some c'
      /\ UseSASL c' = true.
Proof.
  destruct sasl_flag_value_ignored as (_ & Hval & _ & Hrun).
  split.
  - rewrite (Hval sarama_sample registered ctx_plain "false" ""). reflexivity.
  - apply (Hrun unit (sample_world true true)
             (fst (complete (parse_flags [flag_sasl "false"]) ["prod"]))
             (start (mkKaftaData "prod" {[ "prod" := ctx_sasl ]}))
             "prod" ctx_sasl); reflexivity.
Defined.

(** * Further properties of the code *)

(** ** [strings.Split] and the bootstrap servers *)

Lemma Split_length (s : string) (sep : ascii) :
  length (Split s sep) = S (count_byte s sep).
Proof.
  induction s as [|c rest IH]; [reflexivity|]. cbn.
  destruct (Ascii.eqb c sep); cbn; [now rewrite IH|].
  destruct (Split rest sep); cbn in *; congruence.
Qed.

Lemma Split_Join (s : string) (sep : ascii) :
  Join (Split s sep) sep = s.
Proof.
  induction s as [|c rest IH]; [reflexivity|]. cbn.
  destruct (Ascii.eqb_spec c sep) as [->|Hne].
  - pose proof (Split_length_pos rest sep) as Hpos.
    destruct (Split rest sep) as [|p ps]; cbn in *; [lia|].
    now rewrite IH.
  - pose proof (Split_length_pos rest sep) as Hpos.
    destruct (Split rest sep) as [|p ps]; cbn in *; [lia|].
    destruct ps; cbn in *; now rewrite <- IH.
Qed.

Lemma Split_pieces (s : string) (sep : ascii) :
  Forall (fun piece => contains_byte piece sep = false) (Split s sep).
Proof.
  induction s as [|c rest IH]; cbn; [repeat constructor|].
  destruct (Ascii.eqb c sep) eqn:Hc; [now constructor|].
  destruct (Split rest sep) as [|p ps]; cbn.
  - repeat constructor. cbn. now rewrite Hc.
  - inversion IH; subst. constructor; [cbn; now rewrite Hc | assumption].
Qed.

(** X1. The bootstrap servers a merge writes.  When [--server] is provided
    and the merge returns, the servers of the result are the pieces of the
    flag's value between commas: there is at least one (one more than there
    are commas, so an empty value gives one empty server), none holds a
    comma, and joined with commas they give the value back. *)
Theorem merged_bootstrap_servers (lib : sarama) (o : createContextOptions)
  (base c : Context) :
  cliflag.Provided (bootstrapServers o) = true ->
  modifyContext lib o base = Ret c ->
  length (BootstrapServers c)
  = S (count_byte (cliflag.Value (bootstrapServers o)) ",")
  /\ Forall (fun server => contains_byte server "," = false) (BootstrapServers c)
  /\ Join (BootstrapServers c) "," = cliflag.Value (bootstrapServers o).
Proof.
  intros Hp Hm. apply modifyContext_Ret in Hm as (v & _ & ->).
  cbn. rewrite Hp.
  split; [apply Split_length|]. split; [apply Split_pieces | apply Split_Join].
Qed.

Lemma merged_bootstrap_servers_witness :
  exists c,
    modifyContext sarama_sample (parse_flags [flag_server ""]) ctx_plain = Ret c
    /\ length (BootstrapServers c) = 1
    /\ Join (BootstrapServers c) "," = "".
Proof.
  eexists. split; [reflexivity|].
  destruct (merged_bootstrap_servers sarama_sample (parse_flags [flag_server ""])
              ctx_plain _ eq_refl eq_refl) as (Hlen & _ & Hjoin).
  split; [exact Hlen | exact Hjoin].
Defined.

(** ** Merges in a row *)

(** X2. Two merges in a row are one merge.  When the merge of a first
    override set returns, merging a second set into its result is the merge
    of the two sets laid over each other into the base: field by field the
    later provided override wins, [UseSASL] is on as soon as either set
    provides [--sasl], and [TLS] is the later set's. *)
Theorem modifyContext_compose (lib : sarama) (o1 o2 : createContextOptions)
  (base c1 : Context) :
  modifyContext lib o1 base = Ret c1 ->
  modifyContext lib o2 c1 = modifyContext lib (overlay o1 o2) base.
Proof.
  intros Hm. apply modifyContext_Ret in Hm as (v1 & Hv1 & ->).
  rewrite !modifyContext_merged.
  assert (Hlay : forall v,
             merged o2 (Some v) (merged o1 v1 base)
             = merged (overlay o1 o2) (Some v) base
             /\ merged o2 None (merged o1 v1 base)
                = merged (overlay o1 o2) v1 base).
  { intros v.
    destruct o1 as [n1 cu1 [a1 x1] [b1 y1] [d1 z1] ve1 [e1 u1] [f1 w1] [g1 s1]
                      [h1 t1] tls1 pv1 q1].
    destruct o2 as [n2 cu2 [a2 x2] [b2 y2] [d2 z2] ve2 [e2 u2] [f2 w2] [g2 s2]
                      [h2 t2] tls2 pv2 q2].
    unfold merged, overlay, later_flag; cbn.
    destruct a2, b2, d2, e2, f2, g2, h2; cbn; split; reflexivity. }
  assert (Hver : version_step lib (overlay o1 o2)
                 = if (0 <? String.length (parsedVersion o2))%nat
                   then version_step lib o2 else version_step lib o1).
  { unfold version_step, overlay; cbn [parsedVersion].
    destruct (0 <? String.length (parsedVersion o2))%nat eqn:H2;
      [now rewrite H2 | reflexivity]. }
  rewrite Hver.
  destruct (0 <? String.length (parsedVersion o2))%nat eqn:H2.
  - destruct (version_step lib o2) as [[v|]|e] eqn:Hv2; cbn; try reflexivity.
    + f_equal. apply Hlay.
    + unfold version_step in Hv2. rewrite H2 in Hv2.
      destruct (ParseKafkaVersion lib (parsedVersion o2)); discriminate.
  - assert (Hv2 : version_step lib o2 = Ret None).
    { unfold version_step. now rewrite H2. }
    rewrite Hv2, Hv1. cbn. f_equal. apply (Hlay "").
Qed.

(** [--server] and [--username] first, [--username] and [--sasl] second. *)
Lemma modifyContext_compose_witness :
  modifyContext sarama_sample
    (parse_flags [flag_username "bob"; flag_sasl "true"])
    (with_SASL (mkSASL "" "alice" "")
       (with_BootstrapServers ["b-9:9092"] (with_TLS true ctx_plain)))
  = Ret (mkContext "" "" ["b-9:9092"] "2.8.0" true (mkSASL "" "bob" "") true).
Proof.
  exact (eq_trans
           (modifyContext_compose sarama_sample
              (parse_flags [flag_server "b-9:9092"; flag_username "alice"])
              (parse_flags [flag_username "bob"; flag_sasl "true"])
              ctx_plain
              (with_SASL (mkSASL "" "alice" "")
                 (with_BootstrapServers ["b-9:9092"] (with_TLS true ctx_plain)))
              eq_refl)
           eq_refl).
Defined.

(** ** Which prompts are shown *)

Ltac prompt_leaf :=
  cbn in *;
  repeat match goal with
         | H : context [negb ?p] |- _ =>
             is_var p; destruct p; cbn in H; try discriminate H
         end;
  repeat match goal with
         | H : ?a = ?a |- _ => clear H
         end;
  repeat match goal with
         | H : (_ =? _)%nat = _ |- _ => rewrite ?H; clear H
         end;
  cbn; try reflexivity.

Lemma promptNeeded_prompts_spec {W} (E : collaborators W) o c (st : state W) :
  wp (promptNeeded E o c) (promptNeeded_prompts o c st) st.
Proof.
  unfold promptNeeded, promptNeeded_prompts.
  destruct (quiet o) eqn:Hq.
  { apply wp_ret. exists []. rewrite app_nil_r. cbn.
    repeat split; auto. now rewrite orb_false_r. }
  destruct o as [n cu sr k [p3 v3] [p4 v4] [p5 v5] [p6 v6] [p7 v7] [p8 v8] tls pv q].
  cbn in *.
  repeat first
    [ apply wp_prompt; [intros ? ? ? | intros ? ? ?]
    | wp_step
    | match goal with
      | |- wp (if ?b then _ else _) _ _ => destruct b eqn:?
      end ];
    cbn [trace]; rewrite <- ?app_assoc; cbn [app];
    (eexists; split; [first [reflexivity | symmetry; apply app_nil_r]|]);
    (split; [reflexivity|]);
    try reflexivity;
    repeat split; prompt_leaf.
Qed.

(** ** The order of what [run] does *)

Lemma wp_bind_run {W A B} (m : M W A) (f : A -> M W B)
  (Q : res B -> state W -> Prop) (st : state W) :
  match fst (m st) with
  | Ret a => wp (f a) Q (snd (m st))
  | Exit e => Q (Exit e) (snd (m st))
  end ->
  wp (bind m f) Q st.
Proof.
  unfold wp, bind. destruct (m st) as [[a|e] st']; cbn; exact (fun H => H).
Qed.

Lemma prompted_version_step {W} (E : collaborators W) o o' :
  prompted_from o o' ->
  version_step (lib_sarama E) o' = version_step (lib_sarama E) o.
Proof.
  intros (_ & _ & _ & _ & _ & Hpv & _). unfold version_step. now rewrite Hpv.
Qed.

Lemma wp_conj {W A} (m : M W A) (Q1 Q2 : res A -> state W -> Prop)
  (st : state W) :
  wp m Q1 st -> wp m Q2 st -> wp m (fun r st' => Q1 r st' /\ Q2 r st') st.
Proof. unfold wp. auto. Qed.

Ltac shape_frame :=
  do 6 (split; [first [reflexivity | assumption | apply List.Forall_nil]|]).

Lemma run_shape_spec {W} (E : collaborators W) o (st : state W) :
  wp (run E o) (run_shape E o st) st.
Proof.
  unfold run. apply wp_bind_run.
  pose proof (validate_facts E o st) as (err & new1 & Hr & [Ht1 Hk1] & Hprobe & _).
  rewrite Hr. set (st1 := snd (validate E o st)) in *.
  assert (Hsince : new1 = since st st1) by (symmetry; now apply since_app).
  assert (Hrefl : prompted_from o o) by (unfold prompted_from, kept; tauto).
  destruct err as [e|].
  { apply wp_ret. exists new1, [], tail_none, o. cbn [tail_events].
    rewrite !app_nil_r, Ht1. shape_frame. repeat split; auto. }
  apply wp_bind, wp_get_kafta. rewrite resolve_name.
  destruct (currContext o && _) eqn:Hres.
  { apply wp_ret. exists new1, [], tail_none, o. cbn [tail_events].
    rewrite !app_nil_r, Ht1. apply andb_prop in Hres as [Hcur Hlen].
    apply length_zero_empty in Hlen. rewrite Hk1 in Hlen.
    shape_frame. repeat split; auto. }
  rewrite load_or_create. cbn iota. rewrite Hk1.
  set (n := target_name o (kafta st)).
  set (base := starting_instance E (kafta st) n).
  apply wp_bind.
  eapply wp_mono;
    [apply wp_conj; [apply promptNeeded_spec | apply promptNeeded_prompts_spec]|].
  intros r2 st2 [(new2 & [Ht2 Hk2] & Hprompt & Hr2) (new2' & Ht2' & Hord & Hasked)].
  assert (new2' = new2) as -> by (rewrite Ht2 in Ht2'; now apply app_inv_head in Ht2').
  destruct r2 as [[o' err']|e2].
  2:{ exists new1, new2, tail_none, o. cbn [tail_events].
      rewrite app_nil_r, Ht2, Ht1, <- app_assoc. shape_frame.
      split; [exact Hr|]. left. split; [reflexivity|]. now left. }
  destruct Hr2 as (-> & Hfrom & _ & _).
  destruct Hasked as (_ & _ & _ & _ & _ & _ & Hbs).
  apply wp_bind, wp_CheckErr. cbn [fst snd].
  apply wp_bind, wp_lift_res.
  destruct (modifyContext (lib_sarama E) o' base) as [c|e] eqn:Hm.
  2:{ exists new1, new2, tail_none, o'. cbn [tail_events].
      rewrite app_nil_r, Ht2, Ht1, <- app_assoc. shape_frame.
      split; [exact Hr|]. left. split; [reflexivity|]. right.
      rewrite <- (prompted_version_step E o o' Hfrom).
      rewrite modifyContext_merged in Hm.
      destruct (version_step (lib_sarama E) o'); [discriminate | now inversion Hm]. }
  apply wp_bind, wp_emit, wp_bind, wp_checkConnection; cbn [world trace kafta].
  - intros Hnot. apply wp_bind, wp_get_kafta, wp_bind, wp_put_kafta, wp_ret.
    cbn [world trace kafta].
    exists new1, new2, (tail_printed c), o'. cbn [tail_events].
    rewrite Ht2, Ht1, <- !app_assoc. shape_frame.
    split; [exact Hr|]. split; [exact Hbs|].
    exists c. rewrite Hnot. split; [apply lookup_insert_eq | reflexivity].
  - intros Hprov w _.
    apply wp_bind, wp_get_kafta, wp_bind, wp_put_kafta, wp_ret.
    cbn [world trace kafta].
    exists new1, new2, (tail_connected c), o'. cbn [tail_events].
    rewrite Ht2, Ht1, <- !app_assoc. shape_frame.
    split; [exact Hr|]. split; [exact Hbs|].
    exists c. rewrite Hprov. split; [apply lookup_insert_eq | reflexivity].
  - intros Hprov e w _. apply wp_bind, wp_CheckErr. cbn [world trace kafta].
    exists new1, new2, (tail_refused c), o'. cbn [tail_events].
    rewrite Ht2, Ht1, <- !app_assoc. shape_frame.
    split; [exact Hr|]. right. exists c. auto.
Qed.

(** X3. A run that returns an error has done nothing but validate.  When
    [run] returns an error (rather than ending the process), the name it
    returns is empty and the flag false, the events it added are the probes
    of [validate] and nothing else (no prompt, no printed profile, no
    connection), the store is as it was, and the error is the one of
    [validate] or, after a passed validation under [--current] with no
    current context in the store, "no current context is set".  The
    "could not connect" error is never returned. *)
Theorem run_error_is_validation {W} (E : collaborators W)
  (o : createContextOptions) (st : state W) (n : string) (ex : bool) (e : error) :
  fst (run E o st) = Ret (n, ex, Some e) ->
  n = "" /\ ex = false
  /\ since st (snd (run E o st)) = since st (snd (validate E o st))
  /\ kafta (snd (run E o st)) = kafta st
  /\ (fst (validate E o st) = Ret (Some e)
      \/ (fst (validate E o st) = Ret None
          /\ currContext o = true
          /\ CurrentContext (kafta st) = ""
          /\ e = err_no_current))
  /\ (forall servers, e <> errCouldNotConnect servers).
Proof.
  intros Hrun.
  pose proof (run_shape_spec E o st) as (probes & prompts & t & o' & Ht & Hp & _ & _ & _ & _ & Hcase).
  unfold wp in *. rewrite Hrun in Hcase.
  destruct Hcase as (-> & -> & -> & -> & Hwhy).
  cbn [tail_events] in Ht. rewrite !app_nil_r in Ht.
  split; [reflexivity|]. split; [reflexivity|].
  split; [rewrite (since_app _ _ _ Ht); exact Hp|].
  split; [apply failed_keeps_store; now rewrite Hrun|].
  split; [exact Hwhy|].
  intros servers ->.
  destruct Hwhy as [Hv | (_ & _ & _ & [=])].
  destruct (validate_facts E o st)
    as (err & new & Hr & _ & _ & Hn & Hb & _ & Hk & Hs & _ & _).
  rewrite Hr in Hv. injection Hv as ->.
  unfold validate in Hr.
  revert Hr. fold (name_neither o) (name_both o).
  destruct (name_neither o); [discriminate|].
  destruct (name_both o); [discriminate|].
  unfold bind.
  destruct (cliflag.Provided (ksql o)).
  - destruct (testHost E (cliflag.String (ksql o)) st) as [[[|]|] s1]; cbn;
      try discriminate.
    destruct (cliflag.Provided (schemaRegistry o)).
    + destruct (testHost E (cliflag.String (schemaRegistry o)) s1) as [[[|]|] s2];
        cbn; try discriminate.
      destruct (cliflag.Provided (useSASL o) && quiet o); [|discriminate].
      destruct (negb (cliflag.Provided (user o))); [discriminate|].
      destruct (negb (cliflag.Provided (password o))); discriminate.
    + cbn.
      destruct (cliflag.Provided (useSASL o) && quiet o); [|discriminate].
      destruct (negb (cliflag.Provided (user o))); [discriminate|].
      destruct (negb (cliflag.Provided (password o))); discriminate.
  - cbn. destruct (cliflag.Provided (schemaRegistry o)).
    + destruct (testHost E (cliflag.String (schemaRegistry o)) st) as [[[|]|] s2];
        cbn; try discriminate.
      destruct (cliflag.Provided (useSASL o) && quiet o); [|discriminate].
      destruct (negb (cliflag.Provided (user o))); [discriminate|].
      destruct (negb (cliflag.Provided (password o))); discriminate.
    + cbn.
      destruct (cliflag.Provided (useSASL o) && quiet o); [|discriminate].
      destruct (negb (cliflag.Provided (user o))); [discriminate|].
      destruct (negb (cliflag.Provided (password o))); discriminate.
Qed.


(** [set-context --current] on a store without current context, by a user
    in front of a cluster in reach. *)
Lemma run_error_is_validation_witness :
  fst (run typing_world (fst (complete (parse_flags [flag_current true]) []))
         (start (mkKaftaData "" {[ "dev" := ctx_plain ]})))
  = Ret ("", false, Some err_no_current)
  /\ since (start (mkKaftaData "" {[ "dev" := ctx_plain ]}))
       (snd (run typing_world (fst (complete (parse_flags [flag_current true]) []))
               (start (mkKaftaData "" {[ "dev" := ctx_plain ]}))))
     = [].
Proof.
  split; [reflexivity|].
  destruct (run_error_is_validation typing_world
              (fst (complete (parse_flags [flag_current true]) []))
              (start (mkKaftaData "" {[ "dev" := ctx_plain ]}))
              "" false err_no_current eq_refl) as (_ & _ & Hs & _).
  exact Hs.
Defined.

Lemma asked_In (label : string) (evs : list event) :
  asked label evs = true <-> In (EvPrompt label) evs.
Proof.
  unfold asked, prompt_labels. rewrite existsb_exists. split.
  - intros (l & Hin & Heq). apply String.eqb_eq in Heq. subst l.
    apply in_flat_map in Hin as (ev & Hev & Hl).
    destruct ev; cbn in Hl; try contradiction.
    destruct Hl as [->|[]]. exact Hev.
  - intros Hin. exists label. split; [|apply String.eqb_refl].
    apply in_flat_map. exists (EvPrompt label). split; [exact Hin | now left].
Qed.

(** X4. What a successful run has done, in order.  When [run] succeeds,
    validation had passed, and the events of the run are the probes of
    validation, then prompts, then the merged profile printed, then either
    one connection to that profile's cluster, opened and closed, or, when
    bootstrap servers were neither provided as a flag nor typed at their
    prompt, nothing; the profile printed, connected to and stored under the
    returned name is one and the same. *)
Theorem run_success_effects {W} (E : collaborators W)
  (o : createContextOptions) (st : state W) (n : string) (ex : bool) :
  fst (run E o st) = Ret (n, ex, None) ->
  fst (validate E o st) = Ret None
  /\ exists prompts c connection,
      since st (snd (run E o st))
      = since st (snd (validate E o st)) ++ prompts
        ++ EvPrintContext c :: connection
      /\ Forall (fun ev => is_prompt ev = true) prompts
      /\ Contexts (kafta (snd (run E o st))) !! n = Some c
      /\ ((connection = [EvMakeConnectionContext c; EvCloseConnection]
           /\ (cliflag.Provided (bootstrapServers o) = true
               \/ In (EvPrompt "Bootstrap servers") prompts))
          \/ (connection = []
              /\ cliflag.Provided (bootstrapServers o) = false
              /\ ~ In (EvPrompt "Bootstrap servers") prompts)).
Proof.
  intros Hrun.
  pose proof (run_shape_spec E o st)
    as (probes & prompts & t & o' & Ht & Hp & _ & Hprompts & _ & _ & Hcase).
  unfold wp in *. rewrite Hrun in Hcase.
  destruct Hcase as (Hv & Hbs & c & Hc & ->).
  split; [exact Hv|].
  rewrite (since_app _ _ _ Ht), <- Hp.
  destruct (cliflag.Provided (bootstrapServers o')) eqn:Hbs'; cbn [tail_events].
  - exists prompts, c, [EvMakeConnectionContext c; EvCloseConnection].
    repeat split; auto. left. split; [reflexivity|].
    symmetry in Hbs. apply orb_prop in Hbs as [Hb|Hb]; [now left|].
    right. now apply asked_In.
  - exists prompts, c, []. repeat split; auto. right.
    symmetry in Hbs. apply orb_false_elim in Hbs as [Hb Ha].
    repeat split; auto. intros Hin. apply asked_In in Hin. congruence.
Qed.

(** A new profile: the user types the servers, so the cluster is
    connected to before the profile is stored. *)
Lemma run_success_effects_witness :
  exists c,
    since (start store_dev)
      (snd (run typing_world (fst (complete (parse_flags []) ["new"]))
              (start store_dev)))
    = [EvPrompt "Bootstrap servers"; EvPrompt "Kafka version"; EvPrompt "Use SASL";
       EvPrintContext c; EvMakeConnectionContext c; EvCloseConnection]
    /\ Contexts (kafta (snd (run typing_world
                              (fst (complete (parse_flags []) ["new"]))
                              (start store_dev)))) !! "new" = Some c.
Proof.
  destruct (run_success_effects typing_world
              (fst (complete (parse_flags []) ["new"])) (start store_dev)
              "new" false eq_refl)
    as (_ & prompts & c & connection & Hs & _ & Hc & _).
  exists c. split; [|exact Hc].
  vm_compute in Hc. injection Hc as <-. vm_compute. reflexivity.
Defined.

(** X5. A version that does not parse ends the process before anything is
    printed or connected to.  When the version [complete] took from
    [--version] is turned away by the parser, [run] does not succeed, the
    store is as it was, and the run prints no profile and opens no
    connection: its events are probes and prompts only. *)
Theorem run_invalid_version {W} (E : collaborators W)
  (o : createContextOptions) (st : state W) (e : error) :
  version_step (lib_sarama E) o = Exit e ->
  failed (fst (run E o st))
  /\ kafta (snd (run E o st)) = kafta st
  /\ Forall (fun ev => is_print_context ev = false /\ is_connect ev = false)
            (since st (snd (run E o st))).
Proof.
  intros Hver.
  assert (Hmerge : forall o' base c,
             prompted_from o o' ->
             modifyContext (lib_sarama E) o' base = Ret c -> False).
  { intros o' base c Hfrom Hm. rewrite modifyContext_merged in Hm.
    rewrite (prompted_version_step E o o' Hfrom), Hver in Hm. discriminate. }
  assert (Hf : failed (fst (run E o st))).
  { destruct (fst (run E o st)) as [[[n ex] [e'|]]|e'] eqn:Hrun; cbn; auto.
    destruct (run_stored E o st n ex Hrun) as (o' & c & Hfrom & Hm & _).
    exact (Hmerge o' _ c Hfrom Hm). }
  split; [exact Hf|]. split; [now apply failed_keeps_store|].
  pose proof (run_shape_spec E o st)
    as (probes & prompts & t & o' & Ht & _ & Hprobes & Hprompts & _ & Hfrom & Hcase).
  unfold wp in *. rewrite (since_app _ _ _ Ht).
  assert (Ht0 : t = tail_none).
  { destruct (fst (run E o st)) as [[[n ex] [e'|]]|e']; cbn in Hf.
    - now destruct Hcase as (_ & _ & _ & -> & _).
    - contradiction.
    - destruct Hcase as (_ & [[-> _]|(c & _ & _ & Hm)]); [reflexivity|].
      destruct (Hmerge o' _ c Hfrom Hm). }
  rewrite Ht0. cbn [tail_events]. rewrite app_nil_r.
  apply Forall_app. split.
  - eapply List.Forall_impl; [|exact Hprobes].
    intros [] H; cbn in *; try contradiction; auto.
  - eapply List.Forall_impl; [|exact Hprompts].
    intros [] H; cbn in *; try discriminate; auto.
Qed.

(** [set-context dev --version=banana --server=b-1:9092]. *)
Lemma run_invalid_version_witness :
  failed (fst (run (sample_world true true)
                 (fst (complete (parse_flags [flag_version "banana";
                                              flag_server "b-1:9092"]) ["dev"]))
                 (start store_dev)))
  /\ kafta (snd (run (sample_world true true)
                 (fst (complete (parse_flags [flag_version "banana";
                                              flag_server "b-1:9092"]) ["dev"]))
                 (start store_dev))) = store_dev.
Proof.
  destruct (run_invalid_version (sample_world true true)
              (fst (complete (parse_flags [flag_version "banana";
                                           flag_server "b-1:9092"]) ["dev"]))
              (start store_dev) (errExternal "invalid version") eq_refl)
    as (Hf & Hk & _).
  split; [exact Hf | exact Hk].
Defined.

(** ** [--current] *)



(** ** What [run] writes *)

Lemma set_context_Run_prints {W} (E : collaborators W) o0 args o
  (st : state W) n ex :
  complete o0 args = (o, None) ->
  fst (run E o st) = Ret (n, ex, None) ->
  set_context_Run E o0 args st
  = (Ret tt,
     mkState (world (snd (run E o st)))
       (trace (snd (run E o st))
        ++ [if ex then EvReportModified n else EvReportCreated n])
       (kafta (snd (run E o st)))).
Proof.
  intros Hc Hrun. unfold set_context_Run. rewrite Hc.
  unfold bind, CheckErr, lift_res, CheckErr_res, emit. cbn.
  destruct (run E o st) as [r st1]; cbn in *. subst r.
  destruct ex; reflexivity.
Qed.

(** X7. Created or modified.  The flag a successful [run] returns says
    whether the store held a profile under the target name before; after
    the run it does hold one there, so that any later successful run on that
    name returns [true]; and the command then prints "created" or
    "modified" by that flag, as the last thing it does. *)
Theorem run_created_or_modified {W} (E : collaborators W)
  (o : createContextOptions) (st : state W) (n : string) (ex : bool) :
  fst (run E o st) = Ret (n, ex, None) ->
  (ex = true <-> is_Some (Contexts (kafta st) !! n))
  /\ is_Some (Contexts (kafta (snd (run E o st))) !! n)
  /\ (forall (E2 : collaborators W) o2 ex2,
         fst (run E2 o2 (snd (run E o st))) = Ret (n, ex2, None) -> ex2 = true)
  /\ (forall o0 args,
         complete o0 args = (o, None) ->
         set_context_Run E o0 args st
         = (Ret tt,
            mkState (world (snd (run E o st)))
              (trace (snd (run E o st))
               ++ [if ex then EvReportModified n else EvReportCreated n])
              (kafta (snd (run E o st))))).
Proof.
  intros Hrun.
  assert (Hex : forall (E1 : collaborators W) o1 s1 n1 ex1,
             fst (run E1 o1 s1) = Ret (n1, ex1, None) ->
             (ex1 = true <-> is_Some (Contexts (kafta s1) !! n1))
             /\ is_Some (Contexts (kafta (snd (run E1 o1 s1))) !! n1)).
  { intros E1 o1 s1 n1 ex1 H1.
    pose proof (run_facts E1 o1 s1) as (new & _ & _ & _ & Hpost).
    rewrite H1 in Hpost. destruct Hpost as (o' & c & _ & -> & _ & _ & Hk & _).
    split.
    - destruct (Contexts (kafta s1) !! n1); split; eauto;
        intros H; try discriminate; now destruct H.
    - rewrite Hk. cbn. rewrite lookup_insert_eq. eauto. }
  destruct (Hex E o st n ex Hrun) as [Hiff Hafter].
  split; [exact Hiff|]. split; [exact Hafter|]. split.
  - intros E2 o2 ex2 H2. apply (Hex E2 o2 _ n ex2 H2). exact Hafter.
  - intros o0 args Hc. now apply set_context_Run_prints.
Qed.

(** [set-context new --server=b-2:9092] twice on a store without [new]. *)
Lemma run_created_or_modified_witness :
  fst (run (sample_world true true)
         (fst (complete (parse_flags [flag_server "b-2:9092"]) ["new"]))
         (start store_dev))
  = Ret ("new", false, None)
  /\ fst (run (sample_world true true)
            (fst (complete (parse_flags [flag_server "b-2:9092"]) ["new"]))
            (snd (run (sample_world true true)
                    (fst (complete (parse_flags [flag_server "b-2:9092"]) ["new"]))
                    (start store_dev))))
     = Ret ("new", true, None).
Proof.
  split; [reflexivity|].
  destruct (run_created_or_modified (sample_world true true)
              (fst (complete (parse_flags [flag_server "b-2:9092"]) ["new"]))
              (start store_dev) "new" false eq_refl) as (_ & _ & Hnext & _).
  assert (Hrun : exists ex2,
             fst (run (sample_world true true)
                    (fst (complete (parse_flags [flag_server "b-2:9092"]) ["new"]))
                    (snd (run (sample_world true true)
                            (fst (complete (parse_flags [flag_server "b-2:9092"]) ["new"]))
                            (start store_dev))))
             = Ret ("new", ex2, None)) by (eexists; reflexivity).
  destruct Hrun as [ex2 Hrun]. rewrite Hrun.
  now rewrite (Hnext _ _ _ Hrun).
Defined.

(** X8. What [run] leaves alone.  Whatever its outcome, [run] keeps the
    name of the current context, every profile stored under another name
    than the one it works on, and the presence of every profile; hence, if
    the current context named a stored profile (or none was set) before the
    run, that holds after it. *)
Theorem run_frame {W} (E : collaborators W) (o : createContextOptions)
  (st : state W) :
  CurrentContext (kafta (snd (run E o st))) = CurrentContext (kafta st)
  /\ (forall m, m <> target_name o (kafta st) ->
                Contexts (kafta (snd (run E o st))) !! m
                = Contexts (kafta st) !! m)
  /\ (forall m, is_Some (Contexts (kafta st) !! m) ->
                is_Some (Contexts (kafta (snd (run E o st))) !! m))
  /\ (CurrentContext (kafta st) = ""
      \/ is_Some (Contexts (kafta st) !! CurrentContext (kafta st)) ->
      CurrentContext (kafta (snd (run E o st))) = ""
      \/ is_Some (Contexts (kafta (snd (run E o st)))
                  !! CurrentContext (kafta (snd (run E o st))))).
Proof.
  pose proof (run_facts E o st) as (new & _ & _ & _ & Hpost).
  assert (Hcases : kafta (snd (run E o st)) = kafta st
                   \/ exists c, kafta (snd (run E o st))
                                = with_Contexts
                                    (<[target_name o (kafta st) := c]>
                                       (Contexts (kafta st))) (kafta st)).
  { destruct (fst (run E o st)) as [[[n ex] [e|]]|e]; auto.
    destruct Hpost as (o' & c & -> & _ & _ & _ & Hk & _). eauto. }
  assert (Hcur : CurrentContext (kafta (snd (run E o st)))
                 = CurrentContext (kafta st)).
  { destruct Hcases as [->|[c ->]]; reflexivity. }
  assert (Hkeep : forall m, is_Some (Contexts (kafta st) !! m) ->
                            is_Some (Contexts (kafta (snd (run E o st))) !! m)).
  { intros m Hm. destruct Hcases as [->|[c ->]]; [exact Hm|]. cbn.
    destruct (decide (target_name o (kafta st) = m)) as [->|Hne].
    - rewrite lookup_insert_eq. eauto.
    - now rewrite lookup_insert_ne. }
  split; [exact Hcur|]. split; [|split; [exact Hkeep|]].
  - intros m Hm. destruct Hcases as [->|[c ->]]; [reflexivity|]. cbn.
    now rewrite lookup_insert_ne.
  - rewrite Hcur. intros [Hnone|Hsome]; [now left | right; now apply Hkeep].
Qed.

(** X9. The Kafka version typed at the prompt is not stored.  The merge
    reads the version [complete] took from the flag before the prompts; so
    when there was no version to parse, a successful [run] stores the
    profile with the version it started from, also when the user was asked
    for a version and typed one. *)
Theorem run_ignores_prompted_version {W} (E : collaborators W)
  (o : createContextOptions) (st : state W) (n : string) (ex : bool) :
  parsedVersion o = "" ->
  fst (run E o st) = Ret (n, ex, None) ->
  exists c,
    Contexts (kafta (snd (run E o st))) !! n = Some c
    /\ KafkaVersion c = KafkaVersion (starting_instance E (kafta st) n).
Proof.
  intros Hpv Hrun.
  destruct (run_stored E o st n ex Hrun) as (o' & c & Hfrom & Hm & Hk).
  exists c. split; [rewrite Hk; cbn; apply lookup_insert_eq|].
  rewrite modifyContext_merged, (prompted_version_step E o o' Hfrom) in Hm.
  unfold version_step in Hm. rewrite Hpv in Hm. cbn in Hm.
  injection Hm as <-. reflexivity.
Qed.

(** A new profile, the user types version 3.0.0 when asked: the profile is
    stored without version. *)
Lemma run_ignores_prompted_version_witness :
  In (EvPrompt "Kafka version")
     (trace (snd (run typing_world (fst (complete (parse_flags []) ["new"]))
                    (start store_dev))))
  /\ exists c,
      Contexts (kafta (snd (run typing_world
                              (fst (complete (parse_flags []) ["new"]))
                              (start store_dev)))) !! "new" = Some c
      /\ KafkaVersion c = "".
Proof.
  split; [vm_compute; auto|].
  exact (run_ignores_prompted_version typing_world
           (fst (complete (parse_flags []) ["new"])) (start store_dev)
           "new" false eq_refl eq_refl).
Defined.

(** ** The prompts *)

(** X10. Which prompts are shown, and in which order.  A run of
    [promptNeeded] adds prompts only, in the order bootstrap servers, Kafka
    version, SASL usage, algorithm, user, password, and keeps the store;
    in quiet mode it shows none and returns the options as they are.  When it
    returns, it returns no error; the prompts for bootstrap servers and for
    the version were shown exactly when the mode is not quiet, the flag of
    the field is not provided and the profile holds nothing for the field;
    "Use SASL" exactly when the mode is not quiet and [--sasl] is not
    provided, whatever the profile holds; and each of the three SASL fields
    exactly when "Use SASL" was asked and confirmed, the flag of the field is
    not provided and the profile holds nothing for it.  Schema registry and
    ksql are never asked for. *)
Theorem promptNeeded_asks {W} (E : collaborators W) (o : createContextOptions)
  (c : Context) (st : state W) :
  let r := fst (promptNeeded E o c st) in
  let new := since st (snd (promptNeeded E o c st)) in
  subseq (prompt_labels new) prompt_order = true
  /\ Forall (fun ev => is_prompt ev = true) new
  /\ kafta (snd (promptNeeded E o c st)) = kafta st
  /\ (quiet o = true -> new = [] /\ r = Ret (o, None))
  /\ (forall o' err, r = Ret (o', err) ->
      err = None
      /\ schemaRegistry o' = schemaRegistry o /\ ksql o' = ksql o
      /\ asked "Bootstrap servers" new
         = negb (quiet o)
           && (negb (cliflag.Provided (bootstrapServers o))
               && (length (BootstrapServers c) =? 0)%nat)
      /\ asked "Kafka version" new
         = negb (quiet o)
           && (negb (cliflag.Provided (version o))
               && (String.length (KafkaVersion c) =? 0)%nat)
      /\ asked "Use SASL" new
         = negb (quiet o) && negb (cliflag.Provided (useSASL o))
      /\ asked "SASL Algorithm" new
         = negb (quiet o)
           && (negb (cliflag.Provided (useSASL o))
               && (cliflag.Provided (useSASL o')
                   && (negb (cliflag.Provided (algorithm o))
                       && (String.length (Algorithm (SASL c)) =? 0)%nat)))
      /\ asked "User" new
         = negb (quiet o)
           && (negb (cliflag.Provided (useSASL o))
               && (cliflag.Provided (useSASL o')
                   && (negb (cliflag.Provided (user o))
                       && (String.length (Username (SASL c)) =? 0)%nat)))
      /\ asked "Password" new
         = negb (quiet o)
           && (negb (cliflag.Provided (useSASL o))
               && (cliflag.Provided (useSASL o')
                   && (negb (cliflag.Provided (password o))
                       && (String.length (Password (SASL c)) =? 0)%nat)))).
Proof.
  intros r new.
  pose proof (promptNeeded_spec E o c st) as (new1 & [Ht Hk] & Hprompt & Hr).
  pose proof (promptNeeded_prompts_spec E o c st) as (new2 & Ht2 & Hord & Hasked).
  unfold wp in *. fold r in Hr, Hasked.
  assert (new2 = new1) as ->
      by (rewrite Ht in Ht2; now apply app_inv_head in Ht2).
  assert (new = new1) as -> by (now apply since_app).
  split; [exact Hord|]. split; [exact Hprompt|]. split; [exact Hk|]. split.
  - intros Hq. unfold r in *. rewrite (promptNeeded_quiet E o c st Hq) in *.
    cbn in *. split; [|reflexivity].
    rewrite <- (app_nil_r (trace st)) in Ht at 1. now apply app_inv_head in Ht.
  - intros o' err Hret. rewrite Hret in Hr, Hasked.
    destruct Hr as (-> & Hfrom & _).
    destruct Hfrom as (_ & _ & Hsr & Hks & _).
    destruct Hasked as (H1 & H2 & H3 & H4 & H5 & H6 & _).
    repeat split; assumption.
Qed.

(** On a profile that has servers and a version, without [--sasl]: the one
    prompt is "Use SASL". *)
Lemma promptNeeded_asks_witness :
  prompt_labels
    (since (start store_dev)
       (snd (promptNeeded typing_world
               (fst (complete (parse_flags [flag_username "alice"]) ["dev"]))
               ctx_plain (start store_dev))))
  = ["Use SASL"]
  /\ asked "User"
       (since (start store_dev)
          (snd (promptNeeded typing_world
                  (fst (complete (parse_flags [flag_username "alice"]) ["dev"]))
                  ctx_plain (start store_dev))))
     = false.
Proof.
  split; [reflexivity|].
  destruct (promptNeeded_asks typing_world
              (fst (complete (parse_flags [flag_username "alice"]) ["dev"]))
              ctx_plain (start store_dev)) as (_ & _ & _ & _ & Hret).
  destruct (Hret _ _ eq_refl) as (_ & _ & _ & _ & _ & _ & _ & Huser & _).
  exact Huser.
Defined.

(** ** Validation *)

Lemma validate_error_cases {W} (E : collaborators W) o (st : state W) e :
  fst (validate E o st) = Ret (Some e) ->
  e = err_name_required \/ e = err_name_and_current
  \/ e = errorString "failed to connect on ksql"
  \/ e = errorString "failed to connect on schema-registry"
  \/ (e = err_sasl_credentials
      /\ cliflag.Provided (useSASL o) = true /\ quiet o = true).
Proof.
  unfold validate. fold (name_neither o) (name_both o).
  destruct (name_neither o); [cbn; intros [= <-]; auto|].
  destruct (name_both o); [cbn; intros [= <-]; auto|].
  assert (Hend : forall s : state W,
             fst ((if cliflag.Provided (useSASL o) && quiet o
                   then if negb (cliflag.Provided (user o))
                        then ret (Some err_sasl_credentials)
                        else if negb (cliflag.Provided (password o))
                             then ret (Some err_sasl_credentials)
                             else ret None
                   else ret None) s) = Ret (Some e) ->
             e = err_sasl_credentials
             /\ cliflag.Provided (useSASL o) = true /\ quiet o = true).
  { intros s. destruct (cliflag.Provided (useSASL o)), (quiet o); cbn;
      try discriminate.
    destruct (cliflag.Provided (user o)), (cliflag.Provided (password o)); cbn;
      try discriminate; intros [= <-]; auto. }
  assert (Hsr : forall s : state W,
             fst ((srBad <- (if cliflag.Provided (schemaRegistry o)
                             then ok <- testHost E (cliflag.String (schemaRegistry o)) ;;
                                  ret (negb ok)
                             else ret false) ;;
                   if srBad
                   then ret (Some (errorString "failed to connect on schema-registry"))
                   else
                     if cliflag.Provided (useSASL o) && quiet o
                     then if negb (cliflag.Provided (user o))
                          then ret (Some err_sasl_credentials)
                          else if negb (cliflag.Provided (password o))
                               then ret (Some err_sasl_credentials)
                               else ret None
                     else ret None) s) = Ret (Some e) ->
             e = errorString "failed to connect on schema-registry"
             \/ (e = err_sasl_credentials
                 /\ cliflag.Provided (useSASL o) = true /\ quiet o = true)).
  { intros s. unfold bind at 1.
    destruct (cliflag.Provided (schemaRegistry o)).
    - unfold bind at 1.
      destruct (testHost E (cliflag.String (schemaRegistry o)) s) as [[[|]|] s2];
        cbn; try discriminate.
      + intros H. right. exact (Hend s2 H).
      + intros [= <-]. now left.
    - cbn. intros H. right. exact (Hend s H). }
  unfold bind at 1. destruct (cliflag.Provided (ksql o)).
  - unfold bind at 1.
    destruct (testHost E (cliflag.String (ksql o)) st) as [[[|]|] s1];
      cbn; try discriminate.
    + intros H. right. right. right. exact (Hsr s1 H).
    + intros [= <-]. auto.
  - cbn. intros H. right. right. right. exact (Hsr st H).
Qed.

(** X11. No command line reaches quiet mode.  The command registers no flag
    for [quiet]: on the options of any command line it is false, so
    validation never asks for SASL credentials, whatever is passed for
    [--sasl], [--username] and [--password]. *)
Theorem command_line_never_quiet {W} (E : collaborators W)
  (flags : list flag) (args : list string) (st : state W) :
  quiet (fst (complete (parse_flags flags) args)) = false
  /\ fst (validate E (fst (complete (parse_flags flags) args)) st)
     <> Ret (Some err_sasl_credentials).
Proof.
  assert (Hfold : forall fs o, quiet (fold_left set_flag fs o) = quiet o).
  { induction fs as [|f rest IH]; intros o; [reflexivity|].
    cbn [fold_left]. rewrite IH. destruct f; reflexivity. }
  assert (Hq : quiet (fst (complete (parse_flags flags) args)) = false).
  { unfold complete. destruct (1 <? length args)%nat; cbn.
    - apply Hfold.
    - destruct args as [|a [|b rest]]; cbn;
        destruct (cliflag.Provided (version (parse_flags flags))); cbn;
        apply Hfold. }
  split; [exact Hq|]. intros Hv.
  apply validate_error_cases in Hv
    as [[=]|[[=]|[[=]|[[=]|(_ & _ & Hquiet)]]]].
  congruence.
Qed.

(** X12. A service that does not answer blocks the command.  When no TCP
    probe is answered and exactly one of name and [--current] is given: a
    provided [--ksql] makes [validate] return "failed to connect on ksql"
    after one event, the schema registry not looked at; without [--ksql] a
    provided [--schema-registry] makes it return "failed to connect on
    schema-registry"; and in both cases [run] does not succeed and the store
    is as it was, whatever else the invocation would have changed. *)
Theorem unanswered_probe_blocks {W} (E : collaborators W)
  (o : createContextOptions) (st : state W) :
  (forall a w, fst (DialTimeout E a w) = false) ->
  name_neither o = false -> name_both o = false ->
  (cliflag.Provided (ksql o) = true ->
   fst (validate E o st) = Ret (Some (errorString "failed to connect on ksql"))
   /\ length (since st (snd (validate E o st))) = 1)
  /\ (cliflag.Provided (ksql o) = false ->
      cliflag.Provided (schemaRegistry o) = true ->
      fst (validate E o st)
      = Ret (Some (errorString "failed to connect on schema-registry"))
      /\ length (since st (snd (validate E o st))) = 1)
  /\ (cliflag.Provided (ksql o) = true
      \/ cliflag.Provided (schemaRegistry o) = true ->
      failed (fst (run E o st)) /\ kafta (snd (run E o st)) = kafta st).
Proof.
  intros Hdown Hn Hb.
  assert (Htest : forall a (s : state W),
             exists ev w, testHost E a s
                          = (Ret false, mkState w (trace s ++ [ev]) (kafta s))).
  { intros a s. destruct (lacks_port a) eqn:Hl.
    - rewrite (testHost_lacks_port E a s Hl). eauto.
    - rewrite (testHost_dials E a s Hl), Hdown. eauto. }
  assert (Hk : cliflag.Provided (ksql o) = true ->
               fst (validate E o st)
               = Ret (Some (errorString "failed to connect on ksql"))
               /\ length (since st (snd (validate E o st))) = 1).
  { intros Hp.
    assert (Hval : exists ev w,
               validate E o st
               = (Ret (Some (errorString "failed to connect on ksql")),
                  mkState w (trace st ++ [ev]) (kafta st))).
    { unfold validate. fold (name_neither o) (name_both o).
      rewrite Hn, Hb, Hp. unfold bind.
      destruct (Htest (cliflag.String (ksql o)) st) as (ev & w & ->). cbn. eauto. }
    destruct Hval as (ev & w & ->). cbn [fst snd].
    split; [reflexivity|].
    now rewrite (since_app st _ [ev]) by reflexivity. }
  assert (Hs : cliflag.Provided (ksql o) = false ->
               cliflag.Provided (schemaRegistry o) = true ->
               fst (validate E o st)
               = Ret (Some (errorString "failed to connect on schema-registry"))
               /\ length (since st (snd (validate E o st))) = 1).
  { intros Hnk Hp.
    assert (Hval : exists ev w,
               validate E o st
               = (Ret (Some (errorString "failed to connect on schema-registry")),
                  mkState w (trace st ++ [ev]) (kafta st))).
    { unfold validate. fold (name_neither o) (name_both o).
      rewrite Hn, Hb, Hnk, Hp. unfold bind. cbn.
      destruct (Htest (cliflag.String (schemaRegistry o)) st) as (ev & w & ->).
      cbn. eauto. }
    destruct Hval as (ev & w & ->). cbn [fst snd].
    split; [reflexivity|].
    now rewrite (since_app st _ [ev]) by reflexivity. }
  split; [exact Hk|]. split; [exact Hs|].
  intros Hany.
  assert (Herr : exists e, fst (validate E o st) = Ret (Some e)).
  { destruct (cliflag.Provided (ksql o)) eqn:Hpk.
    - destruct (Hk eq_refl) as [-> _]. eauto.
    - destruct Hany as [[=]|Hps]. destruct (Hs eq_refl Hps) as [-> _]. eauto. }
  destruct Herr as [e He].
  assert (Hf : failed (fst (run E o st)))
    by (now rewrite (run_validate_error E o st e He)).
  split; [exact Hf | now apply failed_keeps_store].
Qed.

(** [set-context dev --ksql=ksql:8088 --algorithm=SHA512] with the ksql
    server down. *)
Lemma unanswered_probe_blocks_witness :
  failed (fst (run (sample_world false true)
                 (fst (complete (parse_flags [flag_ksql "ksql:8088";
                                              flag_algorithm "SHA512"]) ["dev"]))
                 (start store_dev)))
  /\ kafta (snd (run (sample_world false true)
                 (fst (complete (parse_flags [flag_ksql "ksql:8088";
                                              flag_algorithm "SHA512"]) ["dev"]))
                 (start store_dev))) = store_dev.
Proof.
  apply (unanswered_probe_blocks (sample_world false true)
           (fst (complete (parse_flags [flag_ksql "ksql:8088";
                                        flag_algorithm "SHA512"]) ["dev"]))
           (start store_dev)); try reflexivity.
  left. reflexivity.
Defined.

(** X13. What [testHost] answers.  [testHost] always returns, keeps the
    store, and answers [true] exactly when the address holds a [":"] and the
    TCP connect to it succeeds; on an address with a [":"], whatever stands
    before and after it, its one event is the connect to that very
    address. *)
Theorem testHost_answer {W} (E : collaborators W) (address : string)
  (st : state W) :
  exists ok,
    fst (testHost E address st) = Ret ok
    /\ (ok = true <->
        contains_byte address ":" = true
        /\ fst (DialTimeout E address (world st)) = true)
    /\ kafta (snd (testHost E address st)) = kafta st
    /\ (contains_byte address ":" = true ->
        since st (snd (testHost E address st)) = [EvDial address]).
Proof.
  destruct (lacks_port address) eqn:Hl.
  - pose proof (proj1 (lacks_port_spec address) Hl) as Hc.
    rewrite (testHost_lacks_port E address st Hl). exists false. cbn.
    split; [reflexivity|]. split; [|split; [reflexivity | congruence]].
    split; [discriminate | intros [H _]; congruence].
  - assert (Hc : contains_byte address ":" = true).
    { destruct (contains_byte address ":") eqn:Hc; [reflexivity|].
      apply lacks_port_spec in Hc. congruence. }
    rewrite (testHost_dials E address st Hl).
    exists (fst (DialTimeout E address (world st))). cbn.
    split; [reflexivity|]. split; [tauto|]. split; [reflexivity|].
    intros _. now apply since_app.
Qed.

(** An address with nothing after the colon is dialled as it is. *)
Lemma testHost_answer_witness :
  since (start store_dev) (snd (testHost (sample_world true true) "ksql:" (start store_dev)))
  = [EvDial "ksql:"].
Proof.
  destruct (testHost_answer (sample_world true true) "ksql:" (start store_dev))
    as (ok & _ & _ & _ & Hdial).
  exact (Hdial eq_refl).
Defined.

(** ** The arguments *)

(** X14. More than one positional argument ends the command at once: the
    process exits with the help error of [complete], before validation, with
    no event and the store as it was. *)
Theorem too_many_arguments {W} (E : collaborators W) (flags : list flag)
  (args : list string) (st : state W) :
  (1 < length args)%nat ->
  set_context E flags args st
  = (Exit (errHelpf "Unexpected args: %v" args), st).
Proof.
  intros Hlen. unfold set_context, set_context_Run, complete.
  apply Nat.ltb_lt in Hlen. rewrite Hlen. reflexivity.
Qed.

Lemma too_many_arguments_witness :
  set_context (sample_world true true) [flag_server "b-1:9092"] ["dev"; "prod"]
    (start store_dev)
  = (Exit (errHelpf "Unexpected args: %v" ["dev"; "prod"]), start store_dev).
Proof.
  apply too_many_arguments. cbn. lia.
Defined.

(** X15. An empty [--version] is not applied.  On the options of a command
    line whose [--version], if any, has the empty value, the merge never
    calls the parser: it returns, and the result has the base's Kafka
    version, although the flag counts as provided. *)
Theorem empty_version_not_applied (lib : sarama) (flags : list flag)
  (args : list string) (base : Context) :
  cliflag.Value (version (parse_flags flags)) = "" ->
  exists c,
    modifyContext lib (fst (complete (parse_flags flags) args)) base = Ret c
    /\ KafkaVersion c = KafkaVersion base.
Proof.
  intros Hv.
  assert (Hpv : parsedVersion (fst (complete (parse_flags flags) args)) = "").
  { pose proof (parse_flags_parsedVersion flags registered) as Hreg.
    fold (parse_flags flags) in Hreg. cbn in Hreg.
    unfold complete. destruct (1 <? length args)%nat; [exact Hreg|].
    destruct args as [|a [|b rest]]; cbn;
      destruct (cliflag.Provided (version (parse_flags flags))); cbn;
      assumption. }
  rewrite modifyContext_merged. unfold version_step. rewrite Hpv. cbn.
  eexists. split; reflexivity.
Qed.

Lemma empty_version_not_applied_witness :
  cliflag.Provided (version (parse_flags [flag_version ""])) = true
  /\ exists c,
      modifyContext sarama_sample
        (fst (complete (parse_flags [flag_version ""]) ["dev"])) ctx_plain = Ret c
      /\ KafkaVersion c = "2.8.0".
Proof.
  split; [reflexivity|].
  exact (empty_version_not_applied sarama_sample [flag_version ""] ["dev"]
           ctx_plain eq_refl).
Defined.

(** ** [get-configs], from connection to table *)

(** X16. [get-configs] without argument, when everything answers.  The
    command connects, lists the brokers and closes the connection; connects
    again, asks for the configuration of the first controller of the list,
    renders the entries it got and closes that connection; it returns
    normally and the store is as it was. *)
Theorem get_configs_controller_run {W} (E : collaborators W) (st : state W)
  (w1 w2 w3 w4 : W) (brokers : list Broker) (b : Broker)
  (configs : list ConfigEntry) :
  MakeConnection E (kafta st) (world st) = (None, w1) ->
  GetBrokers E w1 = (inl brokers, w2) ->
  first_controller brokers = Some b ->
  MakeConnection E (kafta st) w2 = (None, w3) ->
  DescribeBrokerConfig E (FormatInt (ID b)) w3 = (inl configs, w4) ->
  get_configs E [] st
  = (Ret tt,
     mkState w4
       (trace st
        ++ [EvMakeConnection; EvGetBrokers; EvCloseConnection;
            EvMakeConnection; EvDescribeBrokerConfig (FormatInt (ID b));
            EvTable configs; EvCloseConnection])
       (kafta st)).
Proof.
  intros Hc1 Hb Hfirst Hc2 Hd.
  unfold get_configs, bind at 1.
  rewrite (defaultValue_listing E st w1 w2 brokers Hc1 Hb), Hfirst. cbn.
  unfold run_get_configs, bind, get_kafta, emit, ask_or_exit, bind, ask, ret,
    lift_res; cbn.
  rewrite Hc2; cbn. rewrite Hd; cbn.
  now rewrite <- !app_assoc.
Qed.

Lemma get_configs_controller_run_witness :
  get_configs (sample_world true true) [] (start store_dev)
  = (Ret tt,
     mkState tt
       [EvMakeConnection; EvGetBrokers; EvCloseConnection;
        EvMakeConnection; EvDescribeBrokerConfig "2";
        EvTable [mkConfigEntry "log.dirs" "/var/lib/kafka" false];
        EvCloseConnection]
       store_dev).
Proof.
  exact (get_configs_controller_run (sample_world true true) (start store_dev)
           tt tt tt tt [mkBroker 1 false; mkBroker 2 true; mkBroker 3 true]
           (mkBroker 2 true) [mkConfigEntry "log.dirs" "/var/lib/kafka" false]
           eq_refl eq_refl eq_refl eq_refl eq_refl).
Defined.

Lemma defaultValue_frame {W} (E : collaborators W) o args (st : state W) :
  wp (defaultValue E o args)
     (fun r st' =>
        kafta st' = kafta st
        /\ exists new, trace st' = trace st ++ new
                       /\ Forall (fun ev => is_table ev = false) new
                       /\ forall a rest, args = a :: rest ->
                                         r = Ret (mkClusterConfig a, None)
                                         /\ new = [])
     st.
Proof.
  unfold defaultValue. destruct args as [|a rest].
  - apply wp_bind, wp_get_kafta, wp_bind, wp_emit, wp_bind, wp_ask_or_exit;
      cbn [world trace kafta].
    + intros [] w Hc. apply wp_bind, wp_emit, wp_bind, wp_ask_or_exit;
        cbn [world trace kafta].
      * intros brokers w' Hb. apply wp_bind, wp_emit. cbn [world trace kafta].
        destruct (String.eqb _ _); apply wp_ret; (split; [reflexivity|]);
          exists [EvMakeConnection; EvGetBrokers; EvCloseConnection];
          (split; [now rewrite <- !app_assoc|]);
          (split; [repeat constructor | discriminate]).
      * intros e w' Hb. split; [reflexivity|].
        exists [EvMakeConnection; EvGetBrokers].
        split; [now rewrite <- !app_assoc|].
        split; [repeat constructor | discriminate].
    + intros e w Hc. split; [reflexivity|]. exists [EvMakeConnection].
      split; [reflexivity|]. split; [repeat constructor | discriminate].
  - apply wp_ret. split; [reflexivity|]. exists [].
    split; [now rewrite app_nil_r|]. split; [constructor|].
    now intros a' rest' [= <- <-].
Qed.

Lemma run_get_configs_frame {W} (E : collaborators W) o (st : state W) :
  wp (run_get_configs E o)
     (fun r st' =>
        kafta st' = kafta st
        /\ exists new, trace st' = trace st ++ new
           /\ match r with
              | Ret _ =>
                  exists configs,
                    new = [EvMakeConnection; EvDescribeBrokerConfig (brokerId o);
                           EvTable configs; EvCloseConnection]
              | Exit _ => Forall (fun ev => is_table ev = false) new
              end)
     st.
Proof.
  unfold run_get_configs.
  apply wp_bind, wp_get_kafta, wp_bind, wp_emit, wp_bind, wp_ask_or_exit;
    cbn [world trace kafta].
  - intros [] w Hc. apply wp_bind, wp_emit, wp_bind, wp_ask_or_exit;
      cbn [world trace kafta].
    + intros configs w' Hd. apply wp_bind, wp_emit, wp_emit. cbn [world trace kafta].
      split; [reflexivity|]. eexists. split; [now rewrite <- !app_assoc|].
      exists configs. reflexivity.
    + intros e w' Hd. split; [reflexivity|].
      exists [EvMakeConnection; EvDescribeBrokerConfig (brokerId o)].
      split; [now rewrite <- !app_assoc | repeat constructor].
  - intros e w Hc. split; [reflexivity|]. exists [EvMakeConnection].
    split; [reflexivity | repeat constructor].
Qed.

(** X17. How [get-configs] ends.  The command never changes the store.
    When it ends the process (no connection, no broker list, no controller,
    no configuration) it has rendered no table.  When it returns, the last
    things it did are: connect, ask for the configuration of one broker (the
    argument itself when there is one), render one table, close. *)
Theorem get_configs_outcome {W} (E : collaborators W) (args : list string)
  (st : state W) :
  kafta (snd (get_configs E args st)) = kafta st
  /\ (forall e, fst (get_configs E args st) = Exit e ->
                Forall (fun ev => is_table ev = false)
                       (since st (snd (get_configs E args st))))
  /\ (fst (get_configs E args st) = Ret tt ->
      exists before id configs,
        since st (snd (get_configs E args st))
        = before ++ [EvMakeConnection; EvDescribeBrokerConfig id;
                     EvTable configs; EvCloseConnection]
        /\ Forall (fun ev => is_table ev = false) before
        /\ (forall a rest, args = a :: rest -> id = a /\ before = [])).
Proof.
  assert (H : wp (get_configs E args)
                 (fun r st' =>
                    kafta st' = kafta st
                    /\ exists new,
                        trace st' = trace st ++ new
                        /\ match r with
                           | Exit _ => Forall (fun ev => is_table ev = false) new
                           | Ret _ =>
                               exists before id configs,
                                 new = before
                                       ++ [EvMakeConnection;
                                           EvDescribeBrokerConfig id;
                                           EvTable configs; EvCloseConnection]
                                 /\ Forall (fun ev => is_table ev = false) before
                                 /\ (forall a rest, args = a :: rest ->
                                                    id = a /\ before = [])
                           end) st).
  { unfold get_configs. apply wp_bind.
    eapply wp_mono; [apply defaultValue_frame|].
    intros r st1 (Hk1 & new1 & Ht1 & Hno & Harg).
    destruct r as [[o' err]|e].
    2:{ split; [exact Hk1|]. exists new1. auto. }
    apply wp_bind, wp_CheckErr. cbn [fst snd].
    destruct err as [e|].
    { split; [exact Hk1|]. exists new1. auto. }
    eapply wp_mono; [apply run_get_configs_frame|].
    intros r2 st2 (Hk2 & new2 & Ht2 & Hr2).
    split; [congruence|]. exists (new1 ++ new2).
    split; [now rewrite Ht2, Ht1, app_assoc|].
    destruct r2 as [[]|e].
    - destruct Hr2 as [configs ->].
      exists new1, (brokerId o'), configs. split; [reflexivity|].
      split; [exact Hno|].
      intros a rest Hargs. destruct (Harg a rest Hargs) as [Hret Hnil].
      injection Hret as ->. split; [reflexivity | exact Hnil].
    - apply Forall_app. auto. }
  unfold wp in H. destruct H as (Hk & new & Ht & Hr).
  rewrite (since_app _ _ _ Ht).
  split; [exact Hk|]. split.
  - intros e He. now rewrite He in Hr.
  - intros Hret. now rewrite Hret in Hr.
Qed.

(** With the cluster out of reach [get-configs] ends at the first
    connection, nothing rendered. *)
Lemma get_configs_outcome_witness :
  fst (get_configs (sample_world true false) [] (start store_dev))
  = Exit (errExternal "kafka: client has run out of available brokers")
  /\ Forall (fun ev => is_table ev = false)
       (since (start store_dev)
          (snd (get_configs (sample_world true false) [] (start store_dev)))).
Proof.
  split; [reflexivity|].
  destruct (get_configs_outcome (sample_world true false) [] (start store_dev))
    as (_ & Hexit & _).
  exact (Hexit _ eq_refl).
Defined.

Lemma FormatInt_inj (i j : Z) : FormatInt i = FormatInt j -> i = j.
Proof.
  unfold FormatInt. intros H.
  assert (Hnorm : forall z, Z.to_int z <> Decimal.Pos Decimal.Nil
                            /\ Z.to_int z <> Decimal.Neg Decimal.Nil).
  { intros z. split; intros Hz;
      (assert (z = 0%Z) as ->
          by (rewrite <- (DecimalZ.of_to z), Hz; reflexivity));
      discriminate Hz. }
  assert (Hi : NilZero.int_of_string (NilZero.string_of_int (Z.to_int i))
               = Some (Z.to_int i)) by (apply NilZero.isi; apply Hnorm).
  assert (Hj : NilZero.int_of_string (NilZero.string_of_int (Z.to_int j))
               = Some (Z.to_int j)) by (apply NilZero.isi; apply Hnorm).
  rewrite H, Hj in Hi. injection Hi as Hi.
  apply (f_equal Z.of_int) in Hi. now rewrite !DecimalZ.of_to in Hi.
Qed.

(** X18. The broker id under which the configuration is asked for names the
    controller: two broker lists lead [defaultValue] to the same [brokerId]
    exactly when their first controllers have the same id, and a list with a
    controller never leaves the [brokerId] empty. *)
Theorem controller_id_faithful (brokers brokers' : list Broker) (b b' : Broker)
  (o : clusterConfig) :
  first_controller brokers = Some b ->
  first_controller brokers' = Some b' ->
  (brokerId (controller_loop brokers o) = brokerId (controller_loop brokers' o)
   <-> ID b = ID b')
  /\ brokerId (controller_loop brokers o) <> "".
Proof.
  intros Hb Hb'. rewrite !controller_loop_first, Hb, Hb'. cbn. split.
  - split; [apply FormatInt_inj | now intros ->].
  - intros H. pose proof (FormatInt_nonempty (ID b)) as Hne.
    rewrite H in Hne. discriminate.
Qed.

Lemma controller_id_faithful_witness :
  brokerId (controller_loop [mkBroker 1 false; mkBroker 2 true]
              (mkClusterConfig ""))
  <> brokerId (controller_loop [mkBroker 3 true; mkBroker 2 true]
                 (mkClusterConfig "")).
Proof.
  intros H.
  apply (controller_id_faithful [mkBroker 1 false; mkBroker 2 true]
           [mkBroker 3 true; mkBroker 2 true] (mkBroker 2 true) (mkBroker 3 true)
           (mkClusterConfig "") eq_refl eq_refl) in H.
  discriminate H.
Defined.

(** ** [run], step by step *)

(** [run] read as one decision: what validation returns, whether the name
    resolves, what the prompts return, whether the merge returns, and what
    the connection answers. *)
Lemma run_unfold {W} (E : collaborators W) o (st : state W) :
  run E o st
  = match validate E o st with
    | (Exit e, st1) => (Exit e, st1)
    | (Ret (Some e), st1) => (Ret ("", false, Some e), st1)
    | (Ret None, st1) =>
        if currContext o && (String.length (CurrentContext (kafta st1)) =? 0)%nat
        then (Ret ("", false, Some err_no_current), st1)
        else
          let n := target_name o (kafta st1) in
          let base := starting_instance E (kafta st1) n in
          let ex := match Contexts (kafta st1) !! n with
                    | Some _ => true
                    | None => false
                    end in
          match promptNeeded E o base st1 with
          | (Exit e, st2) => (Exit e, st2)
          | (Ret (o', Some e), st2) => (Exit e, st2)
          | (Ret (o', None), st2) =>
              match modifyContext (lib_sarama E) o' base with
              | Exit e => (Exit e, st2)
              | Ret c =>
                  if cliflag.Provided (bootstrapServers o') then
                    match MakeConnectionContext E (kafta st2) c (world st2) with
                    | (Some e, w) =>
                        (Exit e,
                         mkState w
                           (trace st2
                            ++ [EvPrintContext c; EvMakeConnectionContext c])
                           (kafta st2))
                    | (None, w) =>
                        (Ret (n, ex, None),
                         mkState w
                           (trace st2
                            ++ [EvPrintContext c; EvMakeConnectionContext c;
                                EvCloseConnection])
                           (with_Contexts (<[n := c]> (Contexts (kafta st2)))
                                          (kafta st2)))
                    end
                  else
                    (Ret (n, ex, None),
                     mkState (world st2) (trace st2 ++ [EvPrintContext c])
                       (with_Contexts (<[n := c]> (Contexts (kafta st2)))
                                      (kafta st2)))
              end
          end
    end.
Proof.
  unfold run. unfold bind at 1.
  destruct (validate E o st) as [[[e|]|e] st1]; try reflexivity.
  unfold bind at 1, get_kafta at 1. rewrite resolve_name.
  destruct (currContext o && _); [reflexivity|].
  rewrite load_or_create. cbn iota zeta.
  unfold bind at 1.
  destruct (promptNeeded E o _ st1) as [[[o' [e|]]|e] st2]; try reflexivity.
  unfold bind, CheckErr, lift_res, CheckErr_res, emit, checkConnection, bind,
    get_kafta, put_kafta, ask, ret. cbn.
  destruct (modifyContext (lib_sarama E) o' _) as [c|e]; [|reflexivity]. cbn.
  destruct (cliflag.Provided (bootstrapServers o')); cbn; [|reflexivity].
  destruct (MakeConnectionContext E (kafta st2) c (world st2)) as [[e|] w]; cbn;
    rewrite <- ?app_assoc; reflexivity.
Qed.

Lemma validate_keeps {W} (E : collaborators W) o (st st1 : state W) r :
  validate E o st = (r, st1) ->
  kafta st1 = kafta st
  /\ exists new, trace st1 = trace st ++ new /\ Forall probe_event new.
Proof.
  intros Hv. destruct (validate_facts E o st) as (err & new & _ & [Ht Hk] & Hp & _).
  rewrite Hv in *. cbn in *. eauto.
Qed.

Lemma promptNeeded_keeps {W} (E : collaborators W) o c (st1 st2 : state W) o' err :
  promptNeeded E o c st1 = (Ret (o', err), st2) ->
  kafta st2 = kafta st1
  /\ trace st2 = trace st1 ++ since st1 st2
  /\ Forall (fun ev => is_prompt ev = true) (since st1 st2)
  /\ cliflag.Provided (bootstrapServers o')
     = cliflag.Provided (bootstrapServers o)
       || asked "Bootstrap servers" (since st1 st2).
Proof.
  intros Hp.
  pose proof (promptNeeded_spec E o c st1) as (new & [Ht Hk] & Hprompt & _).
  pose proof (promptNeeded_prompts_spec E o c st1) as (new' & Ht' & _ & Hasked).
  unfold wp in *. rewrite Hp in *. cbn [fst snd] in *.
  assert (new' = new) as -> by (rewrite Ht in Ht'; now apply app_inv_head in Ht').
  rewrite (since_app _ _ _ Ht).
  destruct Hasked as (_ & _ & _ & _ & _ & _ & Hbs). auto.
Qed.

(** From the return of the prompts on, [run] is decided by the options the
    prompts returned: it persists without a connection when they hold no
    bootstrap servers, and otherwise persists after a successful connection
    or ends the process on a failed one. *)
Lemma run_after_prompts {W} (E : collaborators W) o (st st1 st2 : state W) o' c :
  validate E o st = (Ret None, st1) ->
  (currContext o = true -> CurrentContext (kafta st) <> "") ->
  promptNeeded E o (starting_instance E (kafta st) (target_name o (kafta st))) st1
  = (Ret (o', None), st2) ->
  modifyContext (lib_sarama E) o'
    (starting_instance E (kafta st) (target_name o (kafta st))) = Ret c ->
  run E o st
  = if cliflag.Provided (bootstrapServers o') then
      match MakeConnectionContext E (kafta st) c (world st2) with
      | (Some e, w) =>
          (Exit e,
           mkState w (trace st2 ++ [EvPrintContext c; EvMakeConnectionContext c])
                   (kafta st))
      | (None, w) =>
          (Ret (target_name o (kafta st),
                match Contexts (kafta st) !! target_name o (kafta st) with
                | Some _ => true
                | None => false
                end, None),
           mkState w
             (trace st2
              ++ [EvPrintContext c; EvMakeConnectionContext c; EvCloseConnection])
             (with_Contexts
                (<[target_name o (kafta st) := c]> (Contexts (kafta st)))
                (kafta st)))
      end
    else
      (Ret (target_name o (kafta st),
            match Contexts (kafta st) !! target_name o (kafta st) with
            | Some _ => true
            | None => false
            end, None),
       mkState (world st2) (trace st2 ++ [EvPrintContext c])
         (with_Contexts
            (<[target_name o (kafta st) := c]> (Contexts (kafta st)))
            (kafta st))).
Proof.
  intros Hv Hcur Hp Hm.
  destruct (validate_keeps E o st st1 _ Hv) as [Hk1 _].
  destruct (promptNeeded_keeps E o _ st1 st2 o' None Hp) as [Hk2 _].
  rewrite run_unfold, Hv, Hk1.
  assert (Hres : currContext o
                 && (String.length (CurrentContext (kafta st)) =? 0)%nat = false).
  { destruct (currContext o); [|reflexivity]. cbn.
    destruct (String.length (CurrentContext (kafta st)) =? 0)%nat eqn:Hl;
      [|reflexivity].
    apply length_zero_empty in Hl. now apply Hcur in Hl. }
  rewrite Hres. cbv zeta. rewrite Hp, Hm, Hk2, Hk1. reflexivity.
Qed.

(** A successful run, read backwards. *)
Lemma run_success_inv {W} (E : collaborators W) o (st : state W) n ex :
  fst (run E o st) = Ret (n, ex, None) ->
  exists st1 o' st2 c,
    validate E o st = (Ret None, st1)
    /\ (currContext o = true -> CurrentContext (kafta st) <> "")
    /\ n = target_name o (kafta st)
    /\ promptNeeded E o (starting_instance E (kafta st) n) st1
       = (Ret (o', None), st2)
    /\ modifyContext (lib_sarama E) o' (starting_instance E (kafta st) n) = Ret c.
Proof.
  intros Hrun. rewrite run_unfold in Hrun.
  destruct (validate E o st) as [[[e|]|e] st1] eqn:Hv; try discriminate.
  destruct (validate_keeps E o st st1 _ Hv) as [Hk1 _]. rewrite Hk1 in Hrun.
  destruct (currContext o && _) eqn:Hres; [discriminate|]. cbv zeta in Hrun.
  destruct (promptNeeded E o _ st1) as [[[o' [e|]]|e] st2] eqn:Hp; try discriminate.
  destruct (modifyContext (lib_sarama E) o' _) as [c|e] eqn:Hm; [|discriminate].
  assert (Hn : n = target_name o (kafta st)).
  { destruct (cliflag.Provided (bootstrapServers o'));
      [destruct (MakeConnectionContext E (kafta st2) c (world st2)) as [[e|] w]|];
      cbn in Hrun; congruence. }
  subst n. exists st1, o', st2, c. split; [reflexivity|].
  split; [|split; [reflexivity|split; assumption]].
  intros Hc Hnone. rewrite Hc, Hnone in Hres. discriminate.
Qed.

(** * Connectivity gating *)

(** C1, as stated, fails: without [--server], on a profile that has no
    servers yet, the command asks for them, and the servers typed at the
    prompt are checked by a live connection like those of the flag. *)
Lemma connectivity_check_without_server_flag :
  cliflag.Provided
    (bootstrapServers (fst (complete (parse_flags []) ["new"]))) = false
  /\ exists c,
      In (EvMakeConnectionContext c)
         (trace (snd (run typing_world (fst (complete (parse_flags []) ["new"]))
                        (start store_dev)))).
Proof.
  split; [reflexivity|]. eexists. vm_compute. do 4 right. left. reflexivity.
Qed.

(** C1, amended.  Connectivity gating goes by the bootstrap servers there
    are once the prompts are over, from [--server] or typed at the
    "Bootstrap servers" prompt.  Whatever the invocation: when [run] does not
    succeed the store is as it was; when servers came by flag or the prompt
    was shown, and the cluster cannot be reached, [run] does not succeed and
    the contexts map is unchanged, and a successful [run] has opened a
    connection to the merged profile's cluster, successfully, before
    storing it; when servers came neither by flag nor by prompt, no
    connection is attempted; with [--server] and the cluster out of reach
    the command as a whole ends the process with the store as it was.  And
    once validation has passed, the name resolved, the prompts returned and
    the merge returned a profile, [run] is decided by whether the returned
    options hold servers (they do exactly when the flag was provided or the
    prompt answered): without servers it stores the profile with no
    connection attempted; with servers it connects, and stores the profile
    after a successful connection or ends the process, the store as it was,
    after a failed one. *)
Theorem run_connectivity_gate {W} (E : collaborators W)
  (o : createContextOptions) (st : state W) :
  (failed (fst (run E o st)) -> kafta (snd (run E o st)) = kafta st)
  /\ (cliflag.Provided (bootstrapServers o) = true
      \/ In (EvPrompt "Bootstrap servers") (since st (snd (run E o st))) ->
      (forall cfg c w, fst (MakeConnectionContext E cfg c w) <> None) ->
      failed (fst (run E o st))
      /\ Contexts (kafta (snd (run E o st))) = Contexts (kafta st))
  /\ (cliflag.Provided (bootstrapServers o) = true
      \/ In (EvPrompt "Bootstrap servers") (since st (snd (run E o st))) ->
      forall n ex, fst (run E o st) = Ret (n, ex, None) ->
      exists c,
        Contexts (kafta (snd (run E o st))) !! n = Some c
        /\ In (EvMakeConnectionContext c) (since st (snd (run E o st)))
        /\ exists w, fst (MakeConnectionContext E (kafta st) c w) = None)
  /\ (cliflag.Provided (bootstrapServers o) = false ->
      ~ In (EvPrompt "Bootstrap servers") (since st (snd (run E o st))) ->
      Forall (fun ev => is_connect ev = false) (since st (snd (run E o st))))
  /\ (forall args,
         cliflag.Provided (bootstrapServers o) = true ->
         (forall cfg c w, fst (MakeConnectionContext E cfg c w) <> None) ->
         exists e,
           fst (set_context_Run E o args st) = Exit e
           /\ kafta (snd (set_context_Run E o args st)) = kafta st)
  /\ (forall st1 o' st2 c,
         validate E o st = (Ret None, st1) ->
         (currContext o = true -> CurrentContext (kafta st) <> "") ->
         promptNeeded E o
           (starting_instance E (kafta st) (target_name o (kafta st))) st1
         = (Ret (o', None), st2) ->
         modifyContext (lib_sarama E) o'
           (starting_instance E (kafta st) (target_name o (kafta st))) = Ret c ->
         cliflag.Provided (bootstrapServers o')
         = cliflag.Provided (bootstrapServers o)
           || asked "Bootstrap servers" (since st1 st2)
         /\ run E o st
            = if cliflag.Provided (bootstrapServers o') then
                match MakeConnectionContext E (kafta st) c (world st2) with
                | (Some e, w) =>
                    (Exit e,
                     mkState w
                       (trace st2 ++ [EvPrintContext c; EvMakeConnectionContext c])
                       (kafta st))
                | (None, w) =>
                    (Ret (target_name o (kafta st),
                          match Contexts (kafta st) !! target_name o (kafta st) with
                          | Some _ => true
                          | None => false
                          end, None),
                     mkState w
                       (trace st2
                        ++ [EvPrintContext c; EvMakeConnectionContext c;
                            EvCloseConnection])
                       (with_Contexts
                          (<[target_name o (kafta st) := c]> (Contexts (kafta st)))
                          (kafta st)))
                end
              else
                (Ret (target_name o (kafta st),
                      match Contexts (kafta st) !! target_name o (kafta st) with
                      | Some _ => true
                      | None => false
                      end, None),
                 mkState (world st2) (trace st2 ++ [EvPrintContext c])
                   (with_Contexts
                      (<[target_name o (kafta st) := c]> (Contexts (kafta st)))
                      (kafta st)))).
Proof.
  (* a successful run with servers by flag or prompt has connected *)
  assert (Hsucc : cliflag.Provided (bootstrapServers o) = true
                  \/ In (EvPrompt "Bootstrap servers") (since st (snd (run E o st))) ->
                  forall n ex, fst (run E o st) = Ret (n, ex, None) ->
                  exists c,
                    Contexts (kafta (snd (run E o st))) !! n = Some c
                    /\ In (EvMakeConnectionContext c) (since st (snd (run E o st)))
                    /\ exists w, fst (MakeConnectionContext E (kafta st) c w) = None).
  { intros Hsrv n ex Hrun.
    destruct (run_success_inv E o st n ex Hrun)
      as (st1 & o' & st2 & c & Hv & Hcur & -> & Hp & Hm).
    destruct (validate_keeps E o st st1 _ Hv) as (Hk1 & new1 & Ht1 & Hprobe).
    destruct (promptNeeded_keeps E o _ st1 st2 o' None Hp)
      as (Hk2 & Ht2 & Hprompt & Hbs).
    pose proof (run_after_prompts E o st st1 st2 o' c Hv Hcur Hp Hm) as Heq.
    destruct (cliflag.Provided (bootstrapServers o')) eqn:Hbs'.
    - destruct (MakeConnectionContext E (kafta st) c (world st2)) as [[e|] w] eqn:Hc;
        rewrite Heq in Hrun |- *; [discriminate|]. cbn [fst snd kafta trace].
      exists c. split; [cbn; apply lookup_insert_eq|]. split.
      + rewrite (since_app st _ (new1 ++ since st1 st2
                                  ++ [EvPrintContext c; EvMakeConnectionContext c;
                                      EvCloseConnection])).
        * rewrite !in_app_iff. right. right. right. left. reflexivity.
        * cbn. rewrite Ht2, Ht1, <- !app_assoc. reflexivity.
      + exists (world st2). now rewrite Hc.
    - exfalso. symmetry in Hbs. apply orb_false_elim in Hbs as [Hflag Hask].
      destruct Hsrv as [Hsrv|Hsrv]; [congruence|].
      rewrite Heq in Hsrv. cbn [snd] in Hsrv.
      rewrite (since_app st _ (new1 ++ since st1 st2 ++ [EvPrintContext c]))
        in Hsrv by (cbn; rewrite Ht2, Ht1, <- !app_assoc; reflexivity).
      rewrite !in_app_iff in Hsrv. destruct Hsrv as [Hin|[Hin|[Hin|[]]]].
      + rewrite List.Forall_forall in Hprobe. exact (Hprobe _ Hin).
      + apply asked_In in Hin. congruence.
      + discriminate Hin. }
  assert (Hgate : forall o',
             cliflag.Provided (bootstrapServers o') = true ->
             (forall cfg c w, fst (MakeConnectionContext E cfg c w) <> None) ->
             failed (fst (run E o' st))).
  { intros o' Hp Hdown.
    pose proof (run_facts E o' st) as (new & _ & _ & _ & Hr).
    destruct (fst (run E o' st)) as [[[n ex] [e|]]|e]; cbn; auto.
    destruct Hr as (o2 & c & _ & _ & Hfrom & _ & _ & Hc).
    destruct (Hc (prompted_from_bootstrap o' o2 Hfrom Hp)) as [_ [w Hw]].
    now apply Hdown in Hw. }
  assert (Hcmd : forall args,
             cliflag.Provided (bootstrapServers o) = true ->
             (forall cfg c w, fst (MakeConnectionContext E cfg c w) <> None) ->
             exists e,
               fst (set_context_Run E o args st) = Exit e
               /\ kafta (snd (set_context_Run E o args st)) = kafta st).
  { intros args Hp Hdown.
    pose proof (set_context_Run_outcome E o args st) as Hout.
    destruct (snd (complete o args)) as [e|].
    - exists e. now rewrite Hout.
    - destruct Hout as [Hfail _].
      assert (Hf : failed (fst (run E (fst (complete o args)) st))).
      { apply Hgate; [|exact Hdown]. now rewrite complete_bootstrapServers. }
      destruct (Hfail Hf) as [e He]. exists e. rewrite He. cbn.
      split; [reflexivity | now apply failed_keeps_store]. }
  split; [apply failed_keeps_store|].
  split; [|split; [exact Hsucc|split; [|split; [exact Hcmd|]]]].
  - intros Hsrv Hdown.
    assert (Hf : failed (fst (run E o st))).
    { destruct (fst (run E o st)) as [[[n ex] [e|]]|e] eqn:Hrun; cbn; auto.
      destruct (Hsucc Hsrv n ex eq_refl) as (c & _ & _ & w & Hw).
      now apply Hdown in Hw. }
    split; [exact Hf|]. now rewrite failed_keeps_store.
  - pose proof (run_facts E o st) as (new & Ht & _ & Hconn & _).
    rewrite (since_app _ _ _ Ht). exact Hconn.
  - intros st1 o' st2 c Hv Hcur Hp Hm. split.
    + now destruct (promptNeeded_keeps E o _ st1 st2 o' None Hp) as (_ & _ & _ & Hbs).
    + now apply run_after_prompts with (st1 := st1).
Qed.

(** Servers typed at the prompt with the cluster out of reach: the process
    ends and the store is as it was.  No servers at all, by flag or prompt:
    the profile is stored although the cluster is out of reach. *)
Lemma run_connectivity_gate_witness :
  (failed (fst (run typing_offline (fst (complete (parse_flags []) ["new"]))
                  (start store_dev)))
   /\ Contexts (kafta (snd (run typing_offline
                             (fst (complete (parse_flags []) ["new"]))
                             (start store_dev))))
      = Contexts store_dev)
  /\ run (sample_world true false)
       (fst (complete (parse_flags [flag_algorithm "SHA512"]) ["dev"]))
       (start store_dev)
     = (Ret ("dev", true, None),
        mkState tt
          [EvPrompt "Use SASL";
           EvPrintContext (with_SASL (mkSASL "SHA512" "" "") (with_TLS true ctx_plain))]
          (mkKaftaData "dev"
             {[ "dev" := with_SASL (mkSASL "SHA512" "" "") (with_TLS true ctx_plain) ]})).
Proof.
  split.
  - apply (run_connectivity_gate typing_offline
             (fst (complete (parse_flags []) ["new"])) (start store_dev)).
    + right. vm_compute. left. reflexivity.
    + intros cfg c w. cbn. discriminate.
  - destruct (run_connectivity_gate (sample_world true false)
                (fst (complete (parse_flags [flag_algorithm "SHA512"]) ["dev"]))
                (start store_dev)) as (_ & _ & _ & _ & _ & Hrun).
    destruct (Hrun (start store_dev)
                (fst (complete (parse_flags [flag_algorithm "SHA512"]) ["dev"]))
                (mkState tt [EvPrompt "Use SASL"] store_dev)
                (with_SASL (mkSASL "SHA512" "" "") (with_TLS true ctx_plain))
                eq_refl (fun H => match Bool.diff_false_true H with end)
                eq_refl eq_refl) as [_ Heq].
    rewrite Heq. vm_compute. reflexivity.
Defined.

(** ** The command, all or nothing *)

(** X19. One invocation stores one profile or nothing.  An invocation of
    [set-context] that ends the process leaves the store as it was.  One that
    returns had at most one positional argument and a passed validation; it
    has written exactly one entry of the contexts map, under the name the
    completed options resolve to, and what it wrote there is the merge, into
    what the store held under that name (or the default profile), of the
    options the prompts returned on the options of the command line; its
    last event is the report line for that name, "modified" when the store
    held the name before and "created" otherwise. *)
Theorem set_context_all_or_nothing {W} (E : collaborators W)
  (flags : list flag) (args : list string) (st : state W) :
  let o := fst (complete (parse_flags flags) args) in
  let n := target_name o (kafta st) in
  let base := starting_instance E (kafta st) n in
  match fst (set_context E flags args st) with
  | Exit _ => kafta (snd (set_context E flags args st)) = kafta st
  | Ret _ =>
      (length args <= 1)%nat
      /\ exists st1 o' st2 c,
          validate E o st = (Ret None, st1)
          /\ promptNeeded E o base st1 = (Ret (o', None), st2)
          /\ modifyContext (lib_sarama E) o' base = Ret c
          /\ kafta (snd (set_context E flags args st))
             = with_Contexts (<[n := c]> (Contexts (kafta st))) (kafta st)
          /\ last (trace (snd (set_context E flags args st)))
             = Some (match Contexts (kafta st) !! n with
                     | Some _ => EvReportModified n
                     | None => EvReportCreated n
                     end)
  end.
Proof.
  intros o n base. unfold set_context.
  pose proof (set_context_Run_outcome E (parse_flags flags) args st) as Hout.
  destruct (snd (complete (parse_flags flags) args)) as [e|] eqn:Hc.
  { rewrite Hout. reflexivity. }
  cbv zeta in Hout. fold o in Hout. destruct Hout as [Hfail _].
  assert (Hcomp : complete (parse_flags flags) args = (o, None)).
  { unfold o. destruct (complete (parse_flags flags) args); cbn in *. now subst. }
  assert (Hargs : (length args <= 1)%nat).
  { unfold complete in Hc. destruct (Nat.ltb_spec 1 (length args)); [discriminate|lia]. }
  destruct (fst (run E o st)) as [[[n0 ex] [e|]]|e] eqn:Hrun.
  - destruct (Hfail I) as [e' ->]. cbn.
    apply failed_keeps_store. now rewrite Hrun.
  - rewrite (set_context_Run_prints E _ _ o st n0 ex Hcomp Hrun). cbn [fst snd kafta trace].
    split; [exact Hargs|].
    destruct (run_success_inv E o st n0 ex Hrun)
      as (st1 & o' & st2 & c & Hv & Hcur & -> & Hp & Hm).
    fold n in Hp, Hm, Hrun. fold base in Hp, Hm.
    pose proof (run_after_prompts E o st st1 st2 o' c Hv Hcur Hp Hm) as Heq.
    fold n in Heq.
    exists st1, o', st2, c.
    split; [exact Hv|]. split; [exact Hp|]. split; [exact Hm|].
    rewrite last_snoc.
    assert (Hres : kafta (snd (run E o st))
                   = with_Contexts (<[n := c]> (Contexts (kafta st))) (kafta st)
                   /\ ex = match Contexts (kafta st) !! n with
                           | Some _ => true
                           | None => false
                           end).
    { rewrite Heq in Hrun |- *.
      destruct (cliflag.Provided (bootstrapServers o'));
        [destruct (MakeConnectionContext E (kafta st) c (world st2)) as [[e|] w]|];
        cbn in Hrun |- *; try discriminate; injection Hrun as <-; auto. }
    destruct Hres as [Hk ->]. split; [exact Hk|].
    destruct (Contexts (kafta st) !! n); reflexivity.
  - destruct (Hfail I) as [e' ->]. cbn.
    apply failed_keeps_store. now rewrite Hrun.
Qed.

(** [set-context new --server=b-2:9092] on a store without [new]. *)
Lemma set_context_all_or_nothing_witness :
  fst (set_context (sample_world true true) [flag_server "b-2:9092"] ["new"]
         (start store_dev)) = Ret tt
  /\ last (trace (snd (set_context (sample_world true true)
                         [flag_server "b-2:9092"] ["new"] (start store_dev))))
     = Some (EvReportCreated "new").
Proof.
  split; [reflexivity|].
  pose proof (set_context_all_or_nothing (sample_world true true)
                [flag_server "b-2:9092"] ["new"] (start store_dev)) as H.
  cbv zeta in H.
  assert (Hret : fst (set_context (sample_world true true)
                        [flag_server "b-2:9092"] ["new"] (start store_dev))
                 = Ret tt) by reflexivity.
  rewrite Hret in H.
  destruct H as (_ & st1 & o' & st2 & c & _ & _ & _ & _ & Hlast).
  exact Hlast.
Defined.
